(** * Segframe: the chunked worker-pool engine of [Utils/ParallelUtils.py]

    A shallow embedding of [multiprocess_run] and [multigpu_run].

    - Python integers are [Z]; [int(a / b)] is truncation toward zero
      ([Z.quot], exact for operands below 2^53, which lengths are) and
      [a % b] takes the sign of the divisor ([Z.modulo]).
    - The coordinator is written in state-passing style over a [world]:
      the handles returned by [apply_async], a scheduling oracle that
      decides which tasks the workers finish and when, and the trace of
      events.  A raised exception keeps the world reached so far, so that
      the error exit paths can be inspected.
    - [multiprocess_run] also threads the object store that holds the
      caller's [data] and the arrays numpy allocates.
    - The pool is that of [multiprocessing] as the coordinator sees it:
      a submitted task finishes at a moment the oracle chooses, at the
      latest when the coordinator blocks on its handle, and the handle
      gives back what the task returned or raised.  The library's own
      checks of the arguments of [Pool] are outside the source and are
      not modelled: [multiprocessing.Pool] refuses [processes < 1] with
      a [ValueError], so for such a pool size the model is about the
      call that creates the pool and what is computed before it, and a
      statement about the workers or the result of a run assumes a pool
      of at least one worker. *)

From Stdlib Require Import String.
From Stdlib Require Import ZArith List Bool Lia.
Import ListNotations.
Local Open Scope Z_scope.

(* ================================================================== *)
(** ** Python values and builtins *)

Module Py.

Definition len {T} (l : list T) : Z := Z.of_nat (length l).

(** [range(n)]: empty when [n <= 0]. *)
Definition range (n : Z) : list Z := map Z.of_nat (seq 0 (Z.to_nat n)).

(** [int(a / b)] for [b <> 0]. *)
Definition int_div (a b : Z) : Z := Z.quot a b.

(** A comparison used as an integer, as in [n + (x > 0)]. *)
Definition of_bool (b : bool) : Z := if b then 1 else 0.

(** [slice.indices]: a bound of a slice over a sequence of length [n]. *)
Definition bound (n i : Z) : Z :=
  if i <? 0 then Z.max 0 (n + i) else Z.min i n.

(** [l[a:b]] *)
Definition slice {T} (l : list T) (a b : Z) : list T :=
  let a' := bound (len l) a in
  let b' := bound (len l) b in
  firstn (Z.to_nat (b' - a')) (skipn (Z.to_nat a') l).

(** [l[:b]] *)
Definition slice_to {T} (l : list T) (b : Z) : list T :=
  firstn (Z.to_nat (bound (len l) b)) l.

(** [np.delete(l, np.s_[:b], axis=0)]: a new array without the rows of
    the slice. *)
Definition delete_to {T} (l : list T) (b : Z) : list T :=
  skipn (Z.to_nat (bound (len l) b)) l.

End Py.

(** Exceptions: the ones the engine's own statements raise, and any other
    class a work callback raises, by name. *)
Inductive exn :=
| ZeroDivisionError
| TypeError
| IndexError
| OtherError (cls : String.string).

Inductive outcome (T : Type) :=
| Ok (v : T)
| Raise (e : exn).
Arguments Ok {T} v.
Arguments Raise {T} e.

(** What the pool is created with: [initializer] and [initargs]. *)
Inductive initializer :=
| InitSetLock                                        (* tqdm.set_lock, (RLock(),) *)
| InitDevice (device_queue : option (list Z)) (processes : Z).

(** Observable events of one run, in the order they happen. *)
Inductive event :=
| EvPoolCreate (processes : Z) (init : initializer)  (* multiprocessing.Pool(...) *)
| EvPbarOpen (total : Z)                             (* l = tqdm(total=step) *)
| EvSubmit (h : nat)                                 (* pool.apply_async(...) *)
| EvRun (h : nat)                                    (* a worker calls exec_function *)
| EvUpdate                                           (* callback: l.update(1) *)
| EvWait (h : nat)                                   (* semaphores[h].wait() *)
| EvGet (h : nat)                                    (* semaphores[h].get() *)
| EvPrint
| EvPbarClose                                        (* l.close() *)
| EvTerminate                                        (* pool.terminate() *)
| EvClose                                            (* pool.close() *)
| EvJoin.                                            (* pool.join() *)

Definition is_get (e : event) : bool :=
  match e with EvGet _ => true | _ => false end.
Definition is_submit (e : event) : bool :=
  match e with EvSubmit _ => true | _ => false end.
Definition is_run (e : event) : bool :=
  match e with EvRun _ => true | _ => false end.
Definition is_create (e : event) : bool :=
  match e with EvPoolCreate _ _ => true | _ => false end.
Definition is_close (e : event) : bool :=
  match e with EvClose => true | _ => false end.
Definition is_join (e : event) : bool :=
  match e with EvJoin => true | _ => false end.
Definition is_wait (e : event) : bool :=
  match e with EvWait _ => true | _ => false end.

(** Events of the worker processes, as opposed to the coordinator's. *)
Definition is_worker (e : event) : bool :=
  match e with EvRun _ | EvUpdate => true | _ => false end.

(** [l[n] = x] for [n] in range. *)
Fixpoint set_nth {T} (n : nat) (x : T) (l : list T) : list T :=
  match l, n with
  | [], _ => []
  | _ :: l', O => x :: l'
  | y :: l', S n' => y :: set_nth n' x l'
  end.

Definition count (p : event -> bool) (tr : list event) : nat :=
  length (filter p tr).

(* ================================================================== *)
(** ** The worker pool *)

Section Pool.

Variables Arg Res : Type.

(** The task body: [exec_function(chunk, *exec_params)]. *)
Variable task : Arg -> outcome Res.

Inductive task_state :=
| Pending
| Done (o : outcome Res).

(** An [AsyncResult]. *)
Record handle := mkHandle {
  h_args : Arg;
  h_callback : bool;          (* was [callback=lambda x: l.update(1)] given? *)
  h_state : task_state
}.

Record world := mkWorld {
  semaphores : list handle;   (* handles, in submission order *)
  oracle : list (list nat);   (* which tasks finish at each scheduling point *)
  trace : list event
}.

Definition emit (e : event) (w : world) : world :=
  mkWorld (semaphores w) (oracle w) (trace w ++ [e]).

(** A worker finishes task [h]: it runs the task body, stores the
    outcome in the handle, and on success fires the callback. *)
Definition finish (h : nat) (w : world) : world :=
  match nth_error (semaphores w) h with
  | Some (mkHandle a cb Pending) =>
      let o := task a in
      mkWorld (set_nth h (mkHandle a cb (Done o)) (semaphores w))
              (oracle w)
              (trace w ++ EvRun h ::
                 match o with
                 | Ok _ => if cb then [EvUpdate] else []
                 | Raise _ => []
                 end)
  | _ => w
  end.

(** A scheduling point: the workers finish the tasks the oracle names
    (names of tasks that are not pending are skipped). *)
Definition background (w : world) : world :=
  match oracle w with
  | [] => w
  | hs :: rest =>
      fold_left (fun w' h => finish h w') hs
                (mkWorld (semaphores w) rest (trace w))
  end.

(** [pool.apply_async(exec_function, args=..., callback=...)] *)
Definition apply_async (a : Arg) (cb : bool) (w : world) : world :=
  let h := length (semaphores w) in
  background
    (mkWorld (semaphores w ++ [mkHandle a cb Pending]) (oracle w)
             (trace w ++ [EvSubmit h])).

(** [semaphores[h].wait()]: blocks until task [h] is finished; other
    tasks may finish meanwhile. *)
Definition wait (h : nat) (w : world) : world :=
  finish h (background (emit (EvWait h) w)).

(** [semaphores[h].get()]: blocks like [wait], then returns the stored
    result or re-raises the stored exception. *)
Definition get (h : nat) (w : world) : world * outcome Res :=
  let w' := finish h (background (emit (EvGet h) w)) in
  (w', match nth_error (semaphores w') h with
       | Some (mkHandle _ _ (Done o)) => o
       | _ => Raise IndexError
       end).

(** Handles whose result is not there yet. *)
Definition unresolved (w : world) : nat :=
  length (filter (fun x => match h_state x with Pending => true | Done _ => false end)
                 (semaphores w)).

Definition submitted (w : world) : list Arg := map h_args (semaphores w).

End Pool.

Arguments Pending {Res}.
Arguments Done {Res} o.
Arguments mkHandle {Arg Res} _ _ _.
Arguments h_args {Arg Res} _.
Arguments h_callback {Arg Res} _.
Arguments h_state {Arg Res} _.
Arguments mkWorld {Arg Res} _ _ _.
Arguments semaphores {Arg Res} _.
Arguments oracle {Arg Res} _.
Arguments trace {Arg Res} _.
Arguments emit {Arg Res} _ _.
Arguments finish {Arg Res} _ _ _.
Arguments background {Arg Res} _ _.
Arguments apply_async {Arg Res} _ _ _ _.
Arguments wait {Arg Res} _ _ _.
Arguments get {Arg Res} _ _ _.
Arguments unresolved {Arg Res} _.
Arguments submitted {Arg Res} _.

(** The world a run starts in: nothing submitted, nothing observed. *)
Definition start {Arg Res} (orc : list (list nat)) : world Arg Res :=
  mkWorld [] orc [].

(* ================================================================== *)
(** ** [multiprocess_run] *)

Section MultiprocessRun.

Variables A B P : Type.

(** A Python value that is [None] or a sequence. *)
Definition pyseq := option (list B).

(** The work callback returns a tuple of such values. *)
Variable exec_function : list A -> P -> outcome (list pyseq).
Variable exec_params : P.

Definition cpu_task (chunk : list A) : outcome (list pyseq) :=
  exec_function chunk exec_params.

(** The object store: [data] is a Python list or a numpy array; a
    location is an index, and objects are only ever added. *)
Inductive pyobj :=
| PyList (items : list A)
| NdArray (items : list A).

Definition heap := list pyobj.

Definition fetch (hp : heap) (loc : nat) : list A :=
  match nth_error hp loc with
  | Some (PyList l) | Some (NdArray l) => l
  | None => []
  end.

Definition alloc (o : pyobj) (hp : heap) : heap * nat :=
  (hp ++ [o], length hp).

(** [np.asarray]: an array is returned as it is (the same object), any
    other sequence is converted into a new array. *)
Definition np_asarray (hp : heap) (loc : nat) : heap * nat :=
  match nth_error hp loc with
  | Some (NdArray _) => (hp, loc)
  | _ => alloc (NdArray (fetch hp loc)) hp
  end.

Record submitter := mkSubmitter {
  s_heap : heap;
  datapoints : nat;           (* the array the name [datapoints] is bound to *)
  process_counter : Z;
  s_world : world (list A) (list pyseq)
}.

(** One iteration of the submission loop (lines 39-63). *)
Definition submit_chunk (data : nat) (cpu_count : Z) (pbar : bool)
           (step_size : Z) (s : submitter) : submitter :=
  let hp := s_heap s in
  let end_idx :=
    if step_size >? Py.len (fetch hp data) then Py.len (fetch hp data)
    else step_size in
  let cur_datapoints := Py.slice_to (fetch hp (datapoints s)) end_idx in
  let w := apply_async cpu_task cur_datapoints pbar (s_world s) in
  let (hp', datapoints') :=
    alloc (NdArray (Py.delete_to (fetch hp (datapoints s)) end_idx)) hp in
  if pbar then
    if process_counter s =? cpu_count + 1 then
      mkSubmitter hp' datapoints' 0
                  (wait cpu_task (Z.to_nat (process_counter s)) w)
    else
      mkSubmitter hp' datapoints' (process_counter s + 1) w
  else
    mkSubmitter hp' datapoints' (process_counter s) w.

(** [datapoints_db[k].extend(x)] where [x] is [res[k]], if there is one. *)
Definition extend (datapoints_db : list pyseq) (k : nat)
           (x : option pyseq) : outcome (list pyseq) :=
  match nth_error datapoints_db k with
  | None => Raise IndexError
  | Some None => Raise (OtherError "AttributeError"%string)
  | Some (Some l) =>
      match x with
      | None => Raise IndexError          (* res[k]: tuple index out of range *)
      | Some None => Raise TypeError      (* extend(None): not iterable *)
      | Some (Some r) => Ok (set_nth k (Some (l ++ r)) datapoints_db)
      end
  end.

(** [for k in range(output_dim): datapoints_db[k].extend(res[k])] *)
Fixpoint merge (ks : list Z) (res : list pyseq)
         (datapoints_db : list pyseq) : outcome (list pyseq) :=
  match ks with
  | [] => Ok datapoints_db
  | k :: ks' =>
      match extend datapoints_db (Z.to_nat k) (nth_error res (Z.to_nat k)) with
      | Ok db => merge ks' res db
      | Raise e => Raise e
      end
  end.

(** The aggregation loop (lines 68-73) over the handle indices [hs]. *)
Fixpoint aggregate (output_dim : Z) (report : bool) (hs : list nat)
         (datapoints_db : list pyseq) (w : world (list A) (list pyseq))
  : world (list A) (list pyseq) * outcome (list pyseq) :=
  match hs with
  | [] => (w, Ok datapoints_db)
  | i :: hs' =>
      let (w1, r) := get cpu_task i w in
      match r with
      | Raise e => (w1, Raise e)
      | Ok res =>
          match merge (Py.range output_dim) res datapoints_db with
          | Raise e => (w1, Raise e)
          | Ok db =>
              aggregate output_dim report hs' db
                        (if report then emit EvPrint w1 else w1)
          end
      end
  end.

Definition not_None (x : pyseq) : bool :=
  match x with None => false | Some _ => true end.

(** What a run leaves behind. *)
Record cpu_run := mkCpuRun {
  r_heap : heap;
  r_world : world (list A) (list pyseq);
  r_result : outcome (list pyseq)
}.

(** The number of iterations of the submission loop (line 27). *)
Definition cpu_step (n step_size : Z) : Z :=
  Py.int_div n step_size + Py.of_bool (n mod step_size >? 0).

(** The submission loop (lines 38-63). *)
Definition submit_all (data : nat) (cpu_count : Z) (pbar : bool)
           (step_size : Z) (step : Z) (s : submitter) : submitter :=
  fold_left (fun s' (_ : Z) => submit_chunk data cpu_count pbar step_size s')
            (Py.range step) s.

(** Lines 27-63: everything up to the end of the submission loop. *)
Definition submission (data : nat) (cpu_count : Z) (pbar : bool)
           (step_size : Z) (hp : heap) (orc : list (list nat)) : submitter :=
  let step := cpu_step (Py.len (fetch hp data)) step_size in
  let w := emit (EvPoolCreate cpu_count InitSetLock) (start orc) in
  let w := if pbar then emit (EvPbarOpen step) w else w in
  let (hp1, datapoints0) := np_asarray hp data in
  submit_all data cpu_count pbar step_size step
             (mkSubmitter hp1 datapoints0 0 w).

Definition multiprocess_run (data : nat) (cpu_count : Z) (pbar : bool)
           (step_size : Z) (output_dim : Z) (verbose : Z)
           (hp : heap) (orc : list (list nat)) : cpu_run :=
  if step_size =? 0 then mkCpuRun hp (start orc) (Raise ZeroDivisionError)
  else
    let datapoints_db := map (fun _ => Some []) (Py.range output_dim) in
    let s := submission data cpu_count pbar step_size hp orc in
    let (w, r) :=
      aggregate output_dim (negb pbar && (verbose >? 0))
                (seq 0 (length (semaphores (s_world s))))
                datapoints_db (s_world s) in
    match r with
    | Raise e => mkCpuRun (s_heap s) w (Raise e)
    | Ok db =>
        let w := if pbar then emit EvPrint (emit EvPbarClose w) else w in
        let w := emit EvJoin (emit EvClose w) in
        mkCpuRun (s_heap s) w (Ok (filter not_None db))
    end.

End MultiprocessRun.

Arguments PyList {A} items.
Arguments NdArray {A} items.
Arguments r_heap {A B} _.
Arguments r_world {A B} _.
Arguments r_result {A B} _.
Arguments s_heap {A B} _.
Arguments s_world {A B} _.
Arguments datapoints {A B} _.
Arguments process_counter {A B} _.
Arguments mkSubmitter {A B} _ _ _ _.
Arguments fetch {A} _ _.
Arguments submission {A B P} _ _ _ _ _ _ _ _.
Arguments multiprocess_run {A B P} _ _ _ _ _ _ _ _ _ _.

(* ================================================================== *)
(** ** [multigpu_run] *)

(** The session a worker process configures in [_initializer]. *)
Record session := mkSession {
  cpu_devices : Z;                       (* device_count["CPU"] *)
  gpu_devices : Z;                       (* device_count["GPU"] *)
  visible_device_list : option Z         (* gpu_options, when there are any *)
}.

(** [_initializer(q, processes)], run by each worker process when it
    starts: with a queue it takes the next device id ([q.get()], first in
    first out) and binds to it; [None] stands for a [get] that blocks on
    an empty queue.  The second component is the queue left behind. *)
Definition _initializer (q : option (list Z)) (processes : Z)
  : option (session * option (list Z)) :=
  match q with
  | None => Some (mkSession processes 0 None, None)
  | Some [] => None
  | Some (dev :: rest) => Some (mkSession processes 1 (Some dev), Some rest)
  end.

(** Lines 130-136: the step size and the number of steps. *)
Definition gpu_steps (data_size gpu_count : Z) : Z * Z :=
  if gpu_count >? 1 then
    (Py.int_div data_size gpu_count,
     gpu_count + Py.of_bool (data_size mod gpu_count >? 0))
  else
    (data_size, 1).

(** Lines 139-143: the queue of device ids. *)
Definition device_queue (gpu_count step : Z) : option (list Z) :=
  if gpu_count >? 0 then
    Some (map (fun dev => dev mod gpu_count) (Py.range step))
  else
    None.

(** Lines 157-160: the index range of iteration [i]. *)
Definition gpu_range (data_size step_size i : Z) : Z * Z :=
  let end_idx := (i + 1) * step_size in
  let end_idx := if end_idx >? data_size then data_size else end_idx in
  (i * step_size, end_idx).

Section MultigpuRun.

Variables TX TY B P : Type.

(** Here the work callback returns one flat sequence, or [None]. *)
Variable exec_function : list TX * list TY -> P -> outcome (option (list B)).
Variable exec_params : P.

Definition gpu_task (chunk : list TX * list TY) : outcome (option (list B)) :=
  exec_function chunk exec_params.

Definition gpu_world := world (list TX * list TY) (option (list B)).

(** One iteration of the submission loop (lines 155-179). *)
Definition gpu_submit_chunk (data : list TX * list TY) (gpu_count : Z)
           (pbar : bool) (step_size : Z)
           (s : Z * gpu_world) (i : Z) : Z * gpu_world :=
  let (process_counter, w) := s in
  let (start_idx, end_idx) := gpu_range (Py.len (fst data)) step_size i in
  let cur_datapoints :=
    (Py.slice (fst data) start_idx end_idx,
     Py.slice (snd data) start_idx end_idx) in
  let w := apply_async gpu_task cur_datapoints pbar w in
  if pbar then
    if process_counter =? gpu_count then
      (0, wait gpu_task (Z.to_nat (process_counter - 1)) w)
    else (process_counter + 1, w)
  else (process_counter, w).

(** The aggregation loop (lines 181-184). *)
Fixpoint gpu_aggregate (report : bool) (hs : list nat)
         (datapoints_db : list B) (w : gpu_world)
  : gpu_world * outcome (list B) :=
  match hs with
  | [] => (w, Ok datapoints_db)
  | i :: hs' =>
      let (w1, r) := get gpu_task i w in
      match r with
      | Raise e => (w1, Raise e)
      | Ok None => (w1, Raise TypeError)       (* extend(None) *)
      | Ok (Some res) =>
          gpu_aggregate report hs' (datapoints_db ++ res)
                        (if report then emit EvPrint w1 else w1)
      end
  end.

Definition multigpu_run (data : list TX * list TY) (gpu_count : Z)
           (pbar : bool) (step_size : option Z) (verbose : Z)
           (orc : list (list nat)) : gpu_world * outcome (list B) :=
  let data_size := Py.len (fst data) in
  let (step_size, step) := gpu_steps data_size gpu_count in
  let w := emit (EvPoolCreate gpu_count
                              (InitDevice (device_queue gpu_count step) gpu_count))
                (start orc) in
  let w := if pbar then emit (EvPbarOpen step) w else w in
  let s := fold_left (gpu_submit_chunk data gpu_count pbar step_size)
                     (Py.range step) (1, w) in
  let (w, r) :=
    gpu_aggregate (negb pbar && (verbose >? 0))
                  (seq 0 (length (semaphores (snd s)))) [] (snd s) in
  match r with
  | Raise e => (w, Raise e)
  | Ok datapoints_db =>
      (emit EvClose (emit EvTerminate w), Ok datapoints_db)
  end.

End MultigpuRun.

Arguments multigpu_run {TX TY B P} _ _ _ _ _ _ _ _.

(* ================================================================== *)
(** ** Notions used to state the properties *)

Section PoolInvariants.

Context {Arg Res : Type}.
Variable task : Arg -> outcome Res.

(** Every stored outcome is the outcome of the task body on the
    arguments of its own handle. *)
Definition consistent (w : world Arg Res) : Prop :=
  Forall (fun x => forall o, h_state x = Done o -> o = task (h_args x))
         (semaphores w).

(** [w'] is [w] after some activity of the workers only. *)
Record evolves (w w' : world Arg Res) : Prop := mkEvolves {
  ev_args : submitted w' = submitted w;
  ev_consistent : consistent w -> consistent w';
  ev_trace : exists ws, trace w' = trace w ++ ws /\ forallb is_worker ws = true
}.

(** [emit e] followed by activity of the workers. *)
Record advances (e : event) (w w' : world Arg Res) : Prop := mkAdvances {
  ad_args : submitted w' = submitted w;
  ad_consistent : consistent w -> consistent w';
  ad_filter : forall p, (forall e', is_worker e' = true -> p e' = false) ->
                        filter p (trace w') = filter p (trace w) ++ filter p [e]
}.

End PoolInvariants.

(** Every handle submitted after the first [m + 1] is unresolved. *)
Definition tail_pending {Arg Res} (m : nat) (w : world Arg Res) : Prop :=
  forall h x, nth_error (semaphores w) h = Some x -> (m < h)%nat ->
              h_state x = Pending.

(** The workers finish, on their own, none but the first [m + 1] tasks. *)
Definition oracle_below {Arg Res} (m : nat) (w : world Arg Res) : Prop :=
  Forall (Forall (fun h => (h <= m)%nat)) (oracle w).

(** Events the submission loop itself never emits. *)
Definition after_submission (p : event -> bool) : Prop :=
  (forall e, is_worker e = true -> p e = false) /\
  (forall h, p (EvSubmit h) = false) /\
  (forall h, p (EvWait h) = false).

(** Events the aggregation loop itself never emits. *)
Definition after_aggregation (p : event -> bool) : Prop :=
  (forall e, is_worker e = true -> p e = false) /\
  (forall h, p (EvGet h) = false) /\
  p EvPrint = false.

(** The chunks the loop cuts off an array [l], without the object store:
    [k] times the first [e] rows. *)
Fixpoint chunks {A} (k : nat) (e : Z) (l : list A) : list (list A) :=
  match k with
  | O => []
  | S k' => Py.slice_to l e :: chunks k' e (Py.delete_to l e)
  end.

(** Lines 41-44: [end_idx], for a workload of length [n]. *)
Definition end_idx_of (step_size n : Z) : Z :=
  if step_size >? n then n else step_size.

(** The aggregation loop over the outcomes of the tasks, in submission
    order, without the pool. *)
Fixpoint collect {B : Type} (output_dim : Z)
         (outs : list (outcome (list (pyseq B))))
         (datapoints_db : list (pyseq B)) : outcome (list (pyseq B)) :=
  match outs with
  | [] => Ok datapoints_db
  | Raise e :: _ => Raise e
  | Ok res :: outs' =>
      match merge B (Py.range output_dim) res datapoints_db with
      | Raise e => Raise e
      | Ok db => collect output_dim outs' db
      end
  end.

(** How many handles the loop resolves before it ends or raises. *)
Fixpoint resolved {B : Type} (output_dim : Z)
         (outs : list (outcome (list (pyseq B))))
         (datapoints_db : list (pyseq B)) : nat :=
  match outs with
  | [] => 0
  | Raise e :: _ => 1
  | Ok res :: outs' =>
      match merge B (Py.range output_dim) res datapoints_db with
      | Raise e => 1
      | Ok db => S (resolved output_dim outs' db)
      end
  end.

(** A result tuple with a sequence at each of the first [output_dim]
    positions. *)
Definition well_formed {B : Type} (output_dim : Z) (res : list (pyseq B))
  : Prop :=
  forall k, (k < Z.to_nat output_dim)%nat ->
            exists r, nth_error res k = Some (Some r).

(** The buckets the loop starts from (line 28). *)
Definition empty_buckets {B : Type} (output_dim : Z) : list (pyseq B) :=
  map (fun _ => Some []) (Py.range output_dim).

(** Lines 157-162: the chunk of iteration [i] of [multigpu_run]. *)
Definition gpu_chunk {TX TY} (data : list TX * list TY) (step_size i : Z)
  : list TX * list TY :=
  let (start_idx, end_idx) := gpu_range (Py.len (fst data)) step_size i in
  (Py.slice (fst data) start_idx end_idx,
   Py.slice (snd data) start_idx end_idx).

(** The pool starts its worker processes one after the other; each runs
    [_initializer] on the queue the previous ones left.  The result lists
    the device each worker is bound to ([None]: no device). *)
Fixpoint start_workers (k : nat) (q : option (list Z)) (processes : Z)
  : list (option Z) :=
  match k with
  | O => []
  | S k' =>
      match _initializer q processes with
      | Some (sess, q') =>
          visible_device_list sess :: start_workers k' q' processes
      | None => []
      end
  end.

(* ================================================================== *)
(** ** Callbacks, workloads and runs used as examples *)

(** The end-to-end scenario: workload [0..99], chunk size 10, a callback
    that doubles every item, and workers that finish out of order. *)
Definition double (chunk : list Z) (_ : unit) : outcome (list (pyseq Z)) :=
  Ok [Some (map (fun x => 2 * x) chunk)].

Definition workload_100 : list Z := map Z.of_nat (seq 0 100).

Definition out_of_order : list (list nat) :=
  [[]; []; [1; 0]; []; [4; 2]; []; []; []; []; [9; 7; 8]; [6]]%nat.

Definition workload_10 : list Z := map Z.of_nat (seq 0 10).

(** A callback that raises on the chunk [[2]], and a run in which that
    is the second chunk of three. *)
Definition raises_on_two (chunk : list Z) (_ : unit)
  : outcome (list (pyseq Z)) :=
  match chunk with
  | [2] => Raise (OtherError "ValueError")
  | _ => Ok [Some chunk]
  end.

Definition run_raises_on_two : cpu_run Z Z :=
  multiprocess_run raises_on_two tt 0%nat 2 false 1 1 0 [PyList [1; 2; 3]] [].

(** Callbacks for [output_dim = 2]: a sequence and an empty sequence; a
    sequence and [None]. *)
Definition seq_and_empty (chunk : list Z) (_ : unit)
  : outcome (list (pyseq Z)) := Ok [Some chunk; Some []].

Definition seq_and_None (chunk : list Z) (_ : unit)
  : outcome (list (pyseq Z)) := Ok [Some chunk; None].

(** A run with chunk size [-1]. *)
Definition run_negative_step : cpu_run Z Z :=
  multiprocess_run double tt 0%nat 2 false (-1) 1 0 [PyList [1; 2; 3]] [].

(** One worker, twelve chunks of one item, progress bar on.  The worker
    is slow: it finishes nothing while chunks are being submitted, and
    finishes tasks 0, 1, 2, in this order, when the coordinator blocks on
    handle 2. *)
Definition slow_worker : list (list nat) := [[]; []; []; [0; 1]]%nat.

Definition throttled_submission : submitter Z Z :=
  submission double tt 0%nat 1 true 1
             [PyList (map Z.of_nat (seq 0 12))] slow_worker.

(** A callback that returns the feature rows of its chunk, and a run
    over five rows on three devices. *)
Definition features (chunk : list Z * list Z) (_ : unit)
  : outcome (option (list Z)) := Ok (Some (fst chunk)).

Definition gpu_run_5_3 : gpu_world Z Z Z * outcome (list Z) :=
  multigpu_run features tt ([0; 1; 2; 3; 4], [10; 11; 12; 13; 14])
               3 false None 0 [].

(* ================================================================== *)
(** ** Notions used by the further properties *)

Definition is_terminate (e : event) : bool :=
  match e with EvTerminate => true | _ => false end.
Definition is_update (e : event) : bool :=
  match e with EvUpdate => true | _ => false end.

(** How often the task of handle [h] was run. *)
Definition runs_of (h : nat) (tr : list event) : nat :=
  count (fun e => match e with EvRun h' => Nat.eqb h' h | _ => false end) tr.

Definition is_done {Arg Res} (x : handle Arg Res) : bool :=
  match h_state x with Pending => false | Done _ => true end.

(** The aggregation loop of [multigpu_run] (lines 181-182) over the
    outcomes of the tasks, in submission order, without the pool. *)
Fixpoint gpu_collect {B : Type} (outs : list (outcome (option (list B))))
         (datapoints_db : list B) : outcome (list B) :=
  match outs with
  | [] => Ok datapoints_db
  | Raise e :: _ => Raise e
  | Ok None :: _ => Raise TypeError
  | Ok (Some res) :: outs' => gpu_collect outs' (datapoints_db ++ res)
  end.

(** A callback for [output_dim = 2] that returns one sequence only. *)
Definition seq_only (chunk : list Z) (_ : unit)
  : outcome (list (pyseq Z)) := Ok [Some chunk].

(** The task of a handle has been run once if the handle holds an
    outcome, and not at all otherwise. *)
Definition run_once {Arg Res} (w : world Arg Res) : Prop :=
  forall h,
    runs_of h (trace w)
    = match nth_error (semaphores w) h with
      | Some x => if is_done x then 1%nat else 0%nat
      | None => 0%nat
      end.

(** The handles that hold an outcome in [w] are the same in [w'], and no
    handle is lost. *)
Definition keeps_done {Arg Res} (w w' : world Arg Res) : Prop :=
  (length (semaphores w) <= length (semaphores w'))%nat /\
  forall h x, nth_error (semaphores w) h = Some x -> is_done x = true ->
              nth_error (semaphores w') h = Some x.

(** A step of the coordinator or of the workers that runs no task twice
    and forgets no outcome. *)
Definition sound_step {Arg Res} (w w' : world Arg Res) : Prop :=
  (run_once w -> run_once w') /\ keeps_done w w'.

(** A run over four rows on two devices. *)
Definition gpu_run_4_2 : gpu_world Z Z Z * outcome (list Z) :=
  multigpu_run features tt ([0; 1; 2; 3], [10; 11; 12; 13])
               2 true None 0 [[1; 0]]%nat.

(** A callback of [multigpu_run] that returns [None] for the chunk whose
    first feature row is 2, and a run in which that is the second chunk. *)
Definition none_on_two (chunk : list Z * list Z) (_ : unit)
  : outcome (option (list Z)) :=
  match fst chunk with
  | 2 :: _ => Ok None
  | _ => Ok (Some (fst chunk))
  end.

Definition gpu_run_none : gpu_world Z Z Z * outcome (list Z) :=
  multigpu_run none_on_two tt ([0; 1; 2; 3], [10; 11; 12; 13])
               2 false None 0 [].

(** Events of the progress bar itself. *)
Definition is_pbar (e : event) : bool :=
  match e with EvPbarOpen _ | EvPbarClose => true | _ => false end.

(** A handle whose callback has fired: it was given one, and its task
    has returned. *)
Definition ticked {Arg Res} (x : handle Arg Res) : bool :=
  h_callback x && match h_state x with Done (Ok _) => true | _ => false end.

(** The progress bar has been updated once for each handle whose
    callback has fired, and every handle was submitted with a callback
    exactly when [pbar] is set. *)
Definition progress_inv {Arg Res} (pbar : bool) (w : world Arg Res) : Prop :=
  count is_update (trace w) = length (filter ticked (semaphores w)) /\
  Forall (fun x => h_callback x = pbar) (semaphores w).

(** A step that keeps [progress_inv] and neither opens nor closes the
    progress bar. *)
Definition progress_step {Arg Res} (pbar : bool) (w w' : world Arg Res)
  : Prop :=
  (progress_inv pbar w -> progress_inv pbar w') /\
  exists ext, trace w' = trace w ++ ext /\
              forallb (fun e => negb (is_pbar e)) ext = true.

(** A run over five rows on two devices. *)
Definition gpu_run_5_2 : gpu_world Z Z Z * outcome (list Z) :=
  multigpu_run features tt ([0; 1; 2; 3; 4], [10; 11; 12; 13; 14])
               2 false None 0 [].

(* ================================================================== *)
(** * Properties *)

(** ** Lists *)

Lemma set_nth_length {T} (n : nat) (x : T) (l : list T) :
  length (set_nth n x l) = length l.
Proof.
  revert n; induction l as [|y l IH]; intros [|n]; simpl; auto.
Qed.

Lemma nth_error_set_nth {T} (n : nat) (x : T) (l : list T) :
  (n < length l)%nat -> nth_error (set_nth n x l) n = Some x.
Proof.
  revert n; induction l as [|y l IH]; intros [|n] Hn; simpl in *;
    try lia; auto.
  apply IH; lia.
Qed.

Lemma map_set_nth {T U} (f : T -> U) (n : nat) (x y : T) (l : list T) :
  nth_error l n = Some y -> f x = f y -> map f (set_nth n x l) = map f l.
Proof.
  revert n; induction l as [|z l IH]; intros [|n] Hy Hf; simpl in *;
    try discriminate.
  - injection Hy as ->; now rewrite Hf.
  - f_equal; eauto.
Qed.

Lemma Forall_set_nth {T} (Q : T -> Prop) (n : nat) (x : T) (l : list T) :
  Forall Q l -> Q x -> Forall Q (set_nth n x l).
Proof.
  intros Hl Hx; revert n; induction Hl; intros [|n]; simpl; auto.
Qed.

Lemma filter_worker_free (p : event -> bool) (ws : list event) :
  (forall e, is_worker e = true -> p e = false) ->
  forallb is_worker ws = true -> filter p ws = [].
Proof.
  intros Hp; induction ws as [|e ws IH]; simpl; auto.
  intros H; apply andb_prop in H as [He Hws].
  rewrite (Hp e He); auto.
Qed.

(** ** The pool: what the workers can and cannot change *)

Section PoolFacts.

Context {Arg Res : Type}.
Variable task : Arg -> outcome Res.

Lemma evolves_refl w : evolves task w w.
Proof.
  split; auto. exists []; now rewrite app_nil_r.
Qed.

Lemma evolves_trans w1 w2 w3 :
  evolves task w1 w2 -> evolves task w2 w3 -> evolves task w1 w3.
Proof.
  intros [A1 C1 (ws1 & T1 & F1)] [A2 C2 (ws2 & T2 & F2)]; split.
  - congruence.
  - auto.
  - exists (ws1 ++ ws2); split.
    + now rewrite T2, T1, app_assoc.
    + now rewrite forallb_app, F1, F2.
Qed.

Lemma finish_evolves h w : evolves task w (finish task h w).
Proof.
  unfold finish.
  destruct (nth_error (semaphores w) h) as [[a cb [|o]]|] eqn:E;
    try apply evolves_refl.
  split; simpl.
  - unfold submitted; simpl. now apply map_set_nth with (y := mkHandle a cb Pending).
  - unfold consistent; simpl; intros Hc.
    apply Forall_set_nth; auto.
    simpl; intros o Ho; now injection Ho as <-.
  - eexists; split; [reflexivity|].
    simpl. destruct (task a); [destruct cb|]; reflexivity.
Qed.

Lemma finish_oracle h w : oracle (finish task h w) = oracle w.
Proof.
  unfold finish.
  now destruct (nth_error (semaphores w) h) as [[a cb [|o]]|].
Qed.

Lemma finish_length h w :
  length (semaphores (finish task h w)) = length (semaphores w).
Proof.
  unfold finish.
  destruct (nth_error (semaphores w) h) as [[a cb [|o]]|]; auto.
  simpl; apply set_nth_length.
Qed.

(** After [finish], the handle holds an outcome. *)
Lemma finish_done h w :
  (h < length (semaphores w))%nat ->
  exists a cb o,
    nth_error (semaphores (finish task h w)) h = Some (mkHandle a cb (Done o)).
Proof.
  intros Hh. unfold finish.
  destruct (nth_error (semaphores w) h) as [[a cb [|o]]|] eqn:E.
  - simpl. rewrite nth_error_set_nth by auto. eauto.
  - rewrite E; eauto.
  - apply nth_error_None in E; lia.
Qed.

Lemma fold_finish_evolves hs w :
  evolves task w (fold_left (fun w' h => finish task h w') hs w).
Proof.
  revert w; induction hs as [|h hs IH]; intros w; simpl.
  - apply evolves_refl.
  - eapply evolves_trans; [apply finish_evolves | apply IH].
Qed.

Lemma background_evolves w : evolves task w (background task w).
Proof.
  unfold background. destruct (oracle w) as [|hs rest].
  - apply evolves_refl.
  - destruct (fold_finish_evolves hs (mkWorld (semaphores w) rest (trace w)))
      as [Ha Hc Ht].
    split; auto.
Qed.

Lemma evolves_length w w' :
  evolves task w w' -> length (semaphores w') = length (semaphores w).
Proof.
  intros [Ha _ _]. unfold submitted in Ha.
  now rewrite <- (length_map h_args), Ha, length_map.
Qed.

Lemma evolves_filter (p : event -> bool) w w' :
  (forall e, is_worker e = true -> p e = false) ->
  evolves task w w' -> filter p (trace w') = filter p (trace w).
Proof.
  intros Hp [_ _ (ws & -> & Hws)].
  now rewrite filter_app, (filter_worker_free p ws Hp Hws), app_nil_r.
Qed.

Lemma emit_evolves_advances e w w' :
  evolves task (emit e w) w' -> advances task e w w'.
Proof.
  intros H; split.
  - now rewrite (ev_args _ _ _ H).
  - intros Hc; apply (ev_consistent _ _ _ H); exact Hc.
  - intros p Hp. rewrite (evolves_filter p _ _ Hp H); simpl.
    apply filter_app.
Qed.

Lemma emit_advances e w : advances task e w (emit e w).
Proof. apply emit_evolves_advances, evolves_refl. Qed.

Lemma wait_advances h w : advances task (EvWait h) w (wait task h w).
Proof.
  apply emit_evolves_advances. unfold wait.
  eapply evolves_trans; [apply background_evolves | apply finish_evolves].
Qed.

Lemma get_advances h w : advances task (EvGet h) w (fst (get task h w)).
Proof.
  apply emit_evolves_advances. unfold get; simpl.
  eapply evolves_trans; [apply background_evolves | apply finish_evolves].
Qed.

(** [get] returns what the task body returns on the arguments the
    handle was submitted with, whatever the workers did meanwhile. *)
Lemma get_result h a w :
  consistent task w -> nth_error (submitted w) h = Some a ->
  snd (get task h w) = task a.
Proof.
  intros Hc Ha.
  pose proof (get_advances h w) as [Hargs Hcons _].
  unfold get in *; simpl in *.
  set (w1 := background task (emit (EvGet h) w)) in *.
  assert (Hlen : (h < length (semaphores w1))%nat).
  { rewrite <- (length_map h_args). fold (submitted w1).
    assert (E : submitted (finish task h w1) = submitted w) by exact Hargs.
    rewrite (ev_args _ _ _ (finish_evolves h w1)) in E. rewrite E.
    apply nth_error_Some; congruence. }
  destruct (finish_done h w1 Hlen) as (a' & cb & o & E). rewrite E.
  specialize (Hcons Hc). unfold consistent in Hcons.
  rewrite Forall_forall in Hcons.
  specialize (Hcons _ (nth_error_In _ _ E) o eq_refl); simpl in Hcons.
  assert (Ea : nth_error (submitted (finish task h w1)) h = Some a')
    by (unfold submitted; now rewrite nth_error_map, E).
  rewrite Hargs, Ha in Ea. now injection Ea as ->.
Qed.

Lemma apply_async_args a cb w :
  submitted (apply_async task a cb w) = submitted w ++ [a].
Proof.
  unfold apply_async. rewrite (ev_args _ _ _ (background_evolves _)).
  unfold submitted; simpl. now rewrite map_app.
Qed.

Lemma apply_async_consistent a cb w :
  consistent task w -> consistent task (apply_async task a cb w).
Proof.
  intros Hc. unfold apply_async.
  apply (ev_consistent _ _ _ (background_evolves _)).
  unfold consistent in *; simpl. apply Forall_app; split; auto.
  constructor; auto. simpl; discriminate.
Qed.

Lemma apply_async_filter a cb w p :
  (forall e, is_worker e = true -> p e = false) ->
  filter p (trace (apply_async task a cb w))
  = filter p (trace w) ++ filter p [EvSubmit (length (semaphores w))].
Proof.
  intros Hp. unfold apply_async.
  rewrite (evolves_filter p _ _ Hp (background_evolves _)); simpl.
  apply filter_app.
Qed.

Lemma start_consistent orc : consistent task (@start Arg Res orc).
Proof. constructor. Qed.

(** *** Tasks the workers leave alone *)

Lemma nth_error_set_nth_other {T} (n n' : nat) (x : T) (l : list T) :
  n <> n' -> nth_error (set_nth n x l) n' = nth_error l n'.
Proof.
  revert n n'; induction l as [|y l IH]; intros [|n] [|n'] H; simpl; auto;
    try congruence.
Qed.

Lemma finish_tail m h w :
  (h <= m)%nat -> tail_pending m w -> tail_pending m (finish task h w).
Proof.
  intros Hh Hw. unfold finish.
  destruct (nth_error (semaphores w) h) as [[a cb [|o]]|] eqn:E; auto.
  intros h' x; simpl. intros Hx Hm.
  rewrite nth_error_set_nth_other in Hx by lia. eauto.
Qed.

Lemma fold_finish_tail m hs : forall w,
  Forall (fun h => (h <= m)%nat) hs -> tail_pending m w ->
  tail_pending m (fold_left (fun w' h => finish task h w') hs w) /\
  oracle (fold_left (fun w' h => finish task h w') hs w) = oracle w.
Proof.
  induction hs as [|h hs IH]; intros w Hhs Hw; simpl; auto.
  inversion Hhs; subst.
  destruct (IH (finish task h w)) as (I1 & I2); auto using finish_tail.
  split; auto. now rewrite I2, finish_oracle.
Qed.

Lemma background_tail m w :
  oracle_below m w -> tail_pending m w ->
  oracle_below m (background task w) /\ tail_pending m (background task w).
Proof.
  unfold oracle_below, background. intros Ho Hw.
  destruct (oracle w) as [|hs rest] eqn:E; [rewrite E; auto|].
  inversion Ho; subst.
  destruct (fold_finish_tail m hs (mkWorld (semaphores w) rest (trace w)))
    as (I1 & I2); auto.
  split; auto. now rewrite I2.
Qed.

Lemma apply_async_tail m a cb w :
  oracle_below m w -> tail_pending m w ->
  oracle_below m (apply_async task a cb w) /\
  tail_pending m (apply_async task a cb w).
Proof.
  intros Ho Hw. unfold apply_async. apply background_tail; auto.
  intros h x; simpl. intros Hx Hm.
  destruct (Nat.lt_ge_cases h (length (semaphores w))) as [Hlt | Hge].
  - rewrite nth_error_app1 in Hx by auto. eauto.
  - rewrite nth_error_app2 in Hx by auto.
    destruct (h - length (semaphores w))%nat as [|k]; simpl in Hx.
    + now injection Hx as <-.
    + destruct k; discriminate.
Qed.

Lemma wait_tail m h w :
  (h <= m)%nat -> oracle_below m w -> tail_pending m w ->
  oracle_below m (wait task h w) /\ tail_pending m (wait task h w).
Proof.
  intros Hh Ho Hw. unfold wait.
  destruct (background_tail m (emit (EvWait h) w)) as (B1 & B2); auto.
  split.
  - unfold oracle_below. now rewrite finish_oracle.
  - now apply finish_tail.
Qed.

Lemma filter_all {T} (f : T -> bool) (l : list T) :
  (forall x, In x l -> f x = true) -> filter f l = l.
Proof.
  induction l as [|x l IH]; intros H; simpl; auto.
  rewrite (H x) by (now left). f_equal. apply IH. intros; apply H; now right.
Qed.

(** So all but [m + 1] of the handles are unresolved. *)
Lemma tail_pending_unresolved m (w : world Arg Res) :
  tail_pending m w ->
  (length (semaphores w) <= unresolved w + S m)%nat.
Proof.
  intros Hw. unfold unresolved.
  rewrite <- (firstn_skipn (S m) (semaphores w)) at 1 2.
  rewrite filter_app, !length_app.
  rewrite (filter_all _ (skipn (S m) (semaphores w))).
  - pose proof (firstn_le_length (S m) (semaphores w)).
    rewrite length_firstn. lia.
  - intros x Hx. apply In_nth_error in Hx as (k & Hk).
    rewrite nth_error_skipn in Hk.
    now rewrite (Hw _ _ Hk ltac:(lia)).
Qed.

End PoolFacts.

(** ** The submission loop of [multiprocess_run] *)

Section SubmissionFacts.

Context {A B P : Type}.
Variable exec_function : list A -> P -> outcome (list (pyseq B)).
Variable exec_params : P.

Let task := cpu_task A B P exec_function exec_params.

Lemma fetch_app (hp fresh : heap A) (loc : nat) :
  (loc < length hp)%nat -> fetch (hp ++ fresh) loc = fetch hp loc.
Proof.
  intros H. unfold fetch. now rewrite nth_error_app1.
Qed.

Lemma fetch_alloc (hp : heap A) (l : list A) :
  fetch (hp ++ [NdArray l]) (length hp) = l.
Proof.
  unfold fetch. rewrite nth_error_app2, Nat.sub_diag by lia. reflexivity.
Qed.

(** [np.asarray] yields an allocated array with the rows of [data],
    and leaves every object where it was. *)
Lemma np_asarray_spec (hp : heap A) (data : nat) :
  exists fresh,
    fst (np_asarray A hp data) = hp ++ fresh /\
    (snd (np_asarray A hp data) < length (hp ++ fresh))%nat /\
    fetch (hp ++ fresh) (snd (np_asarray A hp data)) = fetch hp data.
Proof.
  unfold np_asarray.
  destruct (nth_error hp data) as [[l|l]|] eqn:E; simpl.
  - exists [NdArray (fetch hp data)]. rewrite length_app; simpl.
    split; [reflexivity|]. split; [lia|]. apply fetch_alloc.
  - exists []. rewrite app_nil_r. split; [reflexivity|].
    split; [|reflexivity]. apply nth_error_Some; congruence.
  - exists [NdArray (fetch hp data)]. rewrite length_app; simpl.
    split; [reflexivity|]. split; [lia|]. apply fetch_alloc.
Qed.

Lemma submit_chunk_spec data cpu_count pbar step_size (s : submitter A B) :
  let s' := submit_chunk A B P exec_function exec_params
                         data cpu_count pbar step_size s in
  let e := end_idx_of step_size (Py.len (fetch (s_heap s) data)) in
  let l := fetch (s_heap s) (datapoints s) in
  s_heap s' = s_heap s ++ [NdArray (Py.delete_to l e)] /\
  datapoints s' = length (s_heap s) /\
  submitted (s_world s') = submitted (s_world s) ++ [Py.slice_to l e] /\
  (consistent task (s_world s) -> consistent task (s_world s')) /\
  (forall p, after_submission p ->
             filter p (trace (s_world s')) = filter p (trace (s_world s))).
Proof.
  unfold submit_chunk, alloc, end_idx_of; fold task; simpl.
  set (e := if step_size >? _ then _ else _).
  set (w1 := apply_async task _ pbar (s_world s)).
  assert (H1 : submitted w1
               = submitted (s_world s)
                 ++ [Py.slice_to (fetch (s_heap s) (datapoints s)) e])
    by apply apply_async_args.
  assert (H2 : consistent task (s_world s) -> consistent task w1)
    by apply apply_async_consistent.
  assert (H3 : forall p, after_submission p ->
                         filter p (trace w1) = filter p (trace (s_world s))).
  { intros p (Hw & Hs & _). unfold w1.
    rewrite apply_async_filter by exact Hw. simpl.
    rewrite Hs. apply app_nil_r. }
  destruct pbar; [destruct (process_counter s =? cpu_count + 1)|];
    simpl; repeat split; auto.
  - now rewrite (ad_args _ _ _ _ (wait_advances task _ w1)).
  - intros Hc. apply (ad_consistent _ _ _ _ (wait_advances task _ w1)); auto.
  - intros p Hp. destruct (Hp) as (Hw & _ & Hwait).
    rewrite (ad_filter _ _ _ _ (wait_advances task _ w1) p Hw); simpl.
    rewrite Hwait, app_nil_r. auto.
Qed.

Lemma submit_loop_spec data cpu_count pbar step_size (js : list Z) :
  forall s : submitter A B,
    (data < length (s_heap s))%nat ->
    (datapoints s < length (s_heap s))%nat ->
    let s' := fold_left
                (fun s0 (_ : Z) =>
                   submit_chunk A B P exec_function exec_params
                                data cpu_count pbar step_size s0) js s in
    let e := end_idx_of step_size (Py.len (fetch (s_heap s) data)) in
    submitted (s_world s')
    = submitted (s_world s)
      ++ chunks (length js) e (fetch (s_heap s) (datapoints s)).
Proof.
  induction js as [|j js IH]; intros s Hd Hp; simpl.
  - now rewrite app_nil_r.
  - destruct (submit_chunk_spec data cpu_count pbar step_size s)
      as (Hh & Hl & Hs & _).
    rewrite IH.
    + rewrite Hs, <- app_assoc; simpl.
      rewrite Hh, Hl, fetch_alloc, fetch_app by auto. reflexivity.
    + rewrite Hh, length_app; simpl; lia.
    + rewrite Hh, Hl, length_app; simpl; lia.
Qed.

(** What holds of the loop whatever the store looks like: objects are
    only added, stored outcomes stay right, and the loop's own events
    are submissions and waits. *)
Lemma submit_loop_frame data cpu_count pbar step_size (js : list Z) :
  forall s : submitter A B,
    let s' := fold_left
                (fun s0 (_ : Z) =>
                   submit_chunk A B P exec_function exec_params
                                data cpu_count pbar step_size s0) js s in
    (exists fresh, s_heap s' = s_heap s ++ fresh) /\
    (consistent task (s_world s) -> consistent task (s_world s')) /\
    (forall p, after_submission p ->
               filter p (trace (s_world s')) = filter p (trace (s_world s))).
Proof.
  induction js as [|j js IH]; intros s; simpl.
  - split; [exists []; now rewrite app_nil_r|]. auto.
  - destruct (submit_chunk_spec data cpu_count pbar step_size s)
      as (Hh & _ & _ & Hc & Hf).
    destruct (IH (submit_chunk A B P exec_function exec_params
                               data cpu_count pbar step_size s))
      as ((fresh & Hh') & Hc' & Hf').
    split; [|split].
    + eexists. rewrite Hh', Hh, <- app_assoc. reflexivity.
    + auto.
    + intros p Hp. rewrite Hf', Hf; auto.
Qed.

(** The throttle waits on the handle at index [cpu_count + 1] only, so
    it resolves no handle beyond that index. *)
Lemma submit_chunk_tail data cpu_count pbar step_size (s : submitter A B) :
  let m := Z.to_nat (cpu_count + 1) in
  let s' := submit_chunk A B P exec_function exec_params
                         data cpu_count pbar step_size s in
  oracle_below m (s_world s) -> tail_pending m (s_world s) ->
  oracle_below m (s_world s') /\ tail_pending m (s_world s').
Proof.
  intros m s' Ho Hw. unfold s', submit_chunk, alloc; fold task; simpl.
  set (w1 := apply_async task _ pbar (s_world s)).
  destruct (apply_async_tail task m
              (Py.slice_to (fetch (s_heap s) (datapoints s))
                 (if step_size >? Py.len (fetch (s_heap s) data)
                  then Py.len (fetch (s_heap s) data) else step_size))
              pbar (s_world s) Ho Hw) as (A1 & A2).
  fold w1 in A1, A2.
  destruct pbar; [destruct (process_counter s =? cpu_count + 1) eqn:E|];
    simpl; auto.
  apply Z.eqb_eq in E. apply wait_tail; auto. unfold m. lia.
Qed.

Lemma submit_loop_tail data cpu_count pbar step_size (js : list Z) :
  let m := Z.to_nat (cpu_count + 1) in
  forall s : submitter A B,
    let s' := fold_left
                (fun s0 (_ : Z) =>
                   submit_chunk A B P exec_function exec_params
                                data cpu_count pbar step_size s0) js s in
    oracle_below m (s_world s) -> tail_pending m (s_world s) ->
    oracle_below m (s_world s') /\ tail_pending m (s_world s').
Proof.
  intros m. induction js as [|j js IH]; intros s; simpl; auto.
  intros Ho Hw.
  destruct (submit_chunk_tail data cpu_count pbar step_size s Ho Hw).
  apply IH; auto.
Qed.

(** The cursor [datapoints] is the caller's [data] itself only as long
    as nothing has been cut off it (and [data] is an array); otherwise it
    is an array allocated during the run. *)
Lemma submit_loop_cursor data cpu_count pbar step_size (js : list Z) :
  forall (s : submitter A B) (n : nat),
    (datapoints s = data \/ n <= datapoints s)%nat ->
    (n <= length (s_heap s))%nat ->
    let s' := fold_left
                (fun s0 (_ : Z) =>
                   submit_chunk A B P exec_function exec_params
                                data cpu_count pbar step_size s0) js s in
    (datapoints s' = data \/ n <= datapoints s')%nat.
Proof.
  induction js as [|j js IH]; intros s n Hc Hn; simpl; auto.
  destruct (submit_chunk_spec data cpu_count pbar step_size s)
    as (Hh & Hl & _).
  apply IH.
  - right. rewrite Hl. exact Hn.
  - rewrite Hh, length_app. lia.
Qed.

(** The loop submits one chunk per iteration; handles are numbered in
    submission order. *)
Lemma submit_loop_submits data cpu_count pbar step_size (js : list Z) :
  forall s : submitter A B,
    let s' := fold_left
                (fun s0 (_ : Z) =>
                   submit_chunk A B P exec_function exec_params
                                data cpu_count pbar step_size s0) js s in
    filter is_submit (trace (s_world s'))
    = filter is_submit (trace (s_world s))
      ++ map EvSubmit (seq (length (semaphores (s_world s))) (length js)) /\
    length (semaphores (s_world s'))
    = (length (semaphores (s_world s)) + length js)%nat.
Proof.
  induction js as [|j js IH]; intros s; simpl.
  - now rewrite app_nil_r, Nat.add_0_r.
  - destruct (IH (submit_chunk A B P exec_function exec_params
                               data cpu_count pbar step_size s)) as (I1 & I2).
    rewrite I1, I2.
    destruct (submit_chunk_spec data cpu_count pbar step_size s)
      as (_ & _ & Hs & _).
    apply (f_equal (@length _)) in Hs.
    unfold submitted in Hs. rewrite length_app, !length_map in Hs.
    simpl in Hs. rewrite Hs, Nat.add_1_r.
    split; [|lia].
    match goal with
    | |- _ = ?f ++ ?e :: ?m => change (f ++ e :: m) with (f ++ [e] ++ m)
    end.
    rewrite app_assoc. f_equal.
    unfold submit_chunk, alloc; fold task; simpl.
    set (w1 := apply_async task _ pbar (s_world s)).
    assert (H1 : filter is_submit (trace w1)
                 = filter is_submit (trace (s_world s))
                   ++ [EvSubmit (length (semaphores (s_world s)))])
      by (apply (apply_async_filter task); now intros [ ]).
    destruct pbar; [destruct (process_counter s =? cpu_count + 1)|];
      simpl; auto.
    rewrite (ad_filter _ _ _ _ (wait_advances task _ w1) is_submit)
      by (now intros [ ]).
    simpl. now rewrite app_nil_r.
Qed.

End SubmissionFacts.

(** ** Chunking arithmetic *)

Lemma firstn_clip {T} (a : nat) (l : list T) :
  firstn (Nat.min a (length l)) l = firstn a l.
Proof.
  destruct (Nat.le_ge_cases a (length l)) as [H|H].
  - now rewrite Nat.min_l.
  - rewrite Nat.min_r by auto. now rewrite firstn_all, firstn_all2.
Qed.

Lemma skipn_clip {T} (a : nat) (l : list T) :
  skipn (Nat.min a (length l)) l = skipn a l.
Proof.
  destruct (Nat.le_ge_cases a (length l)) as [H|H].
  - now rewrite Nat.min_l.
  - rewrite Nat.min_r by auto. now rewrite skipn_all, skipn_all2.
Qed.

Lemma bound_nonneg {T} (l : list T) (e : Z) :
  0 <= e -> Z.to_nat (Py.bound (Py.len l) e) = Nat.min (Z.to_nat e) (length l).
Proof.
  intros He. unfold Py.bound, Py.len.
  destruct (e <? 0) eqn:E; [apply Z.ltb_lt in E; lia|]. lia.
Qed.

Lemma slice_to_firstn {T} (l : list T) (e : Z) :
  0 <= e -> Py.slice_to l e = firstn (Z.to_nat e) l.
Proof.
  intros He. unfold Py.slice_to. rewrite bound_nonneg by auto.
  apply firstn_clip.
Qed.

Lemma delete_to_skipn {T} (l : list T) (e : Z) :
  0 <= e -> Py.delete_to l e = skipn (Z.to_nat e) l.
Proof.
  intros He. unfold Py.delete_to. rewrite bound_nonneg by auto.
  apply skipn_clip.
Qed.

Lemma firstn_add {T} (a b : nat) (l : list T) :
  firstn (a + b) l = firstn a l ++ firstn b (skipn a l).
Proof.
  revert l; induction a as [|a IH]; intros [|x l]; simpl; auto.
  - now rewrite firstn_nil.
  - now rewrite IH.
Qed.

Lemma skipn_add {T} (a b : nat) (l : list T) :
  skipn (a + b) l = skipn b (skipn a l).
Proof.
  revert l; induction a as [|a IH]; intros [|x l]; simpl; auto.
  now rewrite skipn_nil.
Qed.

Lemma chunks_length {T} (k : nat) (e : Z) (l : list T) :
  length (chunks k e l) = k.
Proof.
  revert l; induction k as [|k IH]; intros l; simpl; auto.
Qed.

Lemma chunks_nth {T} (k : nat) (e : Z) (He : 0 <= e) :
  forall (l : list T) (i : nat),
    (i < k)%nat ->
    nth_error (chunks k e l) i
    = Some (firstn (Z.to_nat e) (skipn (i * Z.to_nat e) l)).
Proof.
  induction k as [|k IH]; intros l i Hi; [lia|].
  destruct i as [|i]; simpl.
  - now rewrite slice_to_firstn.
  - rewrite IH by lia. rewrite delete_to_skipn by auto.
    now rewrite <- skipn_add.
Qed.

Lemma chunks_concat {T} (k : nat) (e : Z) (He : 0 <= e) :
  forall l : list T, concat (chunks k e l) = firstn (k * Z.to_nat e) l.
Proof.
  induction k as [|k IH]; intros l; simpl; auto.
  rewrite IH, slice_to_firstn, delete_to_skipn by auto.
  now rewrite firstn_add.
Qed.

(** Line 27 computes the ceiling of [n / step_size]. *)
Lemma cpu_step_ceil (n step_size : Z) :
  0 <= n -> 0 < step_size ->
  let k := cpu_step n step_size in
  k = (n + step_size - 1) / step_size /\
  0 <= k /\ n <= k * step_size < n + step_size.
Proof.
  intros Hn Hs. unfold cpu_step, Py.int_div, Py.of_bool.
  rewrite Z.quot_div_nonneg by lia.
  pose proof (Z.div_mod n step_size ltac:(lia)) as Hdm.
  pose proof (Z.mod_pos_bound n step_size Hs) as Hm.
  pose proof (Z.div_pos n step_size Hn Hs) as Hq.
  destruct (n mod step_size >? 0) eqn:E.
  - apply Z.gtb_lt in E. split; [|nia].
    apply Z.div_unique with (r := n mod step_size - 1); lia.
  - assert (n mod step_size = 0) by (rewrite Z.gtb_ltb in E; apply Z.ltb_ge in E; lia).
    split; [|nia].
    apply Z.div_unique with (r := step_size - 1); lia.
Qed.

(** An overlong first slice is clipped by the slice itself, so the
    clipping of [end_idx] to [len(data)] changes no chunk. *)
Lemma chunks_end_idx {T} (l : list T) (step_size : Z) :
  0 < step_size ->
  let n := Py.len l in
  chunks (Z.to_nat (cpu_step n step_size)) (end_idx_of step_size n) l
  = chunks (Z.to_nat (cpu_step n step_size)) step_size l.
Proof.
  intros Hs n. unfold end_idx_of.
  destruct (step_size >? n) eqn:E; auto.
  apply Z.gtb_lt in E.
  assert (Hn : 0 <= n) by (unfold n, Py.len; lia).
  destruct (cpu_step_ceil n step_size Hn Hs) as (_ & Hk0 & Hk).
  assert (Hk1 : Z.to_nat (cpu_step n step_size) = 0%nat
                \/ Z.to_nat (cpu_step n step_size) = 1%nat) by nia.
  destruct Hk1 as [-> | ->]; simpl; auto.
  f_equal. rewrite !slice_to_firstn by lia.
  unfold n, Py.len in *. rewrite !firstn_all2 by lia. reflexivity.
Qed.

(** The partition of a workload of length [n] by a positive chunk size. *)
Lemma chunks_partition {T} (l : list T) (step_size : Z) :
  0 < step_size ->
  let n := Py.len l in
  let cs := chunks (Z.to_nat (cpu_step n step_size)) (end_idx_of step_size n) l in
  Py.len cs = (n + step_size - 1) / step_size /\
  (forall i, 0 <= i < Py.len cs ->
     nth_error cs (Z.to_nat i)
     = Some (Py.slice l (i * step_size) (Z.min ((i + 1) * step_size) n))) /\
  concat cs = l /\
  Forall (fun c => c <> []) cs.
Proof.
  intros Hs n cs. unfold cs, n. rewrite chunks_end_idx by auto. fold n.
  assert (Hn : 0 <= n) by (unfold n, Py.len; lia).
  destruct (cpu_step_ceil n step_size Hn Hs) as (Hceil & Hk0 & Hk).
  set (k := cpu_step n step_size) in *.
  assert (Hlen : Py.len (chunks (Z.to_nat k) step_size l) = k)
    by (unfold Py.len; rewrite chunks_length; lia).
  assert (Hnth : forall i, 0 <= i < k ->
            nth_error (chunks (Z.to_nat k) step_size l) (Z.to_nat i)
            = Some (Py.slice l (i * step_size) (Z.min ((i + 1) * step_size) n))
            /\ Py.slice l (i * step_size) (Z.min ((i + 1) * step_size) n) <> []).
  { intros i Hi. rewrite chunks_nth by lia.
    assert (Hin : i * step_size < n) by nia.
    unfold Py.slice. fold n.
    assert (Ea : Py.bound n (i * step_size) = i * step_size).
    { unfold Py.bound. destruct (i * step_size <? 0) eqn:E;
        [apply Z.ltb_lt in E; nia | lia]. }
    assert (Eb : Py.bound n (Z.min ((i + 1) * step_size) n)
                 = Z.min ((i + 1) * step_size) n).
    { unfold Py.bound. destruct (Z.min ((i + 1) * step_size) n <? 0) eqn:E;
        [apply Z.ltb_lt in E; nia | lia]. }
    rewrite Ea, Eb.
    replace (Z.to_nat i * Z.to_nat step_size)%nat
      with (Z.to_nat (i * step_size)) by nia.
    set (rest := skipn (Z.to_nat (i * step_size)) l).
    assert (Hrest : length rest = Z.to_nat (n - i * step_size)).
    { unfold rest. rewrite length_skipn. unfold n, Py.len. lia. }
    replace (Z.to_nat (Z.min ((i + 1) * step_size) n - i * step_size))
      with (Nat.min (Z.to_nat step_size) (length rest)) by (rewrite Hrest; lia).
    rewrite firstn_clip. split; [reflexivity|].
    destruct rest as [|x rest']; [simpl in Hrest; lia|].
    destruct (Z.to_nat step_size) eqn:E; [lia|]. simpl; discriminate. }
  rewrite Hlen. split; [exact Hceil|]. split; [|split].
  - intros i Hi. apply Hnth; auto.
  - rewrite chunks_concat by lia. apply firstn_all2.
    unfold n, Py.len in *. nia.
  - apply Forall_forall. intros c Hc.
    apply In_nth_error in Hc as (i & Hi).
    assert (Hik : (i < Z.to_nat k)%nat).
    { rewrite <- (chunks_length (Z.to_nat k) step_size l).
      apply nth_error_Some. congruence. }
    destruct (Hnth (Z.of_nat i) ltac:(lia)) as (E1 & E2).
    rewrite Nat2Z.id in E1. congruence.
Qed.

(** ** The aggregation loop of [multiprocess_run] *)

Section AggregationFacts.

Context {A B P : Type}.
Variable exec_function : list A -> P -> outcome (list (pyseq B)).
Variable exec_params : P.

Let task := cpu_task A B P exec_function exec_params.

Local Opaque get.

Lemma aggregate_spec output_dim report (cs : list (list A)) :
  forall (k : nat) (pre post : list (list A)) db w,
    consistent task w ->
    submitted w = pre ++ cs ++ post ->
    length pre = k ->
    let r := aggregate A B P exec_function exec_params
                       output_dim report (seq k (length cs)) db w in
    snd r = collect output_dim (map task cs) db /\
    filter is_get (trace (fst r))
    = filter is_get (trace w)
      ++ map EvGet (seq k (resolved output_dim (map task cs) db)) /\
    (forall p, after_aggregation p ->
               filter p (trace (fst r)) = filter p (trace w)) /\
    submitted (fst r) = submitted w.
Proof.
  induction cs as [|c cs IH]; intros k pre post db w Hc Hs Hk; simpl.
  - rewrite app_nil_r. auto.
  - fold task.
    pose proof (get_advances task k w) as [Ha Hcons Hf].
    assert (Hr : snd (get task k w) = task c).
    { apply get_result; auto. rewrite Hs, nth_error_app2 by lia.
      now replace (k - length pre)%nat with 0%nat by lia. }
    destruct (get task k w) as [w1 r1]; simpl in *. subst r1.
    assert (Hget : filter is_get (trace w1)
                   = filter is_get (trace w) ++ [EvGet k])
      by (apply (Hf is_get); now intros [ ]).
    assert (Hother : forall p, after_aggregation p ->
                               filter p (trace w1) = filter p (trace w)).
    { intros p (Hw & Hg & _). rewrite (Hf p Hw); simpl.
      now rewrite Hg, app_nil_r. }
    destruct (task c) as [res|e]; simpl; [|repeat split; auto].
    destruct (merge B (Py.range output_dim) res db) as [db1|e]; simpl;
      [|repeat split; auto].
    set (w2 := if report then emit EvPrint w1 else w1).
    assert (H2 : advances task EvPrint w1 w2 \/ w2 = w1)
      by (unfold w2; destruct report; [left; apply emit_advances | now right]).
    assert (Hs2 : submitted w2 = submitted w)
      by (destruct H2 as [[E _ _] | ->]; congruence).
    assert (Hc2 : consistent task w2)
      by (destruct H2 as [[_ E _] | ->]; auto).
    assert (Hf2 : forall p, (forall e, is_worker e = true -> p e = false) ->
                            p EvPrint = false ->
                            filter p (trace w2) = filter p (trace w1)).
    { intros p Hw Hp. destruct H2 as [[_ _ E] | ->]; auto.
      rewrite (E p Hw); simpl. now rewrite Hp, app_nil_r. }
    destruct (IH (S k) (pre ++ [c]) post db1 w2 Hc2) as (I1 & I2 & I3 & I4).
    { now rewrite Hs2, Hs, <- app_assoc. }
    { rewrite length_app; simpl; lia. }
    split; [exact I1|]. split; [|split].
    + rewrite I2, Hf2, Hget, <- app_assoc by (auto; now intros [ ]).
      reflexivity.
    + intros p Hp. destruct (Hp) as (Hw & _ & Hpr).
      rewrite I3, Hf2, Hother; auto.
    + congruence.
Qed.

Local Transparent get.

(** *** Merging one result tuple *)

Lemma extend_shape db k x db' :
  extend B db k x = Ok db' ->
  length db' = length db /\
  (Forall (fun b => b <> None) db -> Forall (fun b => b <> None) db').
Proof.
  unfold extend.
  destruct (nth_error db k) as [[l|]|]; try discriminate.
  destruct x as [[r|]|]; try discriminate.
  intros E; injection E as <-. split.
  - apply set_nth_length.
  - intros H. apply Forall_set_nth; auto. discriminate.
Qed.

Lemma merge_shape ks res : forall db db',
  merge B ks res db = Ok db' ->
  length db' = length db /\
  (Forall (fun b => b <> None) db -> Forall (fun b => b <> None) db').
Proof.
  induction ks as [|k ks IH]; intros db db'; simpl.
  - intros E; injection E as <-; auto.
  - destruct (extend B db (Z.to_nat k) (nth_error res (Z.to_nat k)))
      as [db1|e] eqn:E; try discriminate.
    intros H. apply extend_shape in E as (E1 & E2).
    apply IH in H as (H1 & H2). split; [congruence | auto].
Qed.

Lemma merge_well_formed output_dim res (ks : list nat) : forall db,
  well_formed output_dim res ->
  length db = Z.to_nat output_dim ->
  Forall (fun b => b <> None) db ->
  Forall (fun k => (k < Z.to_nat output_dim)%nat) ks ->
  exists db', merge B (map Z.of_nat ks) res db = Ok db'.
Proof.
  intros db Hres; revert db.
  induction ks as [|k ks IH]; intros db Hlen Hdb Hks; simpl; eauto.
  inversion Hks as [|? ? Hk Hks']; subst.
  rewrite Nat2Z.id.
  destruct (Hres k Hk) as (r & ->).
  unfold extend, pyseq in *.
  destruct (nth_error db k) as [[l|]|] eqn:E.
  - apply IH; auto.
    + now rewrite set_nth_length.
    + apply Forall_set_nth; auto. discriminate.
  - rewrite Forall_forall in Hdb.
    now destruct (Hdb _ (nth_error_In _ _ E)).
  - apply nth_error_None in E. lia.
Qed.

Lemma range_bounded (n : Z) :
  Forall (fun k => (k < Z.to_nat n)%nat) (seq 0 (Z.to_nat n)).
Proof.
  apply Forall_forall. intros k Hk. apply in_seq in Hk. lia.
Qed.

Lemma empty_buckets_shape output_dim :
  length (empty_buckets (B := B) output_dim) = Z.to_nat output_dim /\
  Forall (fun b => b <> None) (empty_buckets (B := B) output_dim).
Proof.
  unfold empty_buckets, Py.range. rewrite !length_map, length_seq.
  split; auto. apply Forall_forall. intros b Hb.
  apply in_map_iff in Hb as (? & <- & _). discriminate.
Qed.

(** When a task raises after tasks that returned well-formed tuples,
    the loop raises that exception, having resolved the handles up to
    and including the failing one. *)
Lemma collect_first_failure output_dim (pre : list (list A)) c post e :
  forall db,
    length db = Z.to_nat output_dim ->
    Forall (fun b => b <> None) db ->
    Forall (fun c' => exists res, task c' = Ok res /\ well_formed output_dim res) pre ->
    task c = Raise e ->
    collect output_dim (map task (pre ++ c :: post)) db = Raise e /\
    resolved output_dim (map task (pre ++ c :: post)) db = S (length pre).
Proof.
  induction pre as [|c' pre IH]; intros db Hlen Hdb Hpre Hc; simpl.
  - now rewrite Hc.
  - inversion Hpre as [|? ? (res & Hres & Hwf) Hpre']; subst.
    rewrite Hres.
    destruct (merge_well_formed output_dim res (seq 0 (Z.to_nat output_dim))
                                db Hwf Hlen Hdb (range_bounded output_dim))
      as (db' & Hm).
    fold (Py.range output_dim) in Hm. rewrite Hm.
    destruct (merge_shape _ _ _ _ Hm) as (H1 & H2).
    destruct (IH db' (eq_trans H1 Hlen) (H2 Hdb) Hpre' Hc) as (I1 & I2).
    split; [exact I1 | now rewrite I2].
Qed.

(** The buckets of a run that returns are the [output_dim] buckets it
    started with: none of them is ever [None]. *)
Lemma collect_shape output_dim outs : forall db db' : list (pyseq B),
  collect output_dim outs db = Ok db' ->
  length db' = length db /\
  (Forall (fun b => b <> None) db -> Forall (fun b => b <> None) db').
Proof.
  induction outs as [|[res|e] outs IH]; intros db db'; simpl.
  - intros E; injection E as <-; auto.
  - destruct (merge B (Py.range output_dim) res db) as [db1|e] eqn:E;
      try discriminate.
    intros H. apply merge_shape in E as (E1 & E2).
    apply IH in H as (H1 & H2). split; [congruence | auto].
  - discriminate.
Qed.

Lemma filter_not_None (db : list (pyseq B)) :
  Forall (fun b => b <> None) db -> filter (not_None B) db = db.
Proof.
  induction 1 as [|b db Hb _ IH]; simpl; auto.
  destruct b; [simpl; now rewrite IH | congruence].
Qed.

End AggregationFacts.

(** ** [multiprocess_run] as a whole *)

Section RunFacts.

Context {A B P : Type}.
Variable exec_function : list A -> P -> outcome (list (pyseq B)).
Variable exec_params : P.

Let task := cpu_task A B P exec_function exec_params.

Lemma range_length (n : Z) : length (Py.range n) = Z.to_nat n.
Proof. unfold Py.range. now rewrite length_map, length_seq. Qed.

(** The submission phase, whatever the store looks like. *)
Lemma submission_frame data cpu_count pbar step_size (hp : heap A) orc :
  let s := submission exec_function exec_params
                      data cpu_count pbar step_size hp orc in
  (exists fresh, s_heap s = hp ++ fresh) /\
  consistent task (s_world s) /\
  (forall p, after_submission p -> (forall t, p (EvPbarOpen t) = false) ->
             filter p (trace (s_world s))
             = filter p [EvPoolCreate cpu_count InitSetLock]).
Proof.
  unfold submission, submit_all.
  destruct (np_asarray_spec hp data) as (fresh0 & H0 & _).
  destruct (np_asarray A hp data) as [hp1 d0]; simpl in H0; subst hp1.
  match goal with
  | |- context [fold_left ?f ?js ?s0] =>
      destruct (submit_loop_frame exec_function exec_params
                  data cpu_count pbar step_size js s0)
        as ((fresh & Hh) & Hc & Hf)
  end.
  simpl in *. fold task in Hc. split; [|split].
  - exists (fresh0 ++ fresh). now rewrite Hh, app_assoc.
  - apply Hc. destruct pbar; simpl.
    + apply (ad_consistent _ _ _ _ (emit_advances task _ _)).
      apply (ad_consistent _ _ _ _ (emit_advances task _ _)).
      apply start_consistent.
    + apply (ad_consistent _ _ _ _ (emit_advances task _ _)).
      apply start_consistent.
  - intros p Hp Hopen. rewrite Hf by auto.
    destruct pbar; simpl; auto.
    rewrite Hopen. now destruct (p (EvPoolCreate cpu_count InitSetLock)).
Qed.

(** The chunks it submits, for a workload that is in the store. *)
Lemma submission_chunks data cpu_count pbar step_size (hp : heap A) orc :
  (data < length hp)%nat ->
  let n := Py.len (fetch hp data) in
  submitted (s_world (submission exec_function exec_params
                                 data cpu_count pbar step_size hp orc))
  = chunks (Z.to_nat (cpu_step n step_size)) (end_idx_of step_size n)
           (fetch hp data).
Proof.
  intros Hd n. unfold submission, submit_all.
  destruct (np_asarray_spec hp data) as (fresh0 & H0 & H1 & H2).
  destruct (np_asarray A hp data) as [hp1 d0]; simpl in H0, H1, H2.
  subst hp1.
  rewrite (submit_loop_spec exec_function exec_params); simpl.
  - rewrite range_length, H2, fetch_app by auto.
    destruct pbar; reflexivity.
  - rewrite length_app; lia.
  - exact H1.
Qed.

Lemma submitted_length {Arg Res} (w : world Arg Res) :
  length (submitted w) = length (semaphores w).
Proof. apply length_map. Qed.

Lemma count_app p (t1 t2 : list event) :
  count p (t1 ++ t2) = (count p t1 + count p t2)%nat.
Proof. unfold count. now rewrite filter_app, length_app. Qed.

(** The run in terms of the chunks submitted: the outcome is that of
    the aggregation loop over the task outcomes in submission order;
    handles are resolved in that order; the pool is closed and joined
    on the normal exit only. *)
Lemma multiprocess_run_spec data cpu_count pbar step_size output_dim verbose
      (hp : heap A) orc :
  step_size <> 0 ->
  let s := submission exec_function exec_params
                      data cpu_count pbar step_size hp orc in
  let outs := map task (submitted (s_world s)) in
  let final := collect output_dim outs (empty_buckets output_dim) in
  let r := multiprocess_run exec_function exec_params data cpu_count pbar
                            step_size output_dim verbose hp orc in
  r_result r = match final with
               | Ok db => Ok (filter (not_None B) db)
               | Raise e => Raise e
               end /\
  r_heap r = s_heap s /\
  submitted (r_world r) = submitted (s_world s) /\
  filter is_get (trace (r_world r))
  = map EvGet (seq 0 (resolved output_dim outs (empty_buckets output_dim))) /\
  (forall p, after_submission p -> after_aggregation p ->
             (forall t, p (EvPbarOpen t) = false) ->
             p EvPbarClose = false ->
             filter p (trace (r_world r))
             = filter p [EvPoolCreate cpu_count InitSetLock]
               ++ match final with
                  | Ok _ => filter p [EvClose; EvJoin]
                  | Raise _ => []
                  end) /\
  filter is_submit (trace (r_world r))
  = map EvSubmit (seq 0 (length (submitted (s_world s)))).
Proof.
  intros Hs s outs final r.
  assert (Hsub : filter is_submit (trace (s_world s))
                 = map EvSubmit (seq 0 (length (submitted (s_world s))))).
  { rewrite submitted_length. unfold s, submission, submit_all.
    destruct (np_asarray A hp data) as [hp1 d0].
    match goal with
    | |- context [fold_left ?f ?js ?s0] =>
        destruct (submit_loop_submits exec_function exec_params
                    data cpu_count pbar step_size js s0) as (I1 & I2)
    end.
    rewrite I1, I2. destruct pbar; reflexivity. }
  unfold r, multiprocess_run.
  destruct (step_size =? 0) eqn:E; [apply Z.eqb_eq in E; contradiction|].
  fold s. fold (@empty_buckets B output_dim).
  destruct (submission_frame data cpu_count pbar step_size hp orc)
    as (_ & Hc & Hf). fold s in Hc, Hf.
  destruct (aggregate_spec exec_function exec_params output_dim
              (negb pbar && (verbose >? 0)) (submitted (s_world s))
              0%nat [] [] (empty_buckets output_dim) (s_world s) Hc)
    as (R1 & R2 & R3 & R4); [simpl; now rewrite app_nil_r | reflexivity |].
  rewrite submitted_length in R1, R2, R3, R4.
  fold task outs final in R1, R2.
  destruct (aggregate A B P exec_function exec_params output_dim
              (negb pbar && (verbose >? 0))
              (seq 0 (length (semaphores (s_world s))))
              (empty_buckets output_dim) (s_world s)) as [w res].
  simpl in R1, R2, R3, R4. subst res.
  rewrite (Hf is_get) in R2; [| repeat split; now intros [ ] | reflexivity].
  simpl in R2.
  destruct final as [db|e]; simpl.
  - repeat split; auto.
    + destruct pbar; simpl; auto.
    + destruct pbar; simpl; rewrite !filter_app; simpl;
        rewrite R2; now rewrite !app_nil_r.
    + intros p Hp1 Hp2 Hopen Hclose.
      destruct Hp2 as (Hw & Hg & Hpr).
      assert (E' : filter p (trace w)
                   = filter p [EvPoolCreate cpu_count InitSetLock])
        by (rewrite R3, Hf; auto; repeat split; auto).
      destruct pbar; simpl; rewrite !filter_app, E'; simpl;
        rewrite ?Hclose, ?Hpr; simpl;
        destruct (p EvClose), (p EvJoin),
                 (p (EvPoolCreate cpu_count InitSetLock)); reflexivity.
    + rewrite <- Hsub, <- (R3 is_submit) by (repeat split; now intros [ ]).
      destruct pbar; simpl; rewrite !filter_app; simpl;
        now rewrite !app_nil_r.
  - repeat split; auto.
    + intros p Hp1 Hp2 Hopen Hclose.
      rewrite R3, Hf by auto. now rewrite app_nil_r.
    + rewrite <- Hsub. apply R3. repeat split; now intros [ ].
Qed.

(** When the workers finish on their own none but the first
    [cpu_count + 2] tasks, every handle after these is still unresolved
    at the end of the submission loop, however many there are. *)
Lemma throttle_leaves_tail_unresolved data cpu_count pbar step_size
      (hp : heap A) orc :
  Forall (Forall (fun h => (h <= Z.to_nat (cpu_count + 1))%nat)) orc ->
  let s := submission exec_function exec_params
                      data cpu_count pbar step_size hp orc in
  (length (submitted (s_world s))
   <= unresolved (s_world s) + S (Z.to_nat (cpu_count + 1)))%nat.
Proof.
  intros Ho s. rewrite submitted_length.
  apply tail_pending_unresolved.
  unfold s, submission, submit_all.
  destruct (np_asarray A hp data) as [hp1 d0].
  apply (submit_loop_tail exec_function exec_params); simpl.
  - destruct pbar; exact Ho.
  - intros h x Hx. destruct pbar; simpl in Hx; destruct h; discriminate.
Qed.

Lemma submission_cursor data cpu_count pbar step_size (hp : heap A) orc :
  let s := submission exec_function exec_params
                      data cpu_count pbar step_size hp orc in
  (datapoints s = data \/ length hp <= datapoints s)%nat.
Proof.
  unfold submission, submit_all.
  destruct (np_asarray_spec hp data) as (fresh0 & H0 & _).
  assert (Hd : (snd (np_asarray A hp data) = data
                \/ length hp <= snd (np_asarray A hp data))%nat).
  { unfold np_asarray, alloc.
    destruct (nth_error hp data) as [[l|l]|]; simpl; auto. }
  destruct (np_asarray A hp data) as [hp1 d0]; simpl in H0, Hd; subst hp1.
  apply (submit_loop_cursor exec_function exec_params); simpl; auto.
  rewrite length_app. lia.
Qed.

End RunFacts.

(** ** Order preservation *)

Section MapCallback.

Context {A B P : Type}.
Variable exec_function : list A -> P -> outcome (list (pyseq B)).
Variable exec_params : P.
Variable g : A -> B.

(** The callback returns [([g(x) for x in chunk],)]. *)
Hypothesis exec_map :
  forall chunk, exec_function chunk exec_params = Ok [Some (map g chunk)].

Lemma collect_map (cs : list (list A)) : forall acc : list B,
  collect 1 (map (cpu_task A B P exec_function exec_params) cs) [Some acc]
  = Ok [Some (acc ++ map g (concat cs))] /\
  resolved 1 (map (cpu_task A B P exec_function exec_params) cs) [Some acc]
  = length cs.
Proof.
  induction cs as [|c cs IH]; intros acc; simpl.
  - now rewrite app_nil_r.
  - unfold cpu_task at 1 3. rewrite exec_map. simpl.
    destruct (IH (acc ++ map g c)) as (I1 & I2).
    rewrite I1, I2, map_app, app_assoc. auto.
Qed.

End MapCallback.

(** C1. With [output_dim = 1], a positive chunk size and a callback that
    maps each chunk item by item (the identity callback is [g x = x]; the
    doubling callback of the end-to-end scenario is [g x = 2 * x]),
    whatever the order and the moments in which the workers finish the
    tasks (every oracle), the run returns one bucket holding the images
    of the workload's items in workload order; the chunks concatenate to
    the workload; and the handles are resolved in the order in which
    they were submitted, each exactly once. *)
Theorem C1_order_preservation {A B P : Type}
        (exec_function : list A -> P -> outcome (list (pyseq B)))
        (exec_params : P) (g : A -> B)
        (data : nat) (cpu_count : Z) (pbar : bool) (step_size verbose : Z)
        (hp : heap A) (orc : list (list nat)) :
  (data < length hp)%nat ->
  0 < step_size ->
  (forall chunk, exec_function chunk exec_params = Ok [Some (map g chunk)]) ->
  let r := multiprocess_run exec_function exec_params data cpu_count pbar
                            step_size 1 verbose hp orc in
  r_result r = Ok [Some (map g (fetch hp data))] /\
  concat (submitted (r_world r)) = fetch hp data /\
  filter is_submit (trace (r_world r))
  = map EvSubmit (seq 0 (length (submitted (r_world r)))) /\
  filter is_get (trace (r_world r))
  = map EvGet (seq 0 (length (submitted (r_world r)))).
Proof.
  intros Hd Hs Hg r.
  destruct (multiprocess_run_spec exec_function exec_params data cpu_count
              pbar step_size 1 verbose hp orc ltac:(lia))
    as (R1 & _ & R3 & R4 & _ & R6).
  fold r in R1, R3, R4, R6.
  pose proof (submission_chunks exec_function exec_params data cpu_count
                                pbar step_size hp orc Hd) as Hcs.
  simpl in Hcs.
  destruct (chunks_partition (fetch hp data) step_size Hs) as (_ & _ & Hcat & _).
  rewrite <- Hcs in Hcat.
  destruct (collect_map exec_function exec_params g Hg
              (submitted (s_world (submission exec_function exec_params data
                                              cpu_count pbar step_size hp orc)))
              []) as (C1 & C2).
  change (empty_buckets 1) with [@Some (list B) []] in R1, R4.
  rewrite C1 in R1. rewrite C2 in R4. simpl in R1.
  rewrite Hcat in R1. rewrite R3. repeat split; assumption.
Qed.

(** C1 at the end-to-end scenario: workload [0..99], chunk size 10, the
    doubling callback, and workers that finish out of order. *)
Lemma C1_end_to_end :
  (0 < length [PyList workload_100])%nat /\
  0 < 10 /\
  (forall chunk, double chunk tt = Ok [Some (map (fun x => 2 * x) chunk)]) /\
  let r := multiprocess_run double tt 0%nat 4 false 10 1 0
                            [PyList workload_100] out_of_order in
  r_result r = Ok [Some (map (fun x => 2 * x) workload_100)] /\
  concat (submitted (r_world r)) = workload_100 /\
  filter is_submit (trace (r_world r))
  = map EvSubmit (seq 0 (length (submitted (r_world r)))) /\
  filter is_get (trace (r_world r))
  = map EvGet (seq 0 (length (submitted (r_world r)))).
Proof.
  split; [simpl; lia|]. split; [lia|]. split; [reflexivity|].
  apply (C1_order_preservation double tt (fun x => 2 * x) 0%nat 4 false 10 0
                               [PyList workload_100] out_of_order);
    [simpl; lia | lia | reflexivity].
Defined.

(** The bucket of that run, written out, and the order in which the
    workers ran the tasks. *)
Example end_to_end_bucket :
  let r := multiprocess_run double tt 0%nat 4 false 10 1 0
                            [PyList workload_100] out_of_order in
  r_result r = Ok [Some (map (fun i => Z.of_nat (2 * i)) (seq 0 100))] /\
  filter is_run (trace (r_world r))
  = map EvRun [1; 0; 4; 2; 9; 7; 8; 6; 3; 5]%nat.
Proof. vm_compute. split; reflexivity. Qed.

(** ** Partitioning *)

(** C4. For a positive chunk size [S] and a workload of length [N],
    [multiprocess_run] submits exactly [ceil(N / S)] chunks; chunk [i] is
    the slice [[i*S : min((i+1)*S, N)]] of the workload; each range ends
    where the next one starts, the first starts at 0 and the last ends at
    [N], so the chunks concatenate to the workload; and no chunk is
    empty. *)
Theorem C4_chunk_coverage {A B P : Type}
        (exec_function : list A -> P -> outcome (list (pyseq B)))
        (exec_params : P)
        (data : nat) (cpu_count : Z) (pbar : bool)
        (step_size output_dim verbose : Z)
        (hp : heap A) (orc : list (list nat)) :
  (data < length hp)%nat ->
  0 < step_size ->
  let l := fetch hp data in
  let N := Py.len l in
  let cs := submitted (r_world (multiprocess_run exec_function exec_params
                                  data cpu_count pbar step_size output_dim
                                  verbose hp orc)) in
  Py.len cs = (N + step_size - 1) / step_size /\
  (forall i, 0 <= i < Py.len cs ->
     nth_error cs (Z.to_nat i)
     = Some (Py.slice l (i * step_size) (Z.min ((i + 1) * step_size) N))) /\
  (forall i, 0 <= i < Py.len cs - 1 ->
     Z.min ((i + 1) * step_size) N = (i + 1) * step_size) /\
  (0 < Py.len cs -> Z.min (Py.len cs * step_size) N = N) /\
  concat cs = l /\
  Forall (fun c => c <> []) cs.
Proof.
  intros Hd Hs l N cs.
  destruct (multiprocess_run_spec exec_function exec_params data cpu_count
              pbar step_size output_dim verbose hp orc ltac:(lia))
    as (_ & _ & R3 & _).
  pose proof (submission_chunks exec_function exec_params data cpu_count
                                pbar step_size hp orc Hd) as Hcs.
  simpl in Hcs. rewrite <- R3 in Hcs. fold cs l N in Hcs.
  destruct (chunks_partition l step_size Hs) as (H1 & H2 & H3 & H4).
  fold N in H1, H2, H3, H4. rewrite <- Hcs in H1, H2, H3, H4.
  assert (HN : 0 <= N) by (unfold N, Py.len; lia).
  destruct (cpu_step_ceil N step_size HN Hs) as (Hk & _ & Hb).
  rewrite Hk, <- H1 in Hb.
  repeat split; auto; intros; nia.
Qed.

(** C4 at [N = 10], [S = 4]. *)
Lemma C4_ten_by_four :
  (0 < length [PyList workload_10])%nat /\
  0 < 4 /\
  let l := workload_10 in
  let cs := submitted (r_world (multiprocess_run double tt 0%nat 2 false 4 1 0
                                  [PyList workload_10] [])) in
  Py.len cs = (10 + 4 - 1) / 4 /\
  (forall i, 0 <= i < Py.len cs ->
     nth_error cs (Z.to_nat i)
     = Some (Py.slice l (i * 4) (Z.min ((i + 1) * 4) 10))) /\
  (forall i, 0 <= i < Py.len cs - 1 -> Z.min ((i + 1) * 4) 10 = (i + 1) * 4) /\
  (0 < Py.len cs -> Z.min (Py.len cs * 4) 10 = 10) /\
  concat cs = l /\
  Forall (fun c => c <> []) cs.
Proof.
  split; [simpl; lia|]. split; [lia|].
  apply (C4_chunk_coverage double tt 0%nat 2 false 4 1 0
                           [PyList workload_10] []);
    [simpl; lia | lia].
Defined.

(** [N = 10], [S = 4]: the three chunks [0,4), [4,8), [8,10). *)
Example ten_by_four_chunks :
  submitted (r_world (multiprocess_run double tt 0%nat 2 false 4 1 0
                        [PyList workload_10] []))
  = [[0; 1; 2; 3]; [4; 5; 6; 7]; [8; 9]].
Proof. reflexivity. Qed.

(** ** The caller's workload *)

(** C9. A run leaves every object of the caller's store as it was: the
    store after the run is the one before it followed by the arrays that
    [np.asarray] and [np.delete] allocated.  In particular [data] has the
    same rows after the run. *)
Theorem C9_workload_unchanged {A B P : Type}
        (exec_function : list A -> P -> outcome (list (pyseq B)))
        (exec_params : P)
        (data : nat) (cpu_count : Z) (pbar : bool)
        (step_size output_dim verbose : Z)
        (hp : heap A) (orc : list (list nat)) :
  (data < length hp)%nat ->
  let r := multiprocess_run exec_function exec_params data cpu_count pbar
                            step_size output_dim verbose hp orc in
  (exists fresh, r_heap r = hp ++ fresh) /\
  nth_error (r_heap r) data = nth_error hp data /\
  fetch (r_heap r) data = fetch hp data /\
  Py.len (fetch (r_heap r) data) = Py.len (fetch hp data).
Proof.
  intros Hd r.
  assert (H : exists fresh, r_heap r = hp ++ fresh).
  { destruct (Z.eq_dec step_size 0) as [-> | Hs].
    - exists []. now rewrite app_nil_r.
    - destruct (multiprocess_run_spec exec_function exec_params data
                  cpu_count pbar step_size output_dim verbose hp orc Hs)
        as (_ & R2 & _).
      fold r in R2. rewrite R2.
      apply (submission_frame exec_function exec_params). }
  split; [exact H|]. destruct H as (fresh & ->).
  rewrite fetch_app, nth_error_app1 by auto. auto.
Qed.

(** C9 at a run over a Python list of ten items, progress bar on. *)
Lemma C9_list_workload :
  (0 < length [PyList workload_10])%nat /\
  let r := multiprocess_run double tt 0%nat 2 true 4 1 0
                            [PyList workload_10] [] in
  (exists fresh, r_heap r = [PyList workload_10] ++ fresh) /\
  nth_error (r_heap r) 0 = nth_error [PyList workload_10] 0 /\
  fetch (r_heap r) 0 = fetch [PyList workload_10] 0 /\
  Py.len (fetch (r_heap r) 0) = Py.len (fetch [PyList workload_10] 0).
Proof.
  split; [simpl; lia|].
  apply (C9_workload_unchanged double tt 0%nat 2 true 4 1 0
                               [PyList workload_10] []).
  simpl; lia.
Defined.

(** When the caller passes an array, [np.asarray] returns that very
    object and the first chunk is cut off it; it is [np.delete] that
    moves the cursor to a new array. *)
Example array_workload_store :
  r_heap (multiprocess_run double tt 0%nat 2 false 4 1 0
                           [NdArray workload_10] [])
  = [NdArray workload_10; NdArray [4; 5; 6; 7; 8; 9]; NdArray [8; 9];
     NdArray []].
Proof. reflexivity. Qed.

(** ** Failing tasks *)

Lemma is_close_quiet :
  after_submission is_close /\ after_aggregation is_close /\
  (forall t, is_close (EvPbarOpen t) = false) /\ is_close EvPbarClose = false.
Proof. repeat split; now intros [ ]. Qed.

Lemma is_join_quiet :
  after_submission is_join /\ after_aggregation is_join /\
  (forall t, is_join (EvPbarOpen t) = false) /\ is_join EvPbarClose = false.
Proof. repeat split; now intros [ ]. Qed.

Lemma is_create_quiet :
  after_submission is_create /\ after_aggregation is_create /\
  (forall t, is_create (EvPbarOpen t) = false) /\ is_create EvPbarClose = false.
Proof. repeat split; now intros [ ]. Qed.

(** On the normal exit the pool is created once, closed once and joined
    once. *)
Lemma shutdown_on_return {A B P : Type}
      (exec_function : list A -> P -> outcome (list (pyseq B)))
      (exec_params : P) data cpu_count pbar step_size output_dim verbose
      (hp : heap A) orc v :
  let r := multiprocess_run exec_function exec_params data cpu_count pbar
                            step_size output_dim verbose hp orc in
  r_result r = Ok v ->
  count is_create (trace (r_world r)) = 1%nat /\
  count is_close (trace (r_world r)) = 1%nat /\
  count is_join (trace (r_world r)) = 1%nat.
Proof.
  intros r Hv.
  destruct (Z.eq_dec step_size 0) as [-> | Hs]; [discriminate|].
  destruct (multiprocess_run_spec exec_function exec_params data cpu_count
              pbar step_size output_dim verbose hp orc Hs)
    as (R1 & _ & _ & _ & R5 & _).
  fold r in R1, R5. unfold count.
  destruct is_close_quiet as (C1 & C2 & C3 & C4).
  destruct is_join_quiet as (J1 & J2 & J3 & J4).
  destruct is_create_quiet as (K1 & K2 & K3 & K4).
  rewrite (R5 is_create), (R5 is_close), (R5 is_join) by auto.
  destruct (collect output_dim _ _); [auto | congruence].
Qed.

(** C2 as stated fails.  In [run_raises_on_two] the task of the second
    chunk raises; the run raises that exception and ends without
    [pool.close()] and [pool.join()]. *)
Lemma C2_shutdown_skipped :
  r_result run_raises_on_two = Raise (OtherError "ValueError") /\
  ~ (count is_close (trace (r_world run_raises_on_two)) = 1%nat /\
     count is_join (trace (r_world run_raises_on_two)) = 1%nat).
Proof.
  split; [reflexivity|]. vm_compute. intros [H _]. discriminate.
Qed.

(** C2 (amended). When the task of a chunk raises and the tasks of the
    chunks submitted before it returned well-formed tuples, the run raises
    that same exception when that chunk's handle is resolved: the handles
    before it and its own are resolved, in submission order, and none
    after it; no result is returned; and on this exit [pool.close()] and
    [pool.join()] are not executed. *)
Theorem C2_fail_fast_without_shutdown {A B P : Type}
        (exec_function : list A -> P -> outcome (list (pyseq B)))
        (exec_params : P)
        (data : nat) (cpu_count : Z) (pbar : bool)
        (step_size output_dim verbose : Z)
        (hp : heap A) (orc : list (list nat))
        (pre : list (list A)) (c : list A) (post : list (list A)) (e : exn) :
  submitted (r_world (multiprocess_run exec_function exec_params data
                        cpu_count pbar step_size output_dim verbose hp orc))
  = pre ++ c :: post ->
  Forall (fun c' => exists res, exec_function c' exec_params = Ok res /\
                                well_formed output_dim res) pre ->
  exec_function c exec_params = Raise e ->
  let r := multiprocess_run exec_function exec_params data cpu_count pbar
                            step_size output_dim verbose hp orc in
  r_result r = Raise e /\
  filter is_get (trace (r_world r)) = map EvGet (seq 0 (S (length pre))) /\
  count is_create (trace (r_world r)) = 1%nat /\
  count is_close (trace (r_world r)) = 0%nat /\
  count is_join (trace (r_world r)) = 0%nat.
Proof.
  intros Hsub Hpre Hc r. fold r in Hsub.
  destruct (Z.eq_dec step_size 0) as [Hs | Hs].
  { subst step_size. unfold r in Hsub. simpl in Hsub.
    destruct pre; discriminate. }
  destruct (multiprocess_run_spec exec_function exec_params data cpu_count
              pbar step_size output_dim verbose hp orc Hs)
    as (R1 & _ & R3 & R4 & R5 & _).
  fold r in R1, R3, R4, R5. rewrite <- R3, Hsub in R1, R4, R5.
  destruct (empty_buckets_shape (B := B) output_dim) as (E1 & E2).
  destruct (collect_first_failure exec_function exec_params output_dim
              pre c post e (empty_buckets output_dim) E1 E2 Hpre Hc)
    as (F1 & F2).
  rewrite F1 in R1, R5. rewrite F2 in R4.
  destruct is_close_quiet as (C1 & C2 & C3 & C4).
  destruct is_join_quiet as (J1 & J2 & J3 & J4).
  destruct is_create_quiet as (K1 & K2 & K3 & K4).
  unfold count.
  rewrite (R5 is_create), (R5 is_close), (R5 is_join) by auto.
  auto.
Qed.

(** C2 (amended) at [run_raises_on_two]. *)
Lemma C2_second_chunk_raises :
  submitted (r_world run_raises_on_two) = [[1]] ++ [2] :: [[3]] /\
  Forall (fun c' => exists res, raises_on_two c' tt = Ok res /\
                                well_formed 1 res) [[1]] /\
  raises_on_two [2] tt = Raise (OtherError "ValueError") /\
  r_result run_raises_on_two = Raise (OtherError "ValueError") /\
  filter is_get (trace (r_world run_raises_on_two)) = map EvGet (seq 0 2) /\
  count is_create (trace (r_world run_raises_on_two)) = 1%nat /\
  count is_close (trace (r_world run_raises_on_two)) = 0%nat /\
  count is_join (trace (r_world run_raises_on_two)) = 0%nat.
Proof.
  assert (H1 : Forall (fun c' => exists res, raises_on_two c' tt = Ok res /\
                                             well_formed 1 res) [[1]]).
  { constructor; [|constructor]. exists [Some [1]]. split; [reflexivity|].
    intros k Hk. exists [1]. destruct k; [reflexivity|].
    change (Z.to_nat 1) with 1%nat in Hk. lia. }
  split; [reflexivity|]. split; [exact H1|]. split; [reflexivity|].
  apply (C2_fail_fast_without_shutdown raises_on_two tt 0%nat 2 false 1 1 0
           [PyList [1; 2; 3]] [] [[1]] [2] [[3]] (OtherError "ValueError"));
    [reflexivity | exact H1 | reflexivity].
Defined.

(** ** Buckets *)

(** A run that returns returns exactly [output_dim] buckets, each of them
    a sequence: the filter of line 86 never removes one. *)
Lemma buckets_never_dropped {A B P : Type}
      (exec_function : list A -> P -> outcome (list (pyseq B)))
      (exec_params : P) data cpu_count pbar step_size output_dim verbose
      (hp : heap A) orc v :
  r_result (multiprocess_run exec_function exec_params data cpu_count pbar
                             step_size output_dim verbose hp orc) = Ok v ->
  length v = Z.to_nat output_dim /\ Forall (fun b => b <> None) v.
Proof.
  intros Hv.
  destruct (Z.eq_dec step_size 0) as [-> | Hs]; [discriminate|].
  destruct (multiprocess_run_spec exec_function exec_params data cpu_count
              pbar step_size output_dim verbose hp orc Hs) as (R1 & _).
  rewrite R1 in Hv.
  destruct (collect output_dim _ _) as [db|e] eqn:E; [|discriminate].
  injection Hv as <-.
  destruct (empty_buckets_shape (B := B) output_dim) as (E1 & E2).
  apply collect_shape in E as (S1 & S2).
  rewrite filter_not_None by auto. split; [congruence | auto].
Qed.

Example empty_bucket_kept :
  r_result (multiprocess_run seq_and_empty tt 0%nat 2 false 2 2 0
                             [PyList [1; 2; 3]] [])
  = Ok [Some [1; 2; 3]; Some []].
Proof. reflexivity. Qed.

(** C3 (what the code does). With [output_dim = 2] and a callback that
    returns [(seq, None)] for every chunk, a run over a workload that is
    not empty returns no tuple at all: resolving the first handle raises
    [TypeError], from [datapoints_db[1].extend(None)]. *)
Theorem C3_none_bucket_raises {A B P : Type}
        (exec_function : list A -> P -> outcome (list (pyseq B)))
        (exec_params : P) (f : list A -> list B)
        (data : nat) (cpu_count : Z) (pbar : bool) (step_size verbose : Z)
        (hp : heap A) (orc : list (list nat)) :
  (data < length hp)%nat ->
  0 < step_size ->
  fetch hp data <> [] ->
  (forall chunk, exec_function chunk exec_params = Ok [Some (f chunk); None]) ->
  r_result (multiprocess_run exec_function exec_params data cpu_count pbar
                             step_size 2 verbose hp orc)
  = Raise TypeError.
Proof.
  intros Hd Hs Hne Hcb.
  destruct (multiprocess_run_spec exec_function exec_params data cpu_count
              pbar step_size 2 verbose hp orc ltac:(lia)) as (R1 & _).
  rewrite R1.
  pose proof (submission_chunks exec_function exec_params data cpu_count
                                pbar step_size hp orc Hd) as Hcs.
  simpl in Hcs.
  destruct (chunks_partition (fetch hp data) step_size Hs) as (_ & _ & Hcat & _).
  rewrite <- Hcs in Hcat.
  destruct (submitted _) as [|c cs]; [simpl in Hcat; congruence|].
  simpl. unfold cpu_task at 1. rewrite Hcb. reflexivity.
Qed.

(** C3 at a workload of one item. *)
Lemma C3_seq_and_None :
  (0 < length [PyList [7]])%nat /\
  0 < 1 /\
  fetch [PyList [7]] 0 <> [] /\
  (forall chunk, seq_and_None chunk tt = Ok [Some chunk; None]) /\
  r_result (multiprocess_run seq_and_None tt 0%nat 2 false 1 2 0
                             [PyList [7]] [])
  = Raise TypeError.
Proof.
  split; [simpl; lia|]. split; [lia|]. split; [discriminate|].
  split; [reflexivity|].
  apply (C3_none_bucket_raises seq_and_None tt (fun c => c) 0%nat 2 false 1 0
                               [PyList [7]] []);
    [simpl; lia | lia | discriminate | reflexivity].
Defined.

(** Over an empty workload nothing is resolved and both buckets are
    returned. *)
Example seq_and_None_empty_workload :
  r_result (multiprocess_run seq_and_None tt 0%nat 2 false 1 2 0
                             [PyList []] [])
  = Ok [Some []; Some []].
Proof. reflexivity. Qed.

(** ** Chunk sizes that are not positive *)

Lemma cpu_step_negative (n step_size : Z) :
  0 <= n -> step_size < 0 -> cpu_step n step_size <= 0.
Proof.
  intros Hn Hs. unfold cpu_step, Py.int_div, Py.of_bool.
  pose proof (Z.mod_neg_bound n step_size Hs) as Hm.
  replace step_size with (- - step_size) at 1 by lia.
  rewrite Z.quot_opp_r by lia.
  pose proof (Z.quot_pos n (- step_size) Hn ltac:(lia)) as Hq.
  destruct (n mod step_size >? 0) eqn:E; [apply Z.gtb_lt in E; lia | lia].
Qed.

Lemma range_empty (n : Z) : n <= 0 -> Py.range n = [].
Proof.
  intros Hn. unfold Py.range.
  now replace (Z.to_nat n) with 0%nat by lia.
Qed.

(** C7 as stated fails.  With chunk size [-1] the run does not fail: the
    pool is created and one empty bucket is returned. *)
Lemma C7_negative_chunk_size_returns :
  ~ (exists e, r_result run_negative_step = Raise e) /\
  r_result run_negative_step = Ok [Some []] /\
  count is_create (trace (r_world run_negative_step)) = 1%nat.
Proof.
  split; [|split; reflexivity].
  intros (e & He). vm_compute in He. discriminate.
Qed.

(** C7 (amended). With chunk size 0 the run fails at once, with
    [ZeroDivisionError], before the pool is created; with a negative
    chunk size it does not fail: the pool is created, no chunk is
    submitted, and [output_dim] empty buckets are returned.  In both
    cases the work callback is never invoked. *)
Theorem C7_nonpositive_chunk_size {A B P : Type}
        (exec_function : list A -> P -> outcome (list (pyseq B)))
        (exec_params : P)
        (data : nat) (cpu_count : Z) (pbar : bool)
        (step_size output_dim verbose : Z)
        (hp : heap A) (orc : list (list nat)) :
  step_size <= 0 ->
  let r := multiprocess_run exec_function exec_params data cpu_count pbar
                            step_size output_dim verbose hp orc in
  r_result r = (if step_size =? 0 then Raise ZeroDivisionError
                else Ok (empty_buckets output_dim)) /\
  count is_create (trace (r_world r)) = (if step_size =? 0 then 0%nat else 1%nat) /\
  submitted (r_world r) = [] /\
  count is_submit (trace (r_world r)) = 0%nat /\
  count is_run (trace (r_world r)) = 0%nat.
Proof.
  intros Hs r. unfold r, multiprocess_run.
  destruct (step_size =? 0) eqn:E; [simpl; auto|].
  apply Z.eqb_neq in E.
  unfold submission, submit_all.
  rewrite (range_empty (cpu_step _ _))
    by (apply cpu_step_negative; [unfold Py.len|]; lia).
  destruct (np_asarray A hp data) as [hp1 d0].
  destruct (empty_buckets_shape (B := B) output_dim) as (_ & E2).
  fold (@empty_buckets B output_dim).
  destruct pbar; simpl; rewrite (filter_not_None _ E2); auto.
Qed.

(** C7 (amended) at chunk size [-1]. *)
Lemma C7_at_minus_one :
  -1 <= 0 /\
  r_result run_negative_step
  = (if -1 =? 0 then Raise ZeroDivisionError else Ok (empty_buckets 1)) /\
  count is_create (trace (r_world run_negative_step))
  = (if -1 =? 0 then 0%nat else 1%nat) /\
  submitted (r_world run_negative_step) = [] /\
  count is_submit (trace (r_world run_negative_step)) = 0%nat /\
  count is_run (trace (r_world run_negative_step)) = 0%nat.
Proof.
  split; [lia|].
  apply (C7_nonpositive_chunk_size double tt 0%nat 2 false (-1) 1 0
                                   [PyList [1; 2; 3]] []).
  lia.
Defined.

Example zero_chunk_size :
  let r := multiprocess_run double tt 0%nat 2 true 0 1 0 [PyList [1; 2; 3]] [] in
  r_result r = Raise ZeroDivisionError /\ trace (r_world r) = [].
Proof. split; reflexivity. Qed.

(** ** Throttling *)

(** C8 (what the code does). The submitter counts submissions, not
    unresolved handles, and every wait is on the handle at index
    [cpu_count + 1]: after the first wait that handle is resolved and
    the later waits return at once.  At the end of the submission loop
    of this run, with [cpu_count = 1], nine handles are unresolved. *)
Theorem C8_throttle_does_not_bound :
  filter is_wait (trace (s_world throttled_submission))
  = [EvWait 2; EvWait 2; EvWait 2; EvWait 2]%nat /\
  map (fun x => match h_state x with Pending => false | Done _ => true end)
      (semaphores (s_world throttled_submission))
  = [true; true; true; false; false; false; false; false; false; false;
     false; false] /\
  unresolved (s_world throttled_submission) = 9%nat /\
  (Z.of_nat (unresolved (s_world throttled_submission)) > 1 + 1).
Proof. vm_compute. repeat split; reflexivity. Qed.

(** With that worker the number of unresolved handles at the end of the
    submission loop exceeds any bound, for a workload that is long
    enough. *)
Lemma throttle_unbounded (K : nat) :
  exists n : nat,
    (K <= unresolved
            (s_world (submission double tt 0%nat 1 true 1
                                 [PyList (map Z.of_nat (seq 0 n))]
                                 slow_worker)))%nat.
Proof.
  exists (K + 3)%nat.
  pose proof (throttle_leaves_tail_unresolved double tt 0%nat 1 true 1
                [PyList (map Z.of_nat (seq 0 (K + 3)))] slow_worker) as H.
  simpl in H.
  assert (Ho : Forall (Forall (fun h => (h <= Z.to_nat (1 + 1))%nat))
                      slow_worker).
  { change (Z.to_nat (1 + 1)) with 2%nat. unfold slow_worker.
    repeat constructor. }
  specialize (H Ho).
  rewrite (submission_chunks double tt 0%nat 1 true 1
             [PyList (map Z.of_nat (seq 0 (K + 3)))] slow_worker) in H
    by (simpl; lia).
  rewrite chunks_length in H.
  change (fetch [PyList (map Z.of_nat (seq 0 (K + 3)))] 0)
    with (map Z.of_nat (seq 0 (K + 3))) in H.
  unfold Py.len in H. rewrite length_map, length_seq in H.
  unfold cpu_step, Py.int_div, Py.of_bool in H.
  rewrite Z.quot_1_r, Z.mod_1_r in H. simpl in H.
  change (Z.to_nat (1 + 1)) with 2%nat in H. lia.
Qed.

(** ** [multigpu_run]: chunking *)

Lemma gpu_steps_many (data_size gpu_count : Z) :
  0 <= data_size -> 1 < gpu_count ->
  gpu_steps data_size gpu_count
  = (data_size / gpu_count,
     gpu_count + (if data_size mod gpu_count =? 0 then 0 else 1)).
Proof.
  intros Hn Hd. unfold gpu_steps, Py.int_div, Py.of_bool.
  destruct (gpu_count >? 1) eqn:E; [|rewrite Z.gtb_ltb in E; apply Z.ltb_ge in E; lia].
  rewrite Z.quot_div_nonneg by lia.
  pose proof (Z.mod_pos_bound data_size gpu_count ltac:(lia)) as Hm.
  destruct (data_size mod gpu_count >? 0) eqn:E1;
    destruct (data_size mod gpu_count =? 0) eqn:E2; auto.
  - apply Z.gtb_lt in E1. apply Z.eqb_eq in E2. lia.
  - rewrite Z.gtb_ltb in E1. apply Z.ltb_ge in E1. apply Z.eqb_neq in E2. lia.
Qed.

(** With at most one device there is one chunk, the whole workload. *)
Lemma gpu_steps_single (data_size gpu_count : Z) :
  0 <= data_size -> gpu_count <= 1 ->
  gpu_steps data_size gpu_count = (data_size, 1) /\
  map (gpu_range data_size data_size) (Py.range 1) = [(0, data_size)].
Proof.
  intros Hn Hd. unfold gpu_steps.
  destruct (gpu_count >? 1) eqn:E; [apply Z.gtb_lt in E; lia|].
  split; auto. unfold gpu_range, Py.range.
  change (Z.to_nat 1) with 1%nat. cbn [seq map Z.of_nat].
  replace ((0 + 1) * data_size) with data_size by lia.
  rewrite Z.gtb_ltb, Z.ltb_irrefl. reflexivity.
Qed.

(** With several devices, consecutive ranges are adjacent, and the last
    one ends at [data_size] exactly when the remainder of the division is
    not larger than the quotient. *)
Lemma gpu_ranges_cover_iff (data_size gpu_count : Z) :
  0 <= data_size -> 1 < gpu_count ->
  let step_size := fst (gpu_steps data_size gpu_count) in
  let step := snd (gpu_steps data_size gpu_count) in
  (forall i, 0 <= i < step - 1 ->
     snd (gpu_range data_size step_size i)
     = fst (gpu_range data_size step_size (i + 1))) /\
  (snd (gpu_range data_size step_size (step - 1)) = data_size
   <-> data_size mod gpu_count <= data_size / gpu_count).
Proof.
  intros Hn Hd. rewrite gpu_steps_many by auto. simpl.
  pose proof (Z.div_mod data_size gpu_count ltac:(lia)) as Hdm.
  pose proof (Z.mod_pos_bound data_size gpu_count ltac:(lia)) as Hm.
  pose proof (Z.div_pos data_size gpu_count Hn ltac:(lia)) as Hq.
  set (q := data_size / gpu_count) in *.
  set (m := data_size mod gpu_count) in *.
  split.
  - intros i Hi. unfold gpu_range; simpl.
    destruct ((i + 1) * q >? data_size) eqn:E; auto.
    apply Z.gtb_lt in E. destruct (m =? 0) eqn:E0; nia.
  - unfold gpu_range; simpl.
    destruct (m =? 0) eqn:E0;
      [apply Z.eqb_eq in E0 | apply Z.eqb_neq in E0];
      match goal with
      | |- context [?a >? ?b] =>
          destruct (a >? b) eqn:E;
          [apply Z.gtb_lt in E | rewrite Z.gtb_ltb in E; apply Z.ltb_ge in E]
      end; split; intros; nia.
Qed.

(** C5 (what the code does). For [N = 5] rows and [D = 3] devices the
    step size is [floor(5/3) = 1] and the number of chunks is [3 + 1],
    as the claim says, but the chunks are the ranges [0,1), [1,2), [2,3),
    [3,4): row 4 is never submitted, and a callback that returns its
    rows gets back four rows out of five. *)
Theorem C5_remainder_rows_dropped :
  gpu_steps 5 3 = (1, 4) /\
  map (gpu_range 5 1) (Py.range 4) = [(0, 1); (1, 2); (2, 3); (3, 4)] /\
  submitted (fst gpu_run_5_3)
  = [([0], [10]); ([1], [11]); ([2], [12]); ([3], [13])] /\
  concat (map fst (submitted (fst gpu_run_5_3))) <> [0; 1; 2; 3; 4] /\
  snd gpu_run_5_3 = Ok [0; 1; 2; 3].
Proof. vm_compute. repeat split; try reflexivity. discriminate. Qed.

(** ** [multigpu_run]: the [step_size] argument *)

(** C10. The argument [step_size] of [multigpu_run] is overwritten
    before it is read (lines 131-136): two calls that differ in it only
    leave the same world behind (the same chunks, the same events) and
    return the same result. *)
Theorem C10_step_size_ignored {TX TY B P : Type}
        (exec_function : list TX * list TY -> P -> outcome (option (list B)))
        (exec_params : P) (data : list TX * list TY) (gpu_count : Z)
        (pbar : bool) (step_size1 step_size2 : option Z) (verbose : Z)
        (orc : list (list nat)) :
  multigpu_run exec_function exec_params data gpu_count pbar step_size1
               verbose orc
  = multigpu_run exec_function exec_params data gpu_count pbar step_size2
                 verbose orc.
Proof. reflexivity. Qed.

(** ** [multigpu_run]: device affinity *)

Lemma start_workers_queue (processes : Z) (q : list Z) :
  start_workers (length q) (Some q) processes = map Some q.
Proof.
  induction q as [|d q IH]; simpl; auto. now rewrite IH.
Qed.

Lemma start_workers_no_queue (processes : Z) (k : nat) :
  start_workers k None processes = repeat None k.
Proof.
  induction k as [|k IH]; simpl; auto. now rewrite IH.
Qed.

Section MultigpuFacts.

Context {TX TY B P : Type}.
Variable exec_function : list TX * list TY -> P -> outcome (option (list B)).
Variable exec_params : P.

Let task := gpu_task TX TY B P exec_function exec_params.

Lemma gpu_submit_loop_filter data gpu_count pbar step_size p (js : list Z) :
  after_submission p ->
  forall s,
    filter p (trace (snd (fold_left
                            (gpu_submit_chunk TX TY B P exec_function
                               exec_params data gpu_count pbar step_size)
                            js s)))
    = filter p (trace (snd s)).
Proof.
  intros (Hw & Hs & Hwait).
  induction js as [|j js IH]; intros [pc w]; simpl; auto.
  rewrite IH. unfold gpu_submit_chunk, gpu_range. fold task.
  set (w1 := apply_async task _ pbar w).
  assert (H1 : filter p (trace w1) = filter p (trace w)).
  { unfold w1. rewrite apply_async_filter by exact Hw. simpl.
    rewrite Hs. apply app_nil_r. }
  destruct pbar; [destruct (pc =? gpu_count)|]; simpl; auto.
  rewrite (ad_filter _ _ _ _ (wait_advances task _ w1) p Hw); simpl.
  now rewrite Hwait, app_nil_r.
Qed.

Local Opaque get.

Lemma gpu_aggregate_filter report p (hs : list nat) :
  after_aggregation p ->
  forall db w,
    filter p (trace (fst (gpu_aggregate TX TY B P exec_function exec_params
                                        report hs db w)))
    = filter p (trace w).
Proof.
  intros (Hw & Hg & Hpr).
  induction hs as [|h hs IH]; intros db w; simpl; auto.
  fold task.
  pose proof (get_advances task h w) as [_ _ Hf].
  destruct (get task h w) as [w1 r]; simpl in Hf.
  assert (H1 : filter p (trace w1) = filter p (trace w)).
  { rewrite (Hf p Hw); simpl. now rewrite Hg, app_nil_r. }
  destruct r as [[res|]|e]; simpl; auto.
  rewrite IH. destruct report; auto.
  simpl. rewrite filter_app; simpl. now rewrite Hpr, app_nil_r.
Qed.

Local Transparent get.

(** The pool of a run is created once, with the queue of lines
    139-143 over the steps of lines 130-136. *)
Lemma multigpu_run_pool data gpu_count pbar step_size verbose orc :
  filter is_create
         (trace (fst (multigpu_run exec_function exec_params data gpu_count
                                   pbar step_size verbose orc)))
  = [EvPoolCreate gpu_count
       (InitDevice
          (device_queue gpu_count
             (snd (gpu_steps (Py.len (fst data)) gpu_count)))
          gpu_count)].
Proof.
  unfold multigpu_run.
  destruct (gpu_steps (Py.len (fst data)) gpu_count) as [ss step]; simpl.
  destruct is_create_quiet as (K1 & K2 & K3 & _).
  match goal with
  | |- context [gpu_aggregate _ _ _ _ _ _ ?rep ?hs ?db ?w] =>
      pose proof (gpu_aggregate_filter rep is_create hs K2 db w) as Ha;
      destruct (gpu_aggregate _ _ _ _ exec_function exec_params rep hs db w)
        as [w' r]
  end.
  simpl in Ha. rewrite gpu_submit_loop_filter in Ha by exact K1.
  assert (Hw' : filter is_create (trace w')
                = [EvPoolCreate gpu_count
                     (InitDevice (device_queue gpu_count step) gpu_count)])
    by (rewrite Ha; destruct pbar; reflexivity).
  destruct r as [db|e]; simpl; auto.
  rewrite !filter_app, Hw'. reflexivity.
Qed.

(** The chunks of a run are those of the steps, in order. *)
Lemma gpu_submit_loop_args data gpu_count pbar step_size (js : list Z) :
  forall s,
    submitted (snd (fold_left
                      (gpu_submit_chunk TX TY B P exec_function exec_params
                                        data gpu_count pbar step_size)
                      js s))
    = submitted (snd s) ++ map (gpu_chunk data step_size) js.
Proof.
  induction js as [|j js IH]; intros [pc w]; simpl.
  - now rewrite app_nil_r.
  - rewrite IH. unfold gpu_submit_chunk, gpu_chunk, gpu_range. fold task.
    set (w1 := apply_async task _ pbar w).
    assert (H1 : submitted w1 = submitted w ++ [gpu_chunk data step_size j])
      by apply apply_async_args.
    unfold gpu_chunk, gpu_range in H1.
    destruct pbar; [destruct (pc =? gpu_count)|]; simpl;
      rewrite ?(ad_args _ _ _ _ (wait_advances task _ w1)), H1, <- app_assoc;
      reflexivity.
Qed.

Local Opaque get.

Lemma gpu_aggregate_args report (hs : list nat) :
  forall db w,
    submitted (fst (gpu_aggregate TX TY B P exec_function exec_params
                                  report hs db w))
    = submitted w.
Proof.
  induction hs as [|h hs IH]; intros db w; simpl; auto.
  fold task.
  pose proof (get_advances task h w) as [Ha _ _].
  destruct (get task h w) as [w1 r]; simpl in Ha.
  destruct r as [[res|]|e]; simpl; auto.
  rewrite IH. destruct report; auto.
Qed.

Local Transparent get.

Lemma multigpu_run_chunks data gpu_count pbar step_size verbose orc :
  submitted (fst (multigpu_run exec_function exec_params data gpu_count
                               pbar step_size verbose orc))
  = map (gpu_chunk data (fst (gpu_steps (Py.len (fst data)) gpu_count)))
        (Py.range (snd (gpu_steps (Py.len (fst data)) gpu_count))).
Proof.
  unfold multigpu_run.
  destruct (gpu_steps (Py.len (fst data)) gpu_count) as [ss step]; simpl.
  match goal with
  | |- context [gpu_aggregate _ _ _ _ _ _ ?rep ?hs ?db ?w] =>
      pose proof (gpu_aggregate_args rep hs db w) as Ha;
      destruct (gpu_aggregate _ _ _ _ exec_function exec_params rep hs db w)
        as [w' r]
  end.
  simpl in Ha. rewrite gpu_submit_loop_args in Ha.
  assert (Hw' : submitted w' = map (gpu_chunk data ss) (Py.range step))
    by (rewrite Ha; destruct pbar; reflexivity).
  destruct r as [db|e]; simpl; auto.
Qed.

End MultigpuFacts.

(* ================================================================== *)
(** * Further properties *)

(** ** [multiprocess_run]: what the result depends on *)

(** X1. With a pool of at least one worker, the chunks submitted and the
    value returned or the exception raised by [multiprocess_run] depend
    on the workload, the chunk size, [output_dim] and the callback only:
    not on the moments and the order in which the workers finish the
    tasks, nor on the number of workers [cpu_count >= 1], on [pbar] or on
    [verbose]. *)
Theorem result_independent_of_schedule {A B P : Type}
        (exec_function : list A -> P -> outcome (list (pyseq B)))
        (exec_params : P) (data : nat) (step_size output_dim : Z)
        (hp : heap A)
        (cpu_count cpu_count' : Z) (pbar pbar' : bool) (verbose verbose' : Z)
        (orc orc' : list (list nat)) :
  (data < length hp)%nat ->
  1 <= cpu_count ->
  1 <= cpu_count' ->
  let r := multiprocess_run exec_function exec_params data cpu_count pbar
                            step_size output_dim verbose hp orc in
  let r' := multiprocess_run exec_function exec_params data cpu_count' pbar'
                             step_size output_dim verbose' hp orc' in
  submitted (r_world r) = submitted (r_world r') /\
  r_result r = r_result r'.
Proof.
  intros Hd _ _ r r'.
  destruct (Z.eq_dec step_size 0) as [-> | Hs]; [split; reflexivity|].
  destruct (multiprocess_run_spec exec_function exec_params data cpu_count
              pbar step_size output_dim verbose hp orc Hs) as (R1 & _ & R3 & _).
  destruct (multiprocess_run_spec exec_function exec_params data cpu_count'
              pbar' step_size output_dim verbose' hp orc' Hs)
    as (R1' & _ & R3' & _).
  fold r in R1, R3. fold r' in R1', R3'.
  rewrite R1, R1', R3, R3'.
  rewrite !(submission_chunks exec_function exec_params) by exact Hd.
  split; reflexivity.
Qed.

(** X1 at the end-to-end workload: four workers finishing out of order
    without progress bar against one slow worker with progress bar. *)
Lemma result_independent_of_schedule_witness :
  (0 < length [PyList workload_100])%nat /\
  1 <= 4 /\
  1 <= 1 /\
  let r := multiprocess_run double tt 0%nat 4 false 10 1 0
                            [PyList workload_100] out_of_order in
  let r' := multiprocess_run double tt 0%nat 1 true 10 1 1
                             [PyList workload_100] slow_worker in
  submitted (r_world r) = submitted (r_world r') /\
  r_result r = r_result r'.
Proof.
  split; [simpl; lia|]. split; [lia|]. split; [lia|].
  apply (result_independent_of_schedule double tt 0%nat 10 1
           [PyList workload_100] 4 1 false true 0 1 out_of_order slow_worker);
    [simpl; lia | lia | lia].
Defined.

(** ** [multiprocess_run]: merging the result tuples *)

Section MergeFacts.

Context {B : Type}.

Lemma merge_app (ks1 ks2 : list Z) (res : list (pyseq B)) : forall db,
  merge B (ks1 ++ ks2) res db
  = match merge B ks1 res db with
    | Ok db1 => merge B ks2 res db1
    | Raise e => Raise e
    end.
Proof.
  induction ks1 as [|k ks1 IH]; intros db; simpl; auto.
  destruct (extend B db (Z.to_nat k) (nth_error res (Z.to_nat k))); auto.
Qed.

(** Merging a tuple that has sequences at the positions [ks] appends
    them to the buckets at these positions and leaves the others. *)
Lemma merge_pointwise (res : list (pyseq B)) (ks : list nat) :
  forall db : list (pyseq B),
    NoDup ks ->
    (forall k, In k ks ->
       exists l r, nth_error db k = Some (Some l) /\
                   nth_error res k = Some (Some r)) ->
    exists db',
      merge B (map Z.of_nat ks) res db = Ok db' /\
      length db' = length db /\
      (forall k, ~ In k ks -> nth_error db' k = nth_error db k) /\
      (forall k l r, In k ks -> nth_error db k = Some (Some l) ->
                     nth_error res k = Some (Some r) ->
                     nth_error db' k = Some (Some (l ++ r))).
Proof.
  induction ks as [|k ks IH]; intros db Hnd Hks; simpl.
  - exists db. repeat split; auto. intros k l r [].
  - apply NoDup_cons_iff in Hnd as (Hk & Hnd).
    destruct (Hks k (or_introl eq_refl)) as (l & r & Hl & Hr).
    rewrite Nat2Z.id. unfold extend, pyseq in *. rewrite Hl, Hr.
    assert (Hlen : (k < length db)%nat)
      by (apply nth_error_Some; congruence).
    set (db1 := set_nth k (Some (l ++ r)) db).
    assert (Hother : forall k', k' <> k -> nth_error db1 k' = nth_error db k')
      by (intros k' Hk'; apply nth_error_set_nth_other; congruence).
    destruct (IH db1 Hnd) as (db' & Hm & Hl' & Hout & Hin).
    { intros k' Hk'. destruct (Hks k' (or_intror Hk')) as (l' & r' & E1 & E2).
      exists l', r'. rewrite Hother by (intros ->; contradiction). auto. }
    exists db'. split; [exact Hm|]. split.
    { rewrite Hl'. apply set_nth_length. }
    split.
    + intros k' Hk'. rewrite Hout by (intros H; apply Hk'; now right).
      apply Hother. intros ->. apply Hk'. now left.
    + intros k' l' r' [<- | Hk'] E1 E2.
      * rewrite Hout by exact Hk. unfold db1.
        rewrite nth_error_set_nth by exact Hlen. congruence.
      * apply Hin; auto. rewrite Hother by (intros ->; contradiction). auto.
Qed.

Lemma nth_error_tabulate {T} (h : nat -> T) (d k : nat) :
  nth_error (map h (seq 0 d)) k = if (k <? d)%nat then Some (h k) else None.
Proof.
  rewrite nth_error_map, nth_error_seq. now destruct (k <? d)%nat.
Qed.

(** One tuple of at least [d] sequences merged into [d] buckets. *)
Lemma merge_columns (d : nat) (g : nat -> list B) (parts : list (list B)) :
  (d <= length parts)%nat ->
  merge B (Py.range (Z.of_nat d)) (map Some parts)
        (map (fun k => Some (g k)) (seq 0 d))
  = Ok (map (fun k => Some (g k ++ nth k parts [])) (seq 0 d)).
Proof.
  intros Hd. unfold Py.range. rewrite Nat2Z.id.
  assert (Hres : forall k, (k < d)%nat ->
            nth_error (map Some parts) k = Some (Some (nth k parts []))).
  { intros k Hk. rewrite nth_error_map.
    now rewrite (nth_error_nth' parts [] (n := k)) by lia. }
  assert (Hdb : forall k, (k < d)%nat ->
            nth_error (map (fun k => Some (g k)) (seq 0 d)) k
            = Some (Some (g k))).
  { intros k Hk. rewrite nth_error_tabulate.
    now replace (k <? d)%nat with true by (symmetry; apply Nat.ltb_lt; lia). }
  destruct (merge_pointwise (map Some parts) (seq 0 d)
              (map (fun k => Some (g k)) (seq 0 d)) (seq_NoDup d 0))
    as (db' & Hm & _ & Hout & Hin).
  { intros k Hk. apply in_seq in Hk. exists (g k), (nth k parts []).
    split; [apply Hdb | apply Hres]; lia. }
  rewrite Hm. f_equal. apply nth_error_ext. intros k.
  rewrite nth_error_tabulate.
  destruct (k <? d)%nat eqn:E.
  - apply Nat.ltb_lt in E.
    apply Hin; auto. apply in_seq; lia.
  - apply Nat.ltb_ge in E.
    rewrite Hout by (rewrite in_seq; lia).
    rewrite nth_error_tabulate.
    now replace (k <? d)%nat with false by (symmetry; apply Nat.ltb_ge; lia).
Qed.

(** A tuple of fewer than [d] sequences: [res[k]] fails at the first
    position that is missing. *)
Lemma merge_short_tuple (d : nat) (g : nat -> list B) (parts : list (list B)) :
  (length parts < d)%nat ->
  merge B (Py.range (Z.of_nat d)) (map Some parts)
        (map (fun k => Some (g k)) (seq 0 d))
  = Raise IndexError.
Proof.
  intros Hd. unfold Py.range. rewrite Nat2Z.id.
  set (m := length parts).
  replace d with (m + (d - m))%nat at 1 by lia.
  rewrite seq_app, map_app, merge_app. simpl.
  destruct (merge_pointwise (map Some parts) (seq 0 m)
              (map (fun k => Some (g k)) (seq 0 d)) (seq_NoDup m 0))
    as (db' & Hm & _ & Hout & _).
  { intros k Hk. apply in_seq in Hk. exists (g k), (nth k parts []). split.
    - rewrite nth_error_tabulate.
      now replace (k <? d)%nat with true by (symmetry; apply Nat.ltb_lt; lia).
    - rewrite nth_error_map.
      now rewrite (nth_error_nth' parts [] (n := k)) by (fold m; lia). }
  rewrite Hm.
  destruct (d - m)%nat as [|n] eqn:E; [lia|]. simpl.
  rewrite Nat2Z.id. unfold extend.
  rewrite Hout by (rewrite in_seq; lia).
  rewrite nth_error_tabulate.
  replace (m <? d)%nat with true by (symmetry; apply Nat.ltb_lt; lia).
  assert (Hnone : nth_error (map Some parts) m = None)
    by (apply nth_error_None; rewrite length_map; fold m; lia).
  unfold pyseq in *. now rewrite Hnone.
Qed.

End MergeFacts.

Section ColumnFacts.

Context {A B P : Type}.
Variable exec_function : list A -> P -> outcome (list (pyseq B)).
Variable exec_params : P.
Variable f : list A -> list (list B).

Hypothesis exec_tuple :
  forall chunk, exec_function chunk exec_params = Ok (map Some (f chunk)).

Lemma range_to_nat (n : Z) : Py.range n = Py.range (Z.of_nat (Z.to_nat n)).
Proof. unfold Py.range. now rewrite Nat2Z.id. Qed.

Lemma empty_buckets_tabulate (output_dim : Z) :
  empty_buckets (B := B) output_dim
  = map (fun _ => Some []) (seq 0 (Z.to_nat output_dim)).
Proof. unfold empty_buckets, Py.range. now rewrite map_map. Qed.

Lemma collect_columns (output_dim : Z) (cs : list (list A)) :
  (forall c, (Z.to_nat output_dim <= length (f c))%nat) ->
  forall g : nat -> list B,
    collect output_dim
            (map (cpu_task A B P exec_function exec_params) cs)
            (map (fun k => Some (g k)) (seq 0 (Z.to_nat output_dim)))
    = Ok (map (fun k => Some (g k ++ concat (map (fun c => nth k (f c) []) cs)))
              (seq 0 (Z.to_nat output_dim))).
Proof.
  intros Hlen. induction cs as [|c cs IH]; intros g; simpl.
  - f_equal. apply map_ext. intros k. now rewrite app_nil_r.
  - unfold cpu_task at 1. rewrite exec_tuple.
    rewrite range_to_nat, merge_columns by apply Hlen.
    rewrite IH. f_equal. apply map_ext. intros k. now rewrite app_assoc.
Qed.

End ColumnFacts.

(** X2. When the callback returns, for every chunk, a tuple of at least
    [output_dim] sequences, the run returns [output_dim] buckets, and
    bucket [k] is the concatenation, in submission order, of the [k]-th
    sequences returned for the chunks; sequences at positions from
    [output_dim] on are ignored. *)
Theorem buckets_are_columns {A B P : Type}
        (exec_function : list A -> P -> outcome (list (pyseq B)))
        (exec_params : P) (f : list A -> list (list B))
        (data : nat) (cpu_count : Z) (pbar : bool)
        (step_size output_dim verbose : Z)
        (hp : heap A) (orc : list (list nat)) :
  step_size <> 0 ->
  (forall chunk, exec_function chunk exec_params = Ok (map Some (f chunk))) ->
  (forall chunk, (Z.to_nat output_dim <= length (f chunk))%nat) ->
  let r := multiprocess_run exec_function exec_params data cpu_count pbar
                            step_size output_dim verbose hp orc in
  r_result r
  = Ok (map (fun k => Some (concat (map (fun c => nth k (f c) [])
                                        (submitted (r_world r)))))
            (seq 0 (Z.to_nat output_dim))).
Proof.
  intros Hs Hf Hlen r.
  destruct (multiprocess_run_spec exec_function exec_params data cpu_count
              pbar step_size output_dim verbose hp orc Hs) as (R1 & _ & R3 & _).
  fold r in R1, R3. rewrite R1, R3, empty_buckets_tabulate.
  rewrite (collect_columns exec_function exec_params f Hf output_dim _ Hlen
                           (fun _ => [])).
  simpl. rewrite filter_not_None; auto.
  apply Forall_forall. intros b Hb.
  apply in_map_iff in Hb as (k & <- & _). discriminate.
Qed.

(** X2 at a callback that returns the chunk and an empty sequence. *)
Lemma buckets_are_columns_witness :
  4 <> 0 /\
  (forall chunk, seq_and_empty chunk tt = Ok (map Some [chunk; []])) /\
  (forall chunk : list Z, (Z.to_nat 2 <= length [chunk; []])%nat) /\
  let r := multiprocess_run seq_and_empty tt 0%nat 2 false 4 2 0
                            [PyList workload_10] [] in
  r_result r
  = Ok (map (fun k => Some (concat (map (fun c => nth k [c; []] [])
                                        (submitted (r_world r)))))
            (seq 0 (Z.to_nat 2))).
Proof.
  split; [lia|]. split; [reflexivity|]. split; [intros; simpl; lia|].
  apply (buckets_are_columns seq_and_empty tt (fun c => [c; []]) 0%nat 2 false
                             4 2 0 [PyList workload_10] []);
    [lia | reflexivity | intros; simpl; lia].
Defined.

(** X3. When the tuple returned for the first chunk has fewer than
    [output_dim] entries (all of them sequences), resolving the first
    handle raises [IndexError] and no bucket is returned. *)
Theorem short_tuple_raises_IndexError {A B P : Type}
        (exec_function : list A -> P -> outcome (list (pyseq B)))
        (exec_params : P)
        (data : nat) (cpu_count : Z) (pbar : bool)
        (step_size output_dim verbose : Z)
        (hp : heap A) (orc : list (list nat))
        (c : list A) (rest : list (list A)) (parts : list (list B)) :
  submitted (r_world (multiprocess_run exec_function exec_params data
                        cpu_count pbar step_size output_dim verbose hp orc))
  = c :: rest ->
  exec_function c exec_params = Ok (map Some parts) ->
  (length parts < Z.to_nat output_dim)%nat ->
  let r := multiprocess_run exec_function exec_params data cpu_count pbar
                            step_size output_dim verbose hp orc in
  r_result r = Raise IndexError /\
  filter is_get (trace (r_world r)) = [EvGet 0].
Proof.
  intros Hsub Hc Hlen r. fold r in Hsub.
  destruct (Z.eq_dec step_size 0) as [Hs | Hs].
  { subst step_size. discriminate Hsub. }
  destruct (multiprocess_run_spec exec_function exec_params data cpu_count
              pbar step_size output_dim verbose hp orc Hs)
    as (R1 & _ & R3 & R4 & _).
  fold r in R1, R3, R4. rewrite <- R3, Hsub in R1, R4.
  rewrite empty_buckets_tabulate in R1, R4. simpl in R1, R4.
  unfold cpu_task in R1 at 1. unfold cpu_task in R4 at 1.
  rewrite Hc, range_to_nat, merge_short_tuple in R1, R4 by exact Hlen.
  auto.
Qed.

(** X3 at a callback that returns one sequence where two are expected. *)
Lemma short_tuple_raises_IndexError_witness :
  submitted (r_world (multiprocess_run seq_only tt 0%nat 2 false 4 2 0
                        [PyList workload_10] []))
  = [0; 1; 2; 3] :: [[4; 5; 6; 7]; [8; 9]] /\
  seq_only [0; 1; 2; 3] tt = Ok (map Some [[0; 1; 2; 3]]) /\
  (length [[0; 1; 2; 3]] < Z.to_nat 2)%nat /\
  let r := multiprocess_run seq_only tt 0%nat 2 false 4 2 0
                            [PyList workload_10] [] in
  r_result r = Raise IndexError /\
  filter is_get (trace (r_world r)) = [EvGet 0].
Proof.
  split; [reflexivity|]. split; [reflexivity|]. split; [simpl; lia|].
  apply (short_tuple_raises_IndexError seq_only tt 0%nat 2 false 4 2 0
           [PyList workload_10] [] [0; 1; 2; 3] [[4; 5; 6; 7]; [8; 9]]
           [[0; 1; 2; 3]]);
    [reflexivity | reflexivity | simpl; lia].
Defined.

(** ** [multiprocess_run]: resources and edge cases *)

(** X4. Unless the chunk size is 0, a run creates the pool exactly once;
    the pool is closed and joined, once each, exactly when the run
    returns a value: whenever the run raises, whatever the exception
    and wherever it comes from, neither [pool.close()] nor [pool.join()]
    is executed. *)
Theorem pool_shutdown_iff_return {A B P : Type}
        (exec_function : list A -> P -> outcome (list (pyseq B)))
        (exec_params : P)
        (data : nat) (cpu_count : Z) (pbar : bool)
        (step_size output_dim verbose : Z)
        (hp : heap A) (orc : list (list nat)) :
  let r := multiprocess_run exec_function exec_params data cpu_count pbar
                            step_size output_dim verbose hp orc in
  count is_create (trace (r_world r))
  = (if step_size =? 0 then 0%nat else 1%nat) /\
  count is_close (trace (r_world r))
  = match r_result r with Ok _ => 1%nat | Raise _ => 0%nat end /\
  count is_join (trace (r_world r))
  = match r_result r with Ok _ => 1%nat | Raise _ => 0%nat end.
Proof.
  intros r.
  destruct (step_size =? 0) eqn:E.
  { apply Z.eqb_eq in E. subst step_size. repeat split. }
  apply Z.eqb_neq in E.
  destruct (multiprocess_run_spec exec_function exec_params data cpu_count
              pbar step_size output_dim verbose hp orc E)
    as (R1 & _ & _ & _ & R5 & _).
  fold r in R1, R5. unfold count.
  destruct is_close_quiet as (C1 & C2 & C3 & C4).
  destruct is_join_quiet as (J1 & J2 & J3 & J4).
  destruct is_create_quiet as (K1 & K2 & K3 & K4).
  rewrite (R5 is_create), (R5 is_close), (R5 is_join), R1 by auto.
  destruct (collect output_dim _ _); repeat split.
Qed.

(** X5. Over an empty workload, for any chunk size other than 0, nothing
    is submitted, the callback is never invoked, no handle is resolved,
    and the run returns [output_dim] empty buckets. *)
Theorem empty_workload_returns_empty_buckets {A B P : Type}
        (exec_function : list A -> P -> outcome (list (pyseq B)))
        (exec_params : P)
        (data : nat) (cpu_count : Z) (pbar : bool)
        (step_size output_dim verbose : Z)
        (hp : heap A) (orc : list (list nat)) :
  fetch hp data = [] ->
  step_size <> 0 ->
  let r := multiprocess_run exec_function exec_params data cpu_count pbar
                            step_size output_dim verbose hp orc in
  r_result r = Ok (empty_buckets output_dim) /\
  submitted (r_world r) = [] /\
  count is_run (trace (r_world r)) = 0%nat /\
  count is_get (trace (r_world r)) = 0%nat.
Proof.
  intros Hd Hs r. unfold r, multiprocess_run.
  destruct (step_size =? 0) eqn:E; [apply Z.eqb_eq in E; contradiction|].
  unfold submission, submit_all. rewrite Hd.
  assert (H0 : cpu_step (Py.len (@nil A)) step_size = 0).
  { unfold cpu_step, Py.int_div, Py.of_bool, Py.len.
    change (Z.of_nat (length (@nil A))) with 0.
    now rewrite Z.quot_0_l, Z.mod_0_l by exact Hs. }
  rewrite H0. change (Py.range 0) with (@nil Z).
  destruct (np_asarray A hp data) as [hp1 d0].
  destruct (empty_buckets_shape (B := B) output_dim) as (_ & E2).
  fold (@empty_buckets B output_dim).
  destruct pbar; simpl; rewrite (filter_not_None _ E2); auto.
Qed.

(** X5 at an empty Python list. *)
Lemma empty_workload_witness :
  fetch [@PyList Z []] 0 = [] /\
  3 <> 0 /\
  let r := multiprocess_run double tt 0%nat 2 true 3 2 0 [PyList []] [] in
  r_result r = Ok (empty_buckets 2) /\
  submitted (r_world r) = [] /\
  count is_run (trace (r_world r)) = 0%nat /\
  count is_get (trace (r_world r)) = 0%nat.
Proof.
  split; [reflexivity|]. split; [lia|].
  apply (empty_workload_returns_empty_buckets double tt 0%nat 2 true 3 2 0
                                              [PyList []] []);
    [reflexivity | lia].
Defined.

(** X6. Whatever the callback returns, a run that returns a value returns
    exactly [output_dim] buckets and each of them is a sequence: no
    bucket is ever [None], so none is removed from the returned tuple. *)
Theorem returned_tuple_has_output_dim_buckets {A B P : Type}
        (exec_function : list A -> P -> outcome (list (pyseq B)))
        (exec_params : P)
        (data : nat) (cpu_count : Z) (pbar : bool)
        (step_size output_dim verbose : Z)
        (hp : heap A) (orc : list (list nat)) (v : list (pyseq B)) :
  r_result (multiprocess_run exec_function exec_params data cpu_count pbar
                             step_size output_dim verbose hp orc) = Ok v ->
  length v = Z.to_nat output_dim /\
  Forall (fun b => exists l, b = Some l) v.
Proof.
  intros Hv.
  destruct (buckets_never_dropped exec_function exec_params data cpu_count
              pbar step_size output_dim verbose hp orc v Hv) as (H1 & H2).
  split; [exact H1|].
  apply Forall_forall. intros b Hb. rewrite Forall_forall in H2.
  specialize (H2 b Hb). destruct b as [l|]; [eauto | contradiction].
Qed.

(** X6 at a callback that returns an empty second sequence. *)
Lemma returned_tuple_has_output_dim_buckets_witness :
  r_result (multiprocess_run seq_and_empty tt 0%nat 2 false 2 2 0
                             [PyList [1; 2; 3]] [])
  = Ok [Some [1; 2; 3]; Some []] /\
  length [Some [1; 2; 3]; @Some (list Z) []] = Z.to_nat 2 /\
  Forall (fun b : pyseq Z => exists l, b = Some l) [Some [1; 2; 3]; Some []].
Proof.
  split; [reflexivity|].
  apply (returned_tuple_has_output_dim_buckets seq_and_empty tt 0%nat 2 false
           2 2 0 [PyList [1; 2; 3]] []).
  reflexivity.
Defined.

(** ** No task is run twice *)

Section RunOnceFacts.

Context {Arg Res : Type}.
Variable task : Arg -> outcome Res.

Lemma runs_of_app h (t1 t2 : list event) :
  runs_of h (t1 ++ t2) = (runs_of h t1 + runs_of h t2)%nat.
Proof. apply count_app. Qed.

Lemma sound_step_refl (w : world Arg Res) : sound_step w w.
Proof. repeat split; auto. Qed.

Lemma sound_step_trans (w1 w2 w3 : world Arg Res) :
  sound_step w1 w2 -> sound_step w2 w3 -> sound_step w1 w3.
Proof.
  intros (R1 & L1 & K1) (R2 & L2 & K2).
  split; [auto | split; [lia|]].
  intros h x Hx Hd. apply K2; auto.
Qed.

Lemma emit_sound e (w : world Arg Res) :
  is_run e = false -> sound_step w (emit e w).
Proof.
  intros He. split; [|split; simpl; auto].
  intros Hw h. unfold emit; cbn [trace semaphores].
  rewrite runs_of_app, Hw.
  replace (runs_of h [e]) with 0%nat; [lia|].
  destruct e; try discriminate; reflexivity.
Qed.

Lemma finish_sound h (w : world Arg Res) : sound_step w (finish task h w).
Proof.
  unfold finish.
  destruct (nth_error (semaphores w) h) as [[a cb [|o]]|] eqn:E;
    try apply sound_step_refl.
  assert (Hlen : (h < length (semaphores w))%nat)
    by (apply nth_error_Some; congruence).
  split; [|split]; cbn [trace semaphores].
  - intros Hw h'. cbn [trace semaphores]. rewrite runs_of_app, Hw.
    assert (Hnew : runs_of h'
                     (EvRun h :: match task a with
                                 | Ok _ => if cb then [EvUpdate] else []
                                 | Raise _ => []
                                 end)
                   = if Nat.eqb h h' then 1%nat else 0%nat).
    { unfold runs_of, count; simpl.
      destruct (Nat.eqb h h'); destruct (task a); try destruct cb; reflexivity. }
    rewrite Hnew.
    destruct (Nat.eqb_spec h h') as [Heq | Hne].
    + subst h'. rewrite E, nth_error_set_nth by exact Hlen. reflexivity.
    + rewrite nth_error_set_nth_other by exact Hne.
      destruct (nth_error (semaphores w) h') as [x|]; [destruct (is_done x)|];
        lia.
  - rewrite set_nth_length. lia.
  - intros h' x Hx Hd.
    destruct (Nat.eq_dec h h') as [Heq | Hne].
    + subst h'. rewrite E in Hx. injection Hx as <-. discriminate Hd.
    + now rewrite nth_error_set_nth_other.
Qed.

Lemma fold_finish_sound hs : forall w : world Arg Res,
  sound_step w (fold_left (fun w' h => finish task h w') hs w).
Proof.
  induction hs as [|h hs IH]; intros w; simpl.
  - apply sound_step_refl.
  - eapply sound_step_trans; [apply finish_sound | apply IH].
Qed.

Lemma background_sound (w : world Arg Res) : sound_step w (background task w).
Proof.
  unfold background. destruct (oracle w) as [|hs rest].
  - apply sound_step_refl.
  - exact (fold_finish_sound hs (mkWorld (semaphores w) rest (trace w))).
Qed.

Lemma wait_sound h (w : world Arg Res) : sound_step w (wait task h w).
Proof.
  unfold wait.
  eapply sound_step_trans; [apply (emit_sound (EvWait h)); reflexivity|].
  eapply sound_step_trans; [apply background_sound | apply finish_sound].
Qed.

Lemma get_sound h (w : world Arg Res) : sound_step w (fst (get task h w)).
Proof.
  unfold get; simpl.
  eapply sound_step_trans; [apply (emit_sound (EvGet h)); reflexivity|].
  eapply sound_step_trans; [apply background_sound | apply finish_sound].
Qed.

(** [get] leaves its handle with an outcome. *)
Lemma get_done h (w : world Arg Res) :
  (h < length (semaphores w))%nat ->
  exists x, nth_error (semaphores (fst (get task h w))) h = Some x /\
            is_done x = true.
Proof.
  intros Hh. unfold get; simpl.
  destruct (finish_done task h (background task (emit (EvGet h) w)))
    as (a & cb & o & E).
  - rewrite (evolves_length task _ _ (background_evolves task _)). exact Hh.
  - rewrite E. eauto.
Qed.

Lemma apply_async_sound a cb (w : world Arg Res) :
  sound_step w (apply_async task a cb w).
Proof.
  unfold apply_async.
  eapply sound_step_trans; [|apply background_sound].
  split; [|split]; cbn [trace semaphores].
  - intros Hw h. cbn [trace semaphores]. rewrite runs_of_app, Hw.
    replace (runs_of h [EvSubmit (length (semaphores w))]) with 0%nat
      by reflexivity.
    rewrite Nat.add_0_r.
    destruct (Nat.lt_ge_cases h (length (semaphores w))) as [Hlt | Hge].
    + now rewrite nth_error_app1.
    + rewrite nth_error_app2 by exact Hge.
      assert (E : nth_error (semaphores w) h = None)
        by (apply nth_error_None; exact Hge).
      rewrite E.
      destruct (h - length (semaphores w))%nat as [|k]; simpl; auto.
      now destruct k.
  - rewrite length_app. lia.
  - intros h x Hx _. rewrite nth_error_app1; auto.
    apply nth_error_Some. congruence.
Qed.

Lemma start_run_once orc : run_once (@start Arg Res orc).
Proof. intros h. simpl. now destruct h. Qed.

End RunOnceFacts.

Section CpuRunOnce.

Context {A B P : Type}.
Variable exec_function : list A -> P -> outcome (list (pyseq B)).
Variable exec_params : P.

Let task := cpu_task A B P exec_function exec_params.

Lemma submit_chunk_sound data cpu_count pbar step_size (s : submitter A B) :
  sound_step (s_world s)
             (s_world (submit_chunk A B P exec_function exec_params
                                    data cpu_count pbar step_size s)).
Proof.
  unfold submit_chunk, alloc; fold task; simpl.
  set (w1 := apply_async task _ pbar (s_world s)).
  assert (H1 : sound_step (s_world s) w1) by apply apply_async_sound.
  destruct pbar; [destruct (process_counter s =? cpu_count + 1)|]; simpl; auto.
  eapply sound_step_trans; [exact H1 | apply wait_sound].
Qed.

Lemma submit_loop_sound data cpu_count pbar step_size (js : list Z) :
  forall s : submitter A B,
    sound_step (s_world s)
               (s_world (fold_left
                           (fun s0 (_ : Z) =>
                              submit_chunk A B P exec_function exec_params
                                           data cpu_count pbar step_size s0)
                           js s)).
Proof.
  induction js as [|j js IH]; intros s; simpl.
  - apply sound_step_refl.
  - eapply sound_step_trans; [apply submit_chunk_sound | apply IH].
Qed.

Lemma emit_run_once e (w : world (list A) (list (pyseq B))) :
  is_run e = false -> run_once w -> run_once (emit e w).
Proof. intros He. apply (emit_sound e w He). Qed.

Lemma submission_run_once data cpu_count pbar step_size (hp : heap A) orc :
  run_once (s_world (submission exec_function exec_params
                                data cpu_count pbar step_size hp orc)).
Proof.
  unfold submission, submit_all.
  destruct (np_asarray A hp data) as [hp1 d0].
  apply (proj1 (submit_loop_sound data cpu_count pbar step_size _ _)).
  simpl.
  destruct pbar; repeat (apply emit_run_once; [reflexivity|]);
    apply start_run_once.
Qed.

Local Opaque get.

Lemma aggregate_sound output_dim report (hs : list nat) :
  forall db w,
    sound_step w (fst (aggregate A B P exec_function exec_params
                                 output_dim report hs db w)).
Proof.
  induction hs as [|i hs IH]; intros db w; simpl.
  - apply sound_step_refl.
  - fold task.
    pose proof (get_sound task i w) as Hg.
    destruct (get task i w) as [w1 r]; simpl in Hg.
    destruct r as [res|e]; simpl; auto.
    destruct (merge B (Py.range output_dim) res db) as [db1|e]; simpl; auto.
    eapply sound_step_trans; [exact Hg|].
    eapply sound_step_trans; [|apply IH].
    destruct report; [apply emit_sound; reflexivity | apply sound_step_refl].
Qed.

(** When the aggregation loop ends normally, every handle it went
    through holds an outcome. *)
Lemma aggregate_done output_dim report (hs : list nat) :
  forall db w db',
    (forall h, In h hs -> (h < length (semaphores w))%nat) ->
    snd (aggregate A B P exec_function exec_params
                   output_dim report hs db w) = Ok db' ->
    forall h, In h hs ->
      exists x,
        nth_error (semaphores (fst (aggregate A B P exec_function exec_params
                                              output_dim report hs db w))) h
        = Some x /\ is_done x = true.
Proof.
  induction hs as [|i hs IH]; intros db w db' Hhs Hok h Hin; [destruct Hin|].
  simpl in Hok |- *. fold task in Hok |- *.
  pose proof (get_sound task i w) as (_ & Hlen1 & _).
  pose proof (get_done task i w (Hhs i (or_introl eq_refl))) as (x & Hx & Hd).
  destruct (get task i w) as [w1 r]; simpl in Hlen1, Hx.
  destruct r as [res|e]; [|discriminate].
  destruct (merge B (Py.range output_dim) res db) as [db1|e]; [|discriminate].
  set (w2 := if report then emit EvPrint w1 else w1) in *.
  assert (H12 : sound_step w1 w2)
    by (unfold w2; destruct report;
        [apply emit_sound; reflexivity | apply sound_step_refl]).
  destruct H12 as (_ & Hlen2 & Hk2).
  destruct (aggregate_sound output_dim report hs db1 w2) as (_ & _ & Hk3).
  destruct (Nat.eq_dec i h) as [<- | Hne].
  - exists x. split; auto.
  - apply (IH db1 w2 db'); auto.
    + intros h' Hh'. specialize (Hhs h' (or_intror Hh')). lia.
    + destruct Hin; [contradiction | assumption].
Qed.

Local Transparent get.

Lemma multiprocess_run_run_once data cpu_count pbar step_size output_dim
      verbose (hp : heap A) orc :
  let r := multiprocess_run exec_function exec_params data cpu_count pbar
                            step_size output_dim verbose hp orc in
  run_once (r_world r) /\
  (forall v, r_result r = Ok v ->
     forall h, (h < length (semaphores (r_world r)))%nat ->
       exists x, nth_error (semaphores (r_world r)) h = Some x /\
                 is_done x = true).
Proof.
  intros r. unfold r, multiprocess_run.
  destruct (step_size =? 0).
  { simpl. split; [apply start_run_once|]. intros v Hv. discriminate. }
  pose proof (submission_run_once data cpu_count pbar step_size hp orc) as Hs.
  set (s := submission exec_function exec_params data cpu_count pbar
                       step_size hp orc) in *.
  pose proof (aggregate_sound output_dim (negb pbar && (verbose >? 0))
                (seq 0 (length (semaphores (s_world s))))
                (map (fun _ => Some []) (Py.range output_dim)) (s_world s))
    as (Hr & Hlen & _).
  pose proof (aggregate_done output_dim (negb pbar && (verbose >? 0))
                (seq 0 (length (semaphores (s_world s))))
                (map (fun _ => Some []) (Py.range output_dim)) (s_world s))
    as Hdone.
  assert (Hlen' : length
                    (semaphores
                       (fst (aggregate A B P exec_function exec_params
                               output_dim (negb pbar && (verbose >? 0))
                               (seq 0 (length (semaphores (s_world s))))
                               (map (fun _ => Some []) (Py.range output_dim))
                               (s_world s))))
                  = length (semaphores (s_world s))).
  { destruct (aggregate_spec exec_function exec_params output_dim
                (negb pbar && (verbose >? 0)) (submitted (s_world s))
                0%nat [] []
                (map (fun _ => Some []) (Py.range output_dim)) (s_world s))
      as (_ & _ & _ & R4);
      [apply (submission_frame exec_function exec_params)
      | simpl; now rewrite app_nil_r | reflexivity |].
    rewrite submitted_length in R4.
    apply (f_equal (@length _)) in R4.
    now rewrite !submitted_length in R4. }
  destruct (aggregate A B P exec_function exec_params output_dim
              (negb pbar && (verbose >? 0))
              (seq 0 (length (semaphores (s_world s))))
              (map (fun _ => Some []) (Py.range output_dim)) (s_world s))
    as [w res].
  simpl in Hr, Hlen, Hdone, Hlen'.
  destruct res as [db|e]; simpl.
  - split.
    + destruct pbar; simpl;
        repeat (apply emit_run_once; [reflexivity|]); auto.
    + intros v _ h Hh.
      assert (Hh' : (h < length (semaphores w))%nat)
        by (destruct pbar; simpl in Hh; exact Hh).
      destruct (Hdone db (fun h' Hin => proj2 (proj1 (in_seq _ _ _) Hin))
                      eq_refl h) as (x & Hx & Hd).
      { apply in_seq. lia. }
      exists x. destruct pbar; simpl; auto.
  - split; [auto|]. intros v Hv. discriminate.
Qed.

End CpuRunOnce.

(** X7. Whatever the workers do, no chunk is processed twice: the task of
    each handle is run at most once in a run.  In a run that returns,
    every submitted chunk has been processed exactly once. *)
Theorem each_chunk_processed_once {A B P : Type}
        (exec_function : list A -> P -> outcome (list (pyseq B)))
        (exec_params : P)
        (data : nat) (cpu_count : Z) (pbar : bool)
        (step_size output_dim verbose : Z)
        (hp : heap A) (orc : list (list nat)) :
  let r := multiprocess_run exec_function exec_params data cpu_count pbar
                            step_size output_dim verbose hp orc in
  (forall h, (runs_of h (trace (r_world r)) <= 1)%nat) /\
  (forall h, (length (submitted (r_world r)) <= h)%nat ->
             runs_of h (trace (r_world r)) = 0%nat) /\
  match r_result r with
  | Ok _ => forall h, (h < length (submitted (r_world r)))%nat ->
                      runs_of h (trace (r_world r)) = 1%nat
  | Raise _ => True
  end.
Proof.
  intros r.
  destruct (multiprocess_run_run_once exec_function exec_params data cpu_count
              pbar step_size output_dim verbose hp orc) as (Hr & Hd).
  fold r in Hr, Hd. rewrite submitted_length. split; [|split].
  - intros h. rewrite Hr.
    destruct (nth_error (semaphores (r_world r)) h) as [x|];
      [destruct (is_done x)|]; lia.
  - intros h Hh. rewrite Hr.
    now rewrite (proj2 (nth_error_None _ _) Hh).
  - destruct (r_result r) as [v|e]; [|exact I].
    intros h Hh. destruct (Hd v eq_refl h Hh) as (x & Hx & Hdone).
    now rewrite Hr, Hx, Hdone.
Qed.

(** ** [multigpu_run]: results, rows and resources *)

Section MultigpuResult.

Context {TX TY B P : Type}.
Variable exec_function : list TX * list TY -> P -> outcome (option (list B)).
Variable exec_params : P.

Let task := gpu_task TX TY B P exec_function exec_params.

Lemma gpu_submit_loop_consistent data gpu_count pbar step_size (js : list Z) :
  forall s,
    consistent task (snd s) ->
    consistent task
      (snd (fold_left
              (gpu_submit_chunk TX TY B P exec_function exec_params
                                data gpu_count pbar step_size)
              js s)).
Proof.
  induction js as [|j js IH]; intros [pc w] Hc; simpl; auto.
  apply IH. unfold gpu_submit_chunk, gpu_range. fold task.
  set (w1 := apply_async task _ pbar w).
  assert (H1 : consistent task w1) by (apply apply_async_consistent; exact Hc).
  destruct pbar; [destruct (pc =? gpu_count)|]; simpl; auto.
  apply (ad_consistent _ _ _ _ (wait_advances task _ w1)); exact H1.
Qed.

Local Opaque get.

Lemma gpu_aggregate_result report (cs : list (list TX * list TY)) :
  forall (k : nat) (pre post : list (list TX * list TY)) db w,
    consistent task w ->
    submitted w = pre ++ cs ++ post ->
    length pre = k ->
    snd (gpu_aggregate TX TY B P exec_function exec_params
                       report (seq k (length cs)) db w)
    = gpu_collect (map task cs) db.
Proof.
  induction cs as [|c cs IH]; intros k pre post db w Hc Hs Hk; simpl; auto.
  fold task.
  pose proof (get_advances task k w) as [Ha Hcons _].
  assert (Hr : snd (get task k w) = task c).
  { apply get_result; auto. rewrite Hs, nth_error_app2 by lia.
    now replace (k - length pre)%nat with 0%nat by lia. }
  destruct (get task k w) as [w1 r1]; simpl in *. subst r1.
  destruct (task c) as [[res|]|e]; simpl; auto.
  apply (IH (S k) (pre ++ [c]) post).
  - destruct report; auto.
  - transitivity (submitted w); [destruct report; exact Ha|].
    now rewrite Hs, <- app_assoc.
  - rewrite length_app; simpl; lia.
Qed.

Local Transparent get.

(** The outcome of a run is that of the aggregation loop over the
    outcomes of the tasks of the chunks, in submission order. *)
Lemma multigpu_run_result data gpu_count pbar step_size verbose orc :
  snd (multigpu_run exec_function exec_params data gpu_count pbar step_size
                    verbose orc)
  = gpu_collect
      (map task
           (map (gpu_chunk data (fst (gpu_steps (Py.len (fst data)) gpu_count)))
                (Py.range (snd (gpu_steps (Py.len (fst data)) gpu_count)))))
      [].
Proof.
  unfold multigpu_run.
  destruct (gpu_steps (Py.len (fst data)) gpu_count) as [ss step]; simpl.
  set (w0 := if pbar then _ else _).
  set (s := fold_left (gpu_submit_chunk TX TY B P exec_function exec_params
                                        data gpu_count pbar ss)
                      (Py.range step) (1, w0)).
  assert (Hc : consistent task (snd s)).
  { apply gpu_submit_loop_consistent. unfold w0. simpl.
    destruct pbar;
      repeat (apply (ad_consistent _ _ _ _ (emit_advances task _ _)));
      apply start_consistent. }
  assert (Hs : submitted (snd s) = map (gpu_chunk data ss) (Py.range step)).
  { unfold s. rewrite gpu_submit_loop_args. unfold w0.
    destruct pbar; reflexivity. }
  pose proof (gpu_aggregate_result (negb pbar && (verbose >? 0))
                (submitted (snd s)) 0%nat [] [] [] (snd s) Hc) as Hr.
  rewrite submitted_length, Hs in Hr.
  specialize (Hr ltac:(simpl; now rewrite app_nil_r) eq_refl).
  destruct (gpu_aggregate _ _ _ _ exec_function exec_params _ _ _ (snd s))
    as [w r].
  simpl in Hr. subst r.
  now destruct (gpu_collect _ _).
Qed.

Lemma gpu_collect_map (f : list TX * list TY -> list B)
      (cs : list (list TX * list TY)) :
  (forall chunk, exec_function chunk exec_params = Ok (Some (f chunk))) ->
  forall db, gpu_collect (map task cs) db = Ok (db ++ concat (map f cs)).
Proof.
  intros Hf. induction cs as [|c cs IH]; intros db; simpl.
  - now rewrite app_nil_r.
  - unfold task at 1, gpu_task. rewrite Hf. rewrite IH.
    now rewrite app_assoc.
Qed.

End MultigpuResult.

(** The rows of the chunks of the first [k] steps are the first
    [min(k * step_size, N)] rows. *)
Lemma gpu_rows_prefix {TX TY} (data : list TX * list TY) (step_size : Z) :
  0 <= step_size ->
  forall k : nat,
    concat (map (fun i => fst (gpu_chunk data step_size i))
                (Py.range (Z.of_nat k)))
    = firstn (Z.to_nat (Z.min (Z.of_nat k * step_size) (Py.len (fst data))))
             (fst data).
Proof.
  intros Hq. unfold Py.range.
  induction k as [|k IH].
  - simpl. rewrite Z.min_l by (unfold Py.len; lia). reflexivity.
  - rewrite Nat2Z.id in *. rewrite seq_S, !map_app, concat_app, IH.
    cbn [map concat Nat.add]. rewrite app_nil_r.
    unfold gpu_chunk, gpu_range, Py.slice. cbn [fst snd].
    set (N := Py.len (fst data)).
    assert (HN : 0 <= N) by (unfold N, Py.len; lia).
    set (a := Z.min (Z.of_nat k * step_size) N).
    set (b := Z.min (Z.of_nat (S k) * step_size) N).
    assert (Ea : Py.bound N (Z.of_nat k * step_size) = a).
    { unfold Py.bound, a.
      destruct (Z.of_nat k * step_size <? 0) eqn:E;
        [apply Z.ltb_lt in E; nia | reflexivity]. }
    assert (Eb : Py.bound N (if (Z.of_nat k + 1) * step_size >? N then N
                             else (Z.of_nat k + 1) * step_size) = b).
    { unfold b. replace (Z.of_nat (S k)) with (Z.of_nat k + 1) by lia.
      destruct ((Z.of_nat k + 1) * step_size >? N) eqn:E.
      - apply Z.gtb_lt in E. unfold Py.bound.
        destruct (N <? 0) eqn:E1; [apply Z.ltb_lt in E1; lia | lia].
      - rewrite Z.gtb_ltb in E. apply Z.ltb_ge in E. unfold Py.bound.
        destruct ((Z.of_nat k + 1) * step_size <? 0) eqn:E1;
          [apply Z.ltb_lt in E1; nia | lia]. }
    rewrite Ea, Eb.
    assert (Hab : a <= b) by (unfold a, b; nia).
    replace (Z.to_nat b) with (Z.to_nat a + Z.to_nat (b - a))%nat by lia.
    now rewrite firstn_add.
Qed.

(** X8. When the callback returns a sequence for every chunk,
    [multigpu_run] returns the concatenation of these sequences in the
    order in which the chunks were submitted, whatever the order in
    which the workers finish. *)
Theorem multigpu_results_in_submission_order {TX TY B P : Type}
        (exec_function : list TX * list TY -> P -> outcome (option (list B)))
        (exec_params : P) (f : list TX * list TY -> list B)
        (data : list TX * list TY) (gpu_count : Z) (pbar : bool)
        (step_size : option Z) (verbose : Z) (orc : list (list nat)) :
  (forall chunk, exec_function chunk exec_params = Ok (Some (f chunk))) ->
  let run := multigpu_run exec_function exec_params data gpu_count pbar
                          step_size verbose orc in
  snd run = Ok (concat (map f (submitted (fst run)))).
Proof.
  intros Hf run. unfold run.
  rewrite multigpu_run_result, multigpu_run_chunks.
  now rewrite (gpu_collect_map exec_function exec_params f _ Hf).
Qed.

(** X8 at four rows on two devices, the second task finishing first. *)
Lemma multigpu_results_in_submission_order_witness :
  (forall chunk, features chunk tt = Ok (Some (fst chunk))) /\
  snd gpu_run_4_2 = Ok (concat (map fst (submitted (fst gpu_run_4_2)))).
Proof.
  split; [reflexivity|].
  apply (multigpu_results_in_submission_order features tt fst
           ([0; 1; 2; 3], [10; 11; 12; 13]) 2 true None 0 [[1; 0]]%nat).
  reflexivity.
Defined.

(** X9. The feature rows [multigpu_run] submits are the first
    [min(step * step_size, N)] rows of the workload, in order.  With at
    most one device these are all rows; with several devices they are
    all rows exactly when [N % D <= N // D]. *)
Theorem multigpu_rows_submitted {TX TY B P : Type}
        (exec_function : list TX * list TY -> P -> outcome (option (list B)))
        (exec_params : P)
        (data : list TX * list TY) (gpu_count : Z) (pbar : bool)
        (step_size : option Z) (verbose : Z) (orc : list (list nat)) :
  let N := Py.len (fst data) in
  let rows :=
    concat (map fst (submitted (fst (multigpu_run exec_function exec_params
                                       data gpu_count pbar step_size
                                       verbose orc)))) in
  rows = firstn (Z.to_nat (Z.min (snd (gpu_steps N gpu_count)
                                  * fst (gpu_steps N gpu_count)) N))
                (fst data) /\
  if gpu_count >? 1
  then rows = fst data <-> N mod gpu_count <= N / gpu_count
  else rows = fst data.
Proof.
  intros N rows.
  assert (HN : 0 <= N) by (unfold N, Py.len; lia).
  assert (Hsteps : 0 <= fst (gpu_steps N gpu_count)
                   /\ 0 <= snd (gpu_steps N gpu_count)).
  { unfold gpu_steps, Py.int_div, Py.of_bool.
    destruct (gpu_count >? 1) eqn:E; simpl; [|lia].
    apply Z.gtb_lt in E. rewrite Z.quot_div_nonneg by lia.
    pose proof (Z.div_pos N gpu_count HN ltac:(lia)).
    destruct (N mod gpu_count >? 0); lia. }
  destruct Hsteps as (Hss & Hstep).
  assert (Hrows : rows
                  = firstn (Z.to_nat (Z.min (snd (gpu_steps N gpu_count)
                                             * fst (gpu_steps N gpu_count)) N))
                           (fst data)).
  { unfold rows. rewrite multigpu_run_chunks, map_map. fold N.
    rewrite <- (Z2Nat.id (snd (gpu_steps N gpu_count))) by exact Hstep.
    rewrite (gpu_rows_prefix data _ Hss). fold N.
    now rewrite Z2Nat.id by exact Hstep. }
  split; [exact Hrows|].
  assert (Hall : forall m, rows = firstn (Z.to_nat m) (fst data) ->
                           (rows = fst data <-> N <= Z.max m 0)).
  { intros m ->. unfold N, Py.len. split.
    - intros E. apply (f_equal (@length _)) in E.
      rewrite length_firstn in E. lia.
    - intros E. apply firstn_all2. lia. }
  destruct (gpu_count >? 1) eqn:E.
  - apply Z.gtb_lt in E.
    rewrite (Hall _ Hrows). rewrite gpu_steps_many by lia. cbn [fst snd].
    pose proof (Z.div_mod N gpu_count ltac:(lia)) as Hdm.
    pose proof (Z.mod_pos_bound N gpu_count ltac:(lia)) as Hm.
    pose proof (Z.div_pos N gpu_count HN ltac:(lia)) as Hq.
    set (q := N / gpu_count) in *. set (m := N mod gpu_count) in *.
    destruct (m =? 0) eqn:E0;
      [apply Z.eqb_eq in E0 | apply Z.eqb_neq in E0].
    + replace ((gpu_count + 0) * q) with N by lia. lia.
    + replace ((gpu_count + 1) * q) with (N - m + q) by lia. lia.
  - rewrite Z.gtb_ltb in E. apply Z.ltb_ge in E.
    apply (Hall _ Hrows).
    destruct (gpu_steps_single N gpu_count HN E) as (-> & _).
    cbn [fst snd]. lia.
Qed.

(** X10. A run of [multigpu_run] creates its pool once and never joins
    it; it terminates and then closes the pool, once each, exactly when
    it returns; when it raises, the pool is neither terminated nor
    closed. *)
Theorem multigpu_pool_released_iff_return {TX TY B P : Type}
        (exec_function : list TX * list TY -> P -> outcome (option (list B)))
        (exec_params : P)
        (data : list TX * list TY) (gpu_count : Z) (pbar : bool)
        (step_size : option Z) (verbose : Z) (orc : list (list nat)) :
  let run := multigpu_run exec_function exec_params data gpu_count pbar
                          step_size verbose orc in
  count is_create (trace (fst run)) = 1%nat /\
  count is_join (trace (fst run)) = 0%nat /\
  count is_terminate (trace (fst run))
  = match snd run with Ok _ => 1%nat | Raise _ => 0%nat end /\
  count is_close (trace (fst run))
  = match snd run with Ok _ => 1%nat | Raise _ => 0%nat end.
Proof.
  intros run.
  split; [unfold count, run; now rewrite multigpu_run_pool|].
  unfold run, multigpu_run.
  destruct (gpu_steps (Py.len (fst data)) gpu_count) as [ss step]; simpl.
  assert (Q : forall p, p = is_join \/ p = is_terminate \/ p = is_close ->
                        after_submission p /\ after_aggregation p /\
                        (forall n i, p (EvPoolCreate n i) = false) /\
                        (forall t, p (EvPbarOpen t) = false)).
  { intros p [-> | [-> | ->]]; repeat split; now intros [ ]. }
  match goal with
  | |- context [gpu_aggregate _ _ _ _ _ _ ?rep ?hs ?db ?w] =>
      assert (Ha : forall p, p = is_join \/ p = is_terminate \/ p = is_close ->
                             filter p
                               (trace (fst (gpu_aggregate TX TY B P
                                              exec_function exec_params
                                              rep hs db w))) = []);
      [| destruct (gpu_aggregate TX TY B P exec_function exec_params
                                 rep hs db w) as [w' r] ]
  end.
  { intros p Hp. destruct (Q p Hp) as (Q1 & Q2 & Q3 & Q4).
    rewrite gpu_aggregate_filter by exact Q2.
    rewrite gpu_submit_loop_filter by exact Q1.
    destruct pbar; simpl; now rewrite ?Q3, ?Q4. }
  simpl in Ha. unfold count.
  destruct r as [db|e]; simpl; rewrite ?filter_app, !Ha by auto;
    repeat split.
Qed.

(** ** Devices and throttling *)

Lemma start_workers_prefix (processes : Z) (q : list Z) : forall k : nat,
  (k <= length q)%nat ->
  start_workers k (Some q) processes = map Some (firstn k q).
Proof.
  induction q as [|d q IH]; intros [|k] Hk; simpl in *; auto; try lia.
  now rewrite IH by lia.
Qed.




(** X12. The throttle of [multiprocess_run] does not bound the handles
    in flight: when the workers finish on their own none but the first
    [cpu_count + 2] tasks, then at the end of the submission loop over a
    workload of length [N] with chunk size [S > 0] at least
    [ceil(N / S) - (cpu_count + 2)] handles are unresolved. *)
Theorem unresolved_grows_with_workload {A B P : Type}
        (exec_function : list A -> P -> outcome (list (pyseq B)))
        (exec_params : P)
        (data : nat) (cpu_count : Z) (pbar : bool) (step_size : Z)
        (hp : heap A) (orc : list (list nat)) :
  (data < length hp)%nat ->
  0 < step_size ->
  0 <= cpu_count ->
  Forall (Forall (fun h => (h <= Z.to_nat (cpu_count + 1))%nat)) orc ->
  let s := submission exec_function exec_params
                      data cpu_count pbar step_size hp orc in
  (Py.len (fetch hp data) + step_size - 1) / step_size - (cpu_count + 2)
  <= Z.of_nat (unresolved (s_world s)).
Proof.
  intros Hd Hs Hc Ho s.
  pose proof (throttle_leaves_tail_unresolved exec_function exec_params
                data cpu_count pbar step_size hp orc Ho) as H.
  fold s in H. simpl in H.
  pose proof (submission_chunks exec_function exec_params data cpu_count
                                pbar step_size hp orc Hd) as Hcs.
  simpl in Hcs. fold s in Hcs.
  destruct (chunks_partition (fetch hp data) step_size Hs) as (Hlen & _).
  rewrite <- Hcs in Hlen. unfold Py.len at 1 in Hlen.
  lia.
Qed.

(** X12 at one slow worker and twelve chunks of one item. *)
Lemma unresolved_grows_with_workload_witness :
  (0 < length [PyList (map Z.of_nat (seq 0 12))])%nat /\
  0 < 1 /\
  0 <= 1 /\
  Forall (Forall (fun h => (h <= Z.to_nat (1 + 1))%nat)) slow_worker /\
  (Py.len (fetch [PyList (map Z.of_nat (seq 0 12))] 0) + 1 - 1) / 1 - (1 + 2)
  <= Z.of_nat (unresolved (s_world throttled_submission)).
Proof.
  assert (Ho : Forall (Forall (fun h => (h <= Z.to_nat (1 + 1))%nat))
                      slow_worker).
  { change (Z.to_nat (1 + 1)) with 2%nat. unfold slow_worker.
    repeat constructor. }
  split; [simpl; lia|]. split; [lia|]. split; [lia|]. split; [exact Ho|].
  apply (unresolved_grows_with_workload double tt 0%nat 1 true 1
           [PyList (map Z.of_nat (seq 0 12))] slow_worker);
    [simpl; lia | lia | lia | exact Ho].
Defined.

Section MultigpuFailure.

Context {TX TY B P : Type}.
Variable exec_function : list TX * list TY -> P -> outcome (option (list B)).
Variable exec_params : P.

Lemma gpu_collect_first_failure (pre : list (list TX * list TY)) c post :
  Forall (fun c' => exists res, exec_function c' exec_params = Ok (Some res))
         pre ->
  (forall res, exec_function c exec_params <> Ok (Some res)) ->
  forall db,
    gpu_collect (map (gpu_task TX TY B P exec_function exec_params)
                     (pre ++ c :: post)) db
    = match exec_function c exec_params with
      | Raise e => Raise e
      | Ok _ => Raise TypeError
      end.
Proof.
  intros Hpre Hc. induction Hpre as [|c' pre (res & Hres) _ IH]; intros db;
    simpl; unfold gpu_task at 1.
  - destruct (exec_function c exec_params) as [[res|]|e]; auto.
    now destruct (Hc res).
  - rewrite Hres. apply IH.
Qed.

End MultigpuFailure.

(** X13. [multigpu_run] fails at the first chunk, in submission order,
    whose task does not return a sequence: it raises the exception the
    task raised, or [TypeError] when the task returned [None], and
    returns nothing of what the earlier tasks returned. *)
Theorem multigpu_first_failure {TX TY B P : Type}
        (exec_function : list TX * list TY -> P -> outcome (option (list B)))
        (exec_params : P)
        (data : list TX * list TY) (gpu_count : Z) (pbar : bool)
        (step_size : option Z) (verbose : Z) (orc : list (list nat))
        (pre : list (list TX * list TY)) (c : list TX * list TY)
        (post : list (list TX * list TY)) :
  submitted (fst (multigpu_run exec_function exec_params data gpu_count pbar
                               step_size verbose orc))
  = pre ++ c :: post ->
  Forall (fun c' => exists res, exec_function c' exec_params = Ok (Some res))
         pre ->
  (forall res, exec_function c exec_params <> Ok (Some res)) ->
  snd (multigpu_run exec_function exec_params data gpu_count pbar
                    step_size verbose orc)
  = match exec_function c exec_params with
    | Raise e => Raise e
    | Ok _ => Raise TypeError
    end.
Proof.
  intros Hsub Hpre Hc.
  rewrite multigpu_run_result. rewrite multigpu_run_chunks in Hsub.
  rewrite Hsub.
  now apply gpu_collect_first_failure.
Qed.

(** X13 at a run whose second task returns [None]. *)
Lemma multigpu_first_failure_witness :
  submitted (fst gpu_run_none)
  = [([0; 1], [10; 11])] ++ ([2; 3], [12; 13]) :: [] /\
  Forall (fun c' => exists res, none_on_two c' tt = Ok (Some res))
         [([0; 1], [10; 11])] /\
  (forall res, none_on_two ([2; 3], [12; 13]) tt <> Ok (Some res)) /\
  snd gpu_run_none
  = match none_on_two ([2; 3], [12; 13]) tt with
    | Raise e => Raise e
    | Ok _ => Raise TypeError
    end.
Proof.
  assert (H1 : Forall (fun c' => exists res, none_on_two c' tt = Ok (Some res))
                      [([0; 1], [10; 11])])
    by (repeat constructor; exists [0; 1]; reflexivity).
  assert (H2 : forall res, none_on_two ([2; 3], [12; 13]) tt <> Ok (Some res))
    by (intros res; discriminate).
  split; [reflexivity|]. split; [exact H1|]. split; [exact H2|].
  apply (multigpu_first_failure none_on_two tt
           ([0; 1; 2; 3], [10; 11; 12; 13]) 2 false None 0 []
           [([0; 1], [10; 11])] ([2; 3], [12; 13]) []);
    [reflexivity | exact H1 | exact H2].
Defined.

(** X14. [multigpu_run] submits one chunk per step: a single chunk with
    at most one device, and [gpu_count] chunks, or one more when the
    division leaves a remainder, with several devices.  Chunk [i] pairs
    the feature rows and the labels of one and the same index range,
    [[i * step_size : min((i + 1) * step_size, N)]]. *)
Theorem multigpu_chunks {TX TY B P : Type}
        (exec_function : list TX * list TY -> P -> outcome (option (list B)))
        (exec_params : P)
        (data : list TX * list TY) (gpu_count : Z) (pbar : bool)
        (step_size : option Z) (verbose : Z) (orc : list (list nat)) :
  let N := Py.len (fst data) in
  let ss := if gpu_count >? 1 then N / gpu_count else N in
  let cs := submitted (fst (multigpu_run exec_function exec_params data
                              gpu_count pbar step_size verbose orc)) in
  Py.len cs
  = (if gpu_count >? 1
     then gpu_count + (if N mod gpu_count =? 0 then 0 else 1)
     else 1) /\
  forall i, 0 <= i < Py.len cs ->
    nth_error cs (Z.to_nat i)
    = Some (Py.slice (fst data) (i * ss) (Z.min ((i + 1) * ss) N),
            Py.slice (snd data) (i * ss) (Z.min ((i + 1) * ss) N)).
Proof.
  intros N ss cs.
  assert (HN : 0 <= N) by (unfold N, Py.len; lia).
  assert (Hsteps : gpu_steps N gpu_count
                   = (ss, if gpu_count >? 1
                          then gpu_count + (if N mod gpu_count =? 0 then 0 else 1)
                          else 1)).
  { unfold ss. destruct (gpu_count >? 1) eqn:E.
    - apply Z.gtb_lt in E. now apply gpu_steps_many.
    - rewrite Z.gtb_ltb in E. apply Z.ltb_ge in E.
      now destruct (gpu_steps_single N gpu_count HN E). }
  assert (Hcs : cs = map (gpu_chunk data ss)
                         (Py.range (snd (gpu_steps N gpu_count))))
    by (unfold cs; rewrite multigpu_run_chunks; fold N; now rewrite Hsteps).
  assert (Hstep : 0 <= snd (gpu_steps N gpu_count)).
  { rewrite Hsteps; simpl.
    destruct (gpu_count >? 1) eqn:E; [apply Z.gtb_lt in E|]; try lia.
    destruct (N mod gpu_count =? 0); lia. }
  assert (Hlen : Py.len cs = snd (gpu_steps N gpu_count)).
  { rewrite Hcs. unfold Py.len, Py.range.
    rewrite !length_map, length_seq. lia. }
  split; [now rewrite Hlen, Hsteps|].
  intros i Hi. rewrite Hlen in Hi. rewrite Hcs. unfold Py.range.
  rewrite !nth_error_map, nth_error_seq.
  replace (Z.to_nat i <? Z.to_nat (snd (gpu_steps N gpu_count)))%nat
    with true by (symmetry; apply Nat.ltb_lt; lia).
  simpl. rewrite Z2Nat.id by lia.
  unfold gpu_chunk, gpu_range. fold N.
  replace (if (i + 1) * ss >? N then N else (i + 1) * ss)
    with (Z.min ((i + 1) * ss) N); [reflexivity|].
  destruct ((i + 1) * ss >? N) eqn:E;
    [apply Z.gtb_lt in E | rewrite Z.gtb_ltb in E; apply Z.ltb_ge in E]; lia.
Qed.

(** ** The progress bar *)

Lemma filter_set_nth_length {T} (p : T -> bool) (y : T) :
  forall (l : list T) (h : nat) (x : T),
    nth_error l h = Some x -> p x = false ->
    length (filter p (set_nth h y l))
    = (length (filter p l) + if p y then 1 else 0)%nat.
Proof.
  induction l as [|z l IH]; intros [|h] x Hx Hp; simpl in *;
    try discriminate.
  - injection Hx as ->. rewrite Hp. destruct (p y); simpl; lia.
  - destruct (p z); simpl; rewrite (IH h x Hx Hp); lia.
Qed.

Lemma filter_none {T} (f : T -> bool) (l : list T) :
  (forall x, In x l -> f x = false) -> filter f l = [].
Proof.
  induction l as [|x l IH]; intros H; simpl; auto.
  rewrite (H x) by (now left). apply IH. intros; apply H; now right.
Qed.

Section ProgressFacts.

Context {Arg Res : Type}.
Variable task : Arg -> outcome Res.
Variable pbar : bool.

Lemma progress_step_refl (w : world Arg Res) : progress_step pbar w w.
Proof. split; auto. exists []. now rewrite app_nil_r. Qed.

Lemma progress_step_trans (w1 w2 w3 : world Arg Res) :
  progress_step pbar w1 w2 -> progress_step pbar w2 w3 ->
  progress_step pbar w1 w3.
Proof.
  intros (I1 & e1 & T1 & F1) (I2 & e2 & T2 & F2). split; auto.
  exists (e1 ++ e2). rewrite T2, T1, app_assoc. split; auto.
  now rewrite forallb_app, F1, F2.
Qed.

Lemma emit_progress e (w : world Arg Res) :
  is_update e = false -> is_pbar e = false ->
  progress_step pbar w (emit e w).
Proof.
  intros Hu Hp. split.
  - intros (Hc & Hf). split; auto. unfold emit; cbn [trace semaphores].
    rewrite count_app, Hc. unfold count; simpl. rewrite Hu. simpl. lia.
  - exists [e]. split; auto. simpl. now rewrite Hp.
Qed.

Lemma finish_progress h (w : world Arg Res) :
  progress_step pbar w (finish task h w).
Proof.
  unfold finish.
  destruct (nth_error (semaphores w) h) as [[a cb [|o]]|] eqn:E;
    try apply progress_step_refl.
  split; cbn [trace semaphores].
  - intros (Hc & Hf). split; cbn [trace semaphores].
    + rewrite count_app, Hc.
      rewrite (filter_set_nth_length ticked _ _ _ _ E) by (now destruct cb).
      f_equal. unfold ticked, count; simpl.
      destruct (task a), cb; reflexivity.
    + apply Forall_set_nth; auto.
      rewrite Forall_forall in Hf. apply (Hf _ (nth_error_In _ _ E)).
  - eexists; split; [reflexivity|]. simpl.
    destruct (task a), cb; reflexivity.
Qed.

Lemma fold_finish_progress hs : forall w : world Arg Res,
  progress_step pbar w (fold_left (fun w' h => finish task h w') hs w).
Proof.
  induction hs as [|h hs IH]; intros w; simpl.
  - apply progress_step_refl.
  - eapply progress_step_trans; [apply finish_progress | apply IH].
Qed.

Lemma background_progress (w : world Arg Res) :
  progress_step pbar w (background task w).
Proof.
  unfold background. destruct (oracle w) as [|hs rest].
  - apply progress_step_refl.
  - exact (fold_finish_progress hs (mkWorld (semaphores w) rest (trace w))).
Qed.

Lemma wait_progress h (w : world Arg Res) :
  progress_step pbar w (wait task h w).
Proof.
  unfold wait.
  eapply progress_step_trans;
    [apply (emit_progress (EvWait h)); reflexivity|].
  eapply progress_step_trans;
    [apply background_progress | apply finish_progress].
Qed.

Lemma get_progress h (w : world Arg Res) :
  progress_step pbar w (fst (get task h w)).
Proof.
  unfold get; simpl.
  eapply progress_step_trans;
    [apply (emit_progress (EvGet h)); reflexivity|].
  eapply progress_step_trans;
    [apply background_progress | apply finish_progress].
Qed.

(** A result that [get] returns is the one stored in its handle. *)
Lemma get_ok h (w : world Arg Res) res :
  snd (get task h w) = Ok res ->
  exists x, nth_error (semaphores (fst (get task h w))) h = Some x /\
            h_state x = Done (Ok res).
Proof.
  unfold get; simpl.
  destruct (nth_error _ h) as [[a cb [|o]]|]; try discriminate.
  intros ->. eauto.
Qed.

Lemma apply_async_progress a (w : world Arg Res) :
  progress_step pbar w (apply_async task a pbar w).
Proof.
  unfold apply_async.
  eapply progress_step_trans; [|apply background_progress].
  split; cbn [trace semaphores].
  - intros (Hc & Hf). split; cbn [trace semaphores].
    + rewrite count_app, Hc, filter_app, length_app.
      unfold ticked at 3, count; simpl. now rewrite andb_false_r.
    + apply Forall_app. split; auto.
  - eexists; split; reflexivity.
Qed.

Lemma start_progress orc : progress_inv pbar (@start Arg Res orc).
Proof. split; [reflexivity | constructor]. Qed.

End ProgressFacts.


Section CpuProgress.

Context {A B P : Type}.
Variable exec_function : list A -> P -> outcome (list (pyseq B)).
Variable exec_params : P.

Let task := cpu_task A B P exec_function exec_params.

Lemma submit_chunk_progress data cpu_count pbar step_size
      (s : submitter A B) :
  progress_step pbar (s_world s)
                (s_world (submit_chunk A B P exec_function exec_params
                                       data cpu_count pbar step_size s)).
Proof.
  unfold submit_chunk, alloc; fold task; simpl.
  set (w1 := apply_async task _ pbar (s_world s)).
  assert (H1 : progress_step pbar (s_world s) w1)
    by apply apply_async_progress.
  destruct pbar; [destruct (process_counter s =? cpu_count + 1)|];
    simpl; auto.
  eapply progress_step_trans; [exact H1 | apply wait_progress].
Qed.

Lemma submit_loop_progress data cpu_count pbar step_size (js : list Z) :
  forall s : submitter A B,
    progress_step pbar (s_world s)
                  (s_world (fold_left
                              (fun s0 (_ : Z) =>
                                 submit_chunk A B P exec_function exec_params
                                              data cpu_count pbar step_size s0)
                              js s)).
Proof.
  induction js as [|j js IH]; intros s; simpl.
  - apply progress_step_refl.
  - eapply progress_step_trans; [apply submit_chunk_progress | apply IH].
Qed.

(** The submission phase opens the progress bar, if there is one, with
    the number of chunks as its total, and submits that many chunks. *)
Lemma submission_progress data cpu_count pbar step_size (hp : heap A) orc :
  let s := submission exec_function exec_params
                      data cpu_count pbar step_size hp orc in
  let step := cpu_step (Py.len (fetch hp data)) step_size in
  progress_inv pbar (s_world s) /\
  length (semaphores (s_world s)) = Z.to_nat step /\
  exists ext,
    trace (s_world s)
    = (EvPoolCreate cpu_count InitSetLock
         :: if pbar then [EvPbarOpen step] else []) ++ ext /\
    forallb (fun e => negb (is_pbar e)) ext = true.
Proof.
  unfold submission, submit_all.
  destruct (np_asarray A hp data) as [hp1 d0].
  match goal with
  | |- context [fold_left ?f ?js ?s0] =>
      destruct (submit_loop_progress data cpu_count pbar step_size js s0)
        as (I & ext & T & F);
      destruct (submit_loop_submits exec_function exec_params
                  data cpu_count pbar step_size js s0) as (_ & L)
  end.
  simpl in *. split; [|split].
  - apply I. destruct pbar; split; simpl; constructor.
  - rewrite L, range_length. destruct pbar; simpl; lia.
  - exists ext. rewrite T. split; [|exact F].
    destruct pbar; reflexivity.
Qed.

Local Opaque get.

Lemma aggregate_progress pbar output_dim report (hs : list nat) :
  forall db w,
    progress_step pbar w
                  (fst (aggregate A B P exec_function exec_params
                                  output_dim report hs db w)).
Proof.
  induction hs as [|i hs IH]; intros db w; simpl.
  - apply progress_step_refl.
  - fold task.
    pose proof (get_progress task pbar i w) as Hg.
    destruct (get task i w) as [w1 r]; simpl in Hg.
    destruct r as [res|e]; simpl; auto.
    destruct (merge B (Py.range output_dim) res db) as [db1|e]; simpl; auto.
    eapply progress_step_trans; [exact Hg|].
    eapply progress_step_trans; [|apply IH].
    destruct report;
      [apply emit_progress; reflexivity | apply progress_step_refl].
Qed.

(** When the aggregation loop ends normally, the task of every handle
    it went through has returned. *)
Lemma aggregate_ok output_dim report (hs : list nat) :
  forall db w db',
    snd (aggregate A B P exec_function exec_params
                   output_dim report hs db w) = Ok db' ->
    forall h, In h hs ->
      exists x v,
        nth_error (semaphores (fst (aggregate A B P exec_function exec_params
                                              output_dim report hs db w))) h
        = Some x /\ h_state x = Done (Ok v).
Proof.
  induction hs as [|i hs IH]; intros db w db' Hok h Hin; [destruct Hin|].
  simpl in Hok |- *. fold task in Hok |- *.
  pose proof (get_ok task i w) as Hg.
  destruct (get task i w) as [w1 r]; simpl in Hg.
  destruct r as [res|e]; [|discriminate].
  destruct (Hg res eq_refl) as (x & Hx & Hst).
  destruct (merge B (Py.range output_dim) res db) as [db1|e]; [|discriminate].
  set (w2 := if report then emit EvPrint w1 else w1) in *.
  assert (H12 : sound_step w1 w2)
    by (unfold w2; destruct report;
        [apply emit_sound; reflexivity | apply sound_step_refl]).
  destruct H12 as (_ & _ & Hk2).
  destruct (aggregate_sound exec_function exec_params
                            output_dim report hs db1 w2) as (_ & _ & Hk3).
  destruct (Nat.eq_dec i h) as [<- | Hne].
  - exists x, res. split; auto.
    apply Hk3; [apply Hk2|]; auto; unfold is_done; now rewrite Hst.
  - apply (IH db1 w2 db'); auto.
    destruct Hin; [contradiction | assumption].
Qed.

Local Transparent get.

Lemma multiprocess_run_progress data cpu_count pbar step_size output_dim
      verbose (hp : heap A) orc :
  step_size <> 0 ->
  let r := multiprocess_run exec_function exec_params data cpu_count pbar
                            step_size output_dim verbose hp orc in
  let step := cpu_step (Py.len (fetch hp data)) step_size in
  exists ext,
    trace (r_world r)
    = (EvPoolCreate cpu_count InitSetLock
         :: if pbar then [EvPbarOpen step] else [])
      ++ ext
      ++ match r_result r with
         | Ok _ => (if pbar then [EvPbarClose; EvPrint] else [])
                   ++ [EvClose; EvJoin]
         | Raise _ => []
         end /\
    forallb (fun e => negb (is_pbar e)) ext = true /\
    (count is_update ext <= Z.to_nat step)%nat /\
    (pbar = false -> count is_update ext = 0%nat) /\
    (pbar = true -> forall v, r_result r = Ok v ->
                    count is_update ext = Z.to_nat step).
Proof.
  intros Hs r step. unfold r, multiprocess_run.
  rewrite (proj2 (Z.eqb_neq _ _) Hs).
  destruct (submission_progress data cpu_count pbar step_size hp orc)
    as (Hinv & Hlen & e1 & T1 & F1).
  fold step in Hlen, T1.
  set (s := submission exec_function exec_params data cpu_count pbar
                       step_size hp orc) in *.
  set (db0 := map (fun _ => Some []) (Py.range output_dim)).
  set (report := negb pbar && (verbose >? 0)).
  destruct (aggregate_progress pbar output_dim report
              (seq 0 (length (semaphores (s_world s)))) db0 (s_world s))
    as (I2 & e2 & T2 & F2).
  pose proof (aggregate_ok output_dim report
                (seq 0 (length (semaphores (s_world s)))) db0 (s_world s))
    as Hok.
  assert (Hlen' : length
                    (semaphores
                       (fst (aggregate A B P exec_function exec_params
                               output_dim report
                               (seq 0 (length (semaphores (s_world s))))
                               db0 (s_world s))))
                  = length (semaphores (s_world s))).
  { destruct (aggregate_spec exec_function exec_params output_dim
                report (submitted (s_world s)) 0%nat [] [] db0 (s_world s))
      as (_ & _ & _ & R4);
      [apply (submission_frame exec_function exec_params)
      | simpl; now rewrite app_nil_r | reflexivity |].
    rewrite submitted_length in R4.
    apply (f_equal (@length _)) in R4.
    now rewrite !submitted_length in R4. }
  destruct (aggregate A B P exec_function exec_params output_dim report
              (seq 0 (length (semaphores (s_world s)))) db0 (s_world s))
    as [w res].
  simpl in I2, T2, Hok, Hlen'.
  destruct (I2 Hinv) as (Hc & Hcb).
  assert (Hupd : count is_update (e1 ++ e2)
                 = length (filter ticked (semaphores w))).
  { rewrite <- Hc, T2, T1, !count_app.
    destruct pbar; reflexivity. }
  assert (Hfree : forallb (fun e => negb (is_pbar e)) (e1 ++ e2) = true)
    by (now rewrite forallb_app, F1, F2).
  assert (Hle : (count is_update (e1 ++ e2) <= Z.to_nat step)%nat).
  { rewrite Hupd, <- Hlen, <- Hlen'. apply filter_length_le. }
  assert (Hoff : pbar = false -> count is_update (e1 ++ e2) = 0%nat).
  { intros ->. rewrite Hupd.
    rewrite filter_none; [reflexivity|]. intros x Hx.
    rewrite Forall_forall in Hcb. unfold ticked. now rewrite (Hcb x Hx). }
  exists (e1 ++ e2).
  destruct res as [db|e]; simpl.
  - split; [|split; [exact Hfree | split; [exact Hle | split; [exact Hoff|]]]].
    + destruct pbar; simpl; rewrite T2, T1; simpl;
        now rewrite <- !app_assoc.
    + intros Hp v _. rewrite Hupd, <- Hlen, <- Hlen'. f_equal.
      apply filter_all. intros x Hx.
      apply In_nth_error in Hx as (h & Hh).
      assert (Hlt : (h < length (semaphores w))%nat)
        by (apply nth_error_Some; congruence).
      destruct (Hok db eq_refl h) as (x' & v' & Hx' & Hst).
      { apply in_seq. lia. }
      rewrite Hh in Hx'. injection Hx' as <-.
      rewrite Forall_forall in Hcb.
      unfold ticked. rewrite Hst, (Hcb x (nth_error_In _ _ Hh)), Hp.
      reflexivity.
  - split; [|split; [exact Hfree | split; [exact Hle | split; [exact Hoff|]]]].
    + rewrite T2, T1, app_nil_r. now rewrite <- !app_assoc.
    + intros _ v Hv. discriminate.
Qed.

End CpuProgress.

(** X15. With a progress bar, [multiprocess_run] opens it with the number
    of chunks as its total, right after the pool is created, and the
    workers' callbacks are its only updates.  In a run that returns, the
    bar has been updated exactly once per chunk when it is closed, and
    the pool is closed after it; in a run that raises, the bar has been
    updated at most once per chunk and is never closed.  Without a
    progress bar, or with a chunk size of 0, no bar is opened, updated
    or closed. *)
Theorem progress_bar_complete {A B P : Type}
        (exec_function : list A -> P -> outcome (list (pyseq B)))
        (exec_params : P)
        (data : nat) (cpu_count : Z) (pbar : bool)
        (step_size output_dim verbose : Z)
        (hp : heap A) (orc : list (list nat)) :
  let r := multiprocess_run exec_function exec_params data cpu_count pbar
                            step_size output_dim verbose hp orc in
  let step := cpu_step (Py.len (fetch hp data)) step_size in
  if pbar && negb (step_size =? 0) then
    exists ext,
      forallb (fun e => negb (is_pbar e)) ext = true /\
      match r_result r with
      | Ok _ =>
          trace (r_world r)
          = [EvPoolCreate cpu_count InitSetLock; EvPbarOpen step] ++ ext
            ++ [EvPbarClose; EvPrint; EvClose; EvJoin] /\
          count is_update ext = Z.to_nat step
      | Raise _ =>
          trace (r_world r)
          = [EvPoolCreate cpu_count InitSetLock; EvPbarOpen step] ++ ext /\
          (count is_update ext <= Z.to_nat step)%nat
      end
  else
    count is_pbar (trace (r_world r)) = 0%nat /\
    count is_update (trace (r_world r)) = 0%nat.
Proof.
  intros r step.
  destruct (step_size =? 0) eqn:E.
  { rewrite andb_false_r. unfold r, multiprocess_run. rewrite E.
    split; reflexivity. }
  apply Z.eqb_neq in E.
  destruct (multiprocess_run_progress exec_function exec_params data
              cpu_count pbar step_size output_dim verbose hp orc E)
    as (ext & T & F & Hle & Hoff & Hon).
  fold r step in T, Hon.
  destruct pbar; simpl.
  - exists ext. split; [exact F|].
    destruct (r_result r) as [v|e].
    + split; [exact T | exact (Hon eq_refl v eq_refl)].
    + split; [now rewrite T, app_nil_r | exact Hle].
  - rewrite T, !count_app, (Hoff eq_refl).
    assert (Hext : count is_pbar ext = 0%nat).
    { unfold count. rewrite filter_none; [reflexivity|]. intros e He.
      rewrite forallb_forall in F. apply negb_true_iff. now apply F. }
    rewrite Hext. destruct (r_result r); split; reflexivity.
Qed.


(** ** How often the submission loops block *)

Section CpuThrottle.

Context {A B P : Type}.
Variable exec_function : list A -> P -> outcome (list (pyseq B)).
Variable exec_params : P.

Let task := cpu_task A B P exec_function exec_params.

Lemma submit_chunk_waits data cpu_count pbar step_size (s : submitter A B) :
  let s' := submit_chunk A B P exec_function exec_params
                         data cpu_count pbar step_size s in
  let blocks := pbar && (process_counter s =? cpu_count + 1) in
  filter is_wait (trace (s_world s'))
  = filter is_wait (trace (s_world s))
    ++ (if blocks then [EvWait (Z.to_nat (cpu_count + 1))] else []) /\
  process_counter s'
  = if pbar then (if blocks then 0 else process_counter s + 1)
    else process_counter s.
Proof.
  unfold submit_chunk, alloc; fold task; simpl.
  set (w1 := apply_async task _ pbar (s_world s)).
  assert (H1 : filter is_wait (trace w1)
               = filter is_wait (trace (s_world s))).
  { unfold w1. rewrite apply_async_filter by (now intros [ ]).
    simpl. apply app_nil_r. }
  destruct pbar; simpl.
  - destruct (process_counter s =? cpu_count + 1) eqn:E; simpl.
    + apply Z.eqb_eq in E. rewrite E. split; [|reflexivity].
      rewrite (ad_filter _ _ _ _ (wait_advances task _ w1) is_wait)
        by (now intros [ ]).
      now rewrite H1.
    + now rewrite H1, app_nil_r.
  - now rewrite H1, app_nil_r.
Qed.

(** With a progress bar the loop blocks at every [cpu_count + 2]-th
    submission, always on the handle at index [cpu_count + 1]. *)
Lemma submit_loop_waits data cpu_count step_size (js : list Z) :
  forall s : submitter A B,
    0 <= process_counter s <= cpu_count + 1 ->
    let s' := fold_left
                (fun s0 (_ : Z) =>
                   submit_chunk A B P exec_function exec_params
                                data cpu_count true step_size s0) js s in
    filter is_wait (trace (s_world s'))
    = filter is_wait (trace (s_world s))
      ++ repeat (EvWait (Z.to_nat (cpu_count + 1)))
                (Z.to_nat ((process_counter s + Z.of_nat (length js))
                           / (cpu_count + 2))).
Proof.
  induction js as [|j js IH]; intros s Hc.
  - simpl. rewrite Z.add_0_r, Z.div_small by lia. simpl.
    now rewrite app_nil_r.
  - cbn [fold_left].
    destruct (submit_chunk_waits data cpu_count true step_size s)
      as (Hw & Hp).
    cbv zeta in Hw, Hp. rewrite andb_true_l in Hw, Hp.
    set (s1 := submit_chunk A B P exec_function exec_params
                            data cpu_count true step_size s) in *.
    assert (Hlen : Z.of_nat (length (j :: js))
                   = 1 + Z.of_nat (length js))
      by (cbn [length]; lia).
    rewrite Hlen.
    destruct (process_counter s =? cpu_count + 1) eqn:E.
    + apply Z.eqb_eq in E.
      rewrite (IH s1) by (rewrite Hp; lia).
      rewrite Hw, Hp, <- app_assoc. f_equal.
      replace (process_counter s + (1 + Z.of_nat (length js)))
        with (1 * (cpu_count + 2) + Z.of_nat (length js)) by lia.
      rewrite Z.div_add_l by lia.
      rewrite Z.add_0_l.
      assert (H0 : 0 <= Z.of_nat (length js) / (cpu_count + 2))
        by (apply Z.div_pos; lia).
      rewrite (Z2Nat.inj_add 1 (Z.of_nat (length js) / (cpu_count + 2)))
        by lia.
      reflexivity.
    + apply Z.eqb_neq in E.
      rewrite (IH s1) by (rewrite Hp; lia).
      rewrite Hw, Hp, app_nil_r.
      now replace (process_counter s + 1 + Z.of_nat (length js))
        with (process_counter s + (1 + Z.of_nat (length js))) by lia.
Qed.

(** Without a progress bar it never blocks. *)
Lemma submit_loop_never_waits data cpu_count step_size (js : list Z) :
  forall s : submitter A B,
    filter is_wait
           (trace (s_world (fold_left
                              (fun s0 (_ : Z) =>
                                 submit_chunk A B P exec_function exec_params
                                              data cpu_count false step_size s0)
                              js s)))
    = filter is_wait (trace (s_world s)).
Proof.
  induction js as [|j js IH]; intros s; cbn [fold_left]; auto.
  rewrite IH.
  destruct (submit_chunk_waits data cpu_count false step_size s) as (Hw & _).
  cbv zeta in Hw. rewrite Hw. apply app_nil_r.
Qed.

Lemma multiprocess_run_waits data cpu_count pbar step_size output_dim
      verbose (hp : heap A) orc :
  -1 <= cpu_count ->
  let r := multiprocess_run exec_function exec_params data cpu_count pbar
                            step_size output_dim verbose hp orc in
  let step := cpu_step (Py.len (fetch hp data)) step_size in
  filter is_wait (trace (r_world r))
  = if pbar && negb (step_size =? 0)
    then repeat (EvWait (Z.to_nat (cpu_count + 1)))
                (Z.to_nat (Z.max 0 step / (cpu_count + 2)))
    else [].
Proof.
  intros Hc r step. unfold r, multiprocess_run.
  destruct (step_size =? 0) eqn:E.
  { now rewrite andb_false_r. }
  rewrite andb_true_r.
  assert (Hs : filter is_wait
                 (trace (s_world (submission exec_function exec_params data
                                    cpu_count pbar step_size hp orc)))
               = if pbar
                 then repeat (EvWait (Z.to_nat (cpu_count + 1)))
                             (Z.to_nat (Z.max 0 step / (cpu_count + 2)))
                 else []).
  { unfold submission, submit_all. fold step.
    destruct (np_asarray A hp data) as [hp1 d0].
    destruct pbar.
    - rewrite submit_loop_waits by (simpl; lia).
      cbn [s_world process_counter trace emit start filter is_wait app].
      rewrite range_length.
      now replace (0 + Z.of_nat (Z.to_nat step)) with (Z.max 0 step) by lia.
    - now rewrite submit_loop_never_waits. }
  set (s := submission exec_function exec_params data cpu_count pbar
                       step_size hp orc) in *.
  destruct (aggregate_spec exec_function exec_params output_dim
              (negb pbar && (verbose >? 0)) (submitted (s_world s))
              0%nat [] []
              (map (fun _ => Some []) (Py.range output_dim)) (s_world s))
    as (_ & _ & R3 & _);
    [apply (submission_frame exec_function exec_params)
    | simpl; now rewrite app_nil_r | reflexivity |].
  rewrite submitted_length in R3.
  specialize (R3 is_wait).
  destruct (aggregate A B P exec_function exec_params output_dim
              (negb pbar && (verbose >? 0))
              (seq 0 (length (semaphores (s_world s))))
              (map (fun _ => Some []) (Py.range output_dim)) (s_world s))
    as [w res].
  simpl in R3. rewrite Hs in R3.
  assert (Hw : filter is_wait (trace w)
               = if pbar
                 then repeat (EvWait (Z.to_nat (cpu_count + 1)))
                             (Z.to_nat (Z.max 0 step / (cpu_count + 2)))
                 else [])
    by (apply R3; repeat split; now intros [ ]).
  destruct res as [db|e]; simpl; [|exact Hw].
  destruct pbar; simpl; rewrite !filter_app, Hw; simpl;
    now rewrite ?app_nil_r.
Qed.

End CpuThrottle.

(** X16. With a progress bar, the submission loop of [multiprocess_run]
    blocks once every [cpu_count + 2] submissions, each time on the
    handle at the same index [cpu_count + 1], and nowhere else in the
    run: [step // (cpu_count + 2)] times in all.  Without a progress bar
    the coordinator never waits for a handle before the aggregation. *)
Theorem throttle_waits_on_one_handle {A B P : Type}
        (exec_function : list A -> P -> outcome (list (pyseq B)))
        (exec_params : P)
        (data : nat) (cpu_count : Z) (pbar : bool)
        (step_size output_dim verbose : Z)
        (hp : heap A) (orc : list (list nat)) :
  0 < cpu_count ->
  0 < step_size ->
  let r := multiprocess_run exec_function exec_params data cpu_count pbar
                            step_size output_dim verbose hp orc in
  let step := (Py.len (fetch hp data) + step_size - 1) / step_size in
  filter is_wait (trace (r_world r))
  = if pbar
    then repeat (EvWait (Z.to_nat (cpu_count + 1)))
                (Z.to_nat (step / (cpu_count + 2)))
    else [].
Proof.
  intros Hc Hs r step.
  unfold r. rewrite multiprocess_run_waits by lia.
  replace (step_size =? 0) with false by (symmetry; apply Z.eqb_neq; lia).
  rewrite andb_true_r.
  assert (Hn : 0 <= Py.len (fetch hp data)) by (unfold Py.len; lia).
  destruct (cpu_step_ceil _ _ Hn Hs) as (Hk & _). cbv zeta in Hk.
  rewrite Hk. fold step.
  assert (H0 : 0 <= step) by (apply Z.div_pos; lia).
  now rewrite Z.max_r by exact H0.
Qed.

(** X16 at twelve chunks of one item and [cpu_count = 1]. *)
Lemma throttle_waits_on_one_handle_witness :
  0 < 1 /\ 0 < 1 /\
  filter is_wait
         (trace (r_world (multiprocess_run double tt 0%nat 1 true 1 1 0
                            [PyList (map Z.of_nat (seq 0 12))] slow_worker)))
  = repeat (EvWait (Z.to_nat (1 + 1)))
           (Z.to_nat ((Py.len (fetch [PyList (map Z.of_nat (seq 0 12))] 0)
                       + 1 - 1) / 1 / (1 + 2))).
Proof.
  split; [lia|]. split; [lia|].
  apply (throttle_waits_on_one_handle double tt 0%nat 1 true 1 1 0
           [PyList (map Z.of_nat (seq 0 12))] slow_worker); lia.
Defined.


Section GpuThrottle.

Context {TX TY B P : Type}.
Variable exec_function : list TX * list TY -> P -> outcome (option (list B)).
Variable exec_params : P.

Let task := gpu_task TX TY B P exec_function exec_params.

Lemma gpu_submit_chunk_waits data gpu_count pbar step_size
      (s : Z * gpu_world TX TY B) (i : Z) :
  let s' := gpu_submit_chunk TX TY B P exec_function exec_params
                             data gpu_count pbar step_size s i in
  let blocks := pbar && (fst s =? gpu_count) in
  filter is_wait (trace (snd s'))
  = filter is_wait (trace (snd s))
    ++ (if blocks then [EvWait (Z.to_nat (gpu_count - 1))] else []) /\
  fst s' = if pbar then (if blocks then 0 else fst s + 1) else fst s.
Proof.
  destruct s as [pc w].
  unfold gpu_submit_chunk, gpu_range; fold task; cbn [fst snd].
  set (w1 := apply_async task _ pbar w).
  assert (H1 : filter is_wait (trace w1) = filter is_wait (trace w)).
  { unfold w1. rewrite apply_async_filter by (now intros [ ]).
    simpl. apply app_nil_r. }
  destruct pbar; simpl.
  - destruct (pc =? gpu_count) eqn:E; simpl.
    + apply Z.eqb_eq in E. rewrite E. split; [|reflexivity].
      rewrite (ad_filter _ _ _ _ (wait_advances task _ w1) is_wait)
        by (now intros [ ]).
      now rewrite H1.
    + now rewrite H1, app_nil_r.
  - now rewrite H1, app_nil_r.
Qed.

(** With a progress bar, and a counter that has not passed [gpu_count],
    the loop blocks at every [gpu_count + 1]-th submission. *)
Lemma gpu_submit_loop_waits data gpu_count step_size (js : list Z) :
  forall s : Z * gpu_world TX TY B,
    0 <= fst s <= gpu_count ->
    filter is_wait
           (trace (snd (fold_left
                          (gpu_submit_chunk TX TY B P exec_function
                             exec_params data gpu_count true step_size)
                          js s)))
    = filter is_wait (trace (snd s))
      ++ repeat (EvWait (Z.to_nat (gpu_count - 1)))
                (Z.to_nat ((fst s + Z.of_nat (length js)) / (gpu_count + 1))).
Proof.
  induction js as [|j js IH]; intros s Hc.
  - simpl. rewrite Z.add_0_r, Z.div_small by lia. simpl.
    now rewrite app_nil_r.
  - cbn [fold_left].
    destruct (gpu_submit_chunk_waits data gpu_count true step_size s j)
      as (Hw & Hp).
    cbv zeta in Hw, Hp. rewrite andb_true_l in Hw, Hp.
    set (s1 := gpu_submit_chunk TX TY B P exec_function exec_params
                                data gpu_count true step_size s j) in *.
    assert (Hlen : Z.of_nat (length (j :: js))
                   = 1 + Z.of_nat (length js))
      by (cbn [length]; lia).
    rewrite Hlen.
    destruct (fst s =? gpu_count) eqn:E.
    + apply Z.eqb_eq in E.
      rewrite (IH s1) by (rewrite Hp; lia).
      rewrite Hw, Hp, <- app_assoc. f_equal.
      replace (fst s + (1 + Z.of_nat (length js)))
        with (1 * (gpu_count + 1) + Z.of_nat (length js)) by lia.
      rewrite Z.div_add_l by lia.
      rewrite Z.add_0_l.
      assert (H0 : 0 <= Z.of_nat (length js) / (gpu_count + 1))
        by (apply Z.div_pos; lia).
      rewrite (Z2Nat.inj_add 1 (Z.of_nat (length js) / (gpu_count + 1)))
        by lia.
      reflexivity.
    + apply Z.eqb_neq in E.
      rewrite (IH s1) by (rewrite Hp; lia).
      rewrite Hw, Hp, app_nil_r.
      now replace (fst s + 1 + Z.of_nat (length js))
        with (fst s + (1 + Z.of_nat (length js))) by lia.
Qed.

(** Without a progress bar, or with a counter that has passed
    [gpu_count], it never blocks. *)
Lemma gpu_submit_loop_never_waits data gpu_count pbar step_size
      (js : list Z) :
  forall s : Z * gpu_world TX TY B,
    pbar = false \/ gpu_count < fst s ->
    filter is_wait
           (trace (snd (fold_left
                          (gpu_submit_chunk TX TY B P exec_function
                             exec_params data gpu_count pbar step_size)
                          js s)))
    = filter is_wait (trace (snd s)).
Proof.
  induction js as [|j js IH]; intros s Hs; cbn [fold_left]; auto.
  destruct (gpu_submit_chunk_waits data gpu_count pbar step_size s j)
    as (Hw & Hp).
  cbv zeta in Hw, Hp.
  assert (Hb : pbar && (fst s =? gpu_count) = false).
  { destruct Hs as [-> | Hs]; [reflexivity|].
    replace (fst s =? gpu_count) with false
      by (symmetry; apply Z.eqb_neq; lia).
    apply andb_false_r. }
  rewrite Hb in Hw, Hp.
  rewrite IH.
  - rewrite Hw. apply app_nil_r.
  - destruct Hs as [-> | Hs]; [now left|].
    rewrite Hp. destruct pbar; [right; lia | now left].
Qed.

End GpuThrottle.

(** X17. With a progress bar and at least one device, [multigpu_run]
    blocks exactly once before the aggregation: right after it has
    submitted the chunk of index [gpu_count - 1], on the handle of that
    chunk.  Without a progress bar, or with [gpu_count <= 0], it never
    waits for a handle before the aggregation. *)
Theorem multigpu_throttle_waits_once {TX TY B P : Type}
        (exec_function : list TX * list TY -> P -> outcome (option (list B)))
        (exec_params : P)
        (data : list TX * list TY) (gpu_count : Z) (pbar : bool)
        (step_size : option Z) (verbose : Z) (orc : list (list nat)) :
  filter is_wait
         (trace (fst (multigpu_run exec_function exec_params data gpu_count
                                   pbar step_size verbose orc)))
  = if pbar && (1 <=? gpu_count)
    then [EvWait (Z.to_nat (gpu_count - 1))]
    else [].
Proof.
  assert (HN : 0 <= Py.len (fst data)) by (unfold Py.len; lia).
  assert (Hstep : 1 <= gpu_count ->
                  (1 + Z.of_nat
                         (Z.to_nat (snd (gpu_steps (Py.len (fst data))
                                                   gpu_count))))
                  / (gpu_count + 1) = 1).
  { intros Hg. destruct (Z.eq_dec gpu_count 1) as [-> | Hne].
    - destruct (gpu_steps_single (Py.len (fst data)) 1 HN ltac:(lia))
        as (-> & _).
      reflexivity.
    - rewrite gpu_steps_many by lia. cbn [snd].
      destruct (Py.len (fst data) mod gpu_count =? 0).
      + symmetry. apply Z.div_unique with (r := 0); lia.
      + symmetry. apply Z.div_unique with (r := 1); lia. }
  unfold multigpu_run.
  destruct (gpu_steps (Py.len (fst data)) gpu_count) as [ss step].
  cbn [snd] in Hstep.
  set (w0 := if pbar then _ else _).
  assert (H0 : filter is_wait (trace w0) = [])
    by (unfold w0; destruct pbar; reflexivity).
  assert (Hloop : filter is_wait
                    (trace (snd (fold_left
                                   (gpu_submit_chunk TX TY B P exec_function
                                      exec_params data gpu_count pbar ss)
                                   (Py.range step) (1, w0))))
                  = if pbar && (1 <=? gpu_count)
                    then [EvWait (Z.to_nat (gpu_count - 1))]
                    else []).
  { destruct pbar; cbn [andb].
    - destruct (1 <=? gpu_count) eqn:E.
      + apply Z.leb_le in E.
        rewrite gpu_submit_loop_waits by (cbn [fst]; lia).
        cbn [fst snd]. rewrite H0, range_length, (Hstep E). reflexivity.
      + apply Z.leb_gt in E.
        rewrite gpu_submit_loop_never_waits by (right; cbn [fst]; lia).
        exact H0.
    - rewrite gpu_submit_loop_never_waits by now left. exact H0. }
  match goal with
  | |- context [gpu_aggregate _ _ _ _ _ _ ?rep ?hs ?db ?w] =>
      pose proof (gpu_aggregate_filter exec_function exec_params
                                       rep is_wait hs) as Ha;
      specialize (Ha ltac:(repeat split; now intros [ ]) db w);
      destruct (gpu_aggregate TX TY B P exec_function exec_params
                              rep hs db w) as [w' r]
  end.
  cbn [fst] in Ha. rewrite Hloop in Ha.
  destruct r as [db|e]; cbn [fst]; [|exact Ha].
  unfold emit; cbn [trace]. rewrite !filter_app, Ha. simpl.
  now rewrite !app_nil_r.
Qed.


(** ** [multigpu_run]: tasks and the progress bar *)

Section GpuRunOnce.

Context {TX TY B P : Type}.
Variable exec_function : list TX * list TY -> P -> outcome (option (list B)).
Variable exec_params : P.

Let task := gpu_task TX TY B P exec_function exec_params.

Lemma gpu_submit_chunk_steps data gpu_count pbar step_size
      (s : Z * gpu_world TX TY B) (i : Z) :
  let s' := gpu_submit_chunk TX TY B P exec_function exec_params
                             data gpu_count pbar step_size s i in
  sound_step (snd s) (snd s') /\ progress_step pbar (snd s) (snd s').
Proof.
  destruct s as [pc w].
  unfold gpu_submit_chunk, gpu_range; fold task; cbn [fst snd].
  set (w1 := apply_async task _ pbar w).
  assert (H1 : sound_step w w1) by apply apply_async_sound.
  assert (H2 : progress_step pbar w w1) by apply apply_async_progress.
  destruct pbar; [destruct (pc =? gpu_count)|]; cbn [snd]; auto.
  split.
  - eapply sound_step_trans; [exact H1 | apply wait_sound].
  - eapply progress_step_trans; [exact H2 | apply wait_progress].
Qed.

Lemma gpu_submit_loop_steps data gpu_count pbar step_size (js : list Z) :
  forall s : Z * gpu_world TX TY B,
    let s' := fold_left
                (gpu_submit_chunk TX TY B P exec_function exec_params
                                  data gpu_count pbar step_size) js s in
    sound_step (snd s) (snd s') /\ progress_step pbar (snd s) (snd s').
Proof.
  induction js as [|j js IH]; intros s; cbn [fold_left].
  - split; [apply sound_step_refl | apply progress_step_refl].
  - destruct (gpu_submit_chunk_steps data gpu_count pbar step_size s j)
      as (S1 & P1).
    destruct (IH (gpu_submit_chunk TX TY B P exec_function exec_params
                                   data gpu_count pbar step_size s j))
      as (S2 & P2).
    split.
    + eapply sound_step_trans; [exact S1 | exact S2].
    + eapply progress_step_trans; [exact P1 | exact P2].
Qed.

Local Opaque get.

Lemma gpu_aggregate_steps pbar report (hs : list nat) :
  forall db (w : gpu_world TX TY B),
    let w' := fst (gpu_aggregate TX TY B P exec_function exec_params
                                 report hs db w) in
    sound_step w w' /\ progress_step pbar w w'.
Proof.
  induction hs as [|i hs IH]; intros db w; simpl.
  - split; [apply sound_step_refl | apply progress_step_refl].
  - fold task.
    pose proof (get_sound task i w) as Hs.
    pose proof (get_progress task pbar i w) as Hp.
    destruct (get task i w) as [w1 r]; simpl in Hs, Hp.
    destruct r as [[res|]|e]; simpl; auto.
    set (w2 := if report then emit EvPrint w1 else w1).
    assert (H12 : sound_step w1 w2 /\ progress_step pbar w1 w2).
    { unfold w2. destruct report.
      - split; [apply emit_sound | apply emit_progress]; reflexivity.
      - split; [apply sound_step_refl | apply progress_step_refl]. }
    destruct (IH (db ++ res) w2) as (S3 & P3).
    split.
    + eapply sound_step_trans; [exact Hs|].
      eapply sound_step_trans; [apply H12 | exact S3].
    + eapply progress_step_trans; [exact Hp|].
      eapply progress_step_trans; [apply H12 | exact P3].
Qed.

(** When the aggregation loop ends normally, the task of every handle
    it went through has returned a sequence. *)
Lemma gpu_aggregate_ok report (hs : list nat) :
  forall db (w : gpu_world TX TY B) db',
    snd (gpu_aggregate TX TY B P exec_function exec_params
                       report hs db w) = Ok db' ->
    forall h, In h hs ->
      exists x v,
        nth_error (semaphores (fst (gpu_aggregate TX TY B P exec_function
                                      exec_params report hs db w))) h
        = Some x /\ h_state x = Done (Ok v).
Proof.
  induction hs as [|i hs IH]; intros db w db' Hok h Hin; [destruct Hin|].
  simpl in Hok |- *. fold task in Hok |- *.
  pose proof (get_ok task i w) as Hg.
  destruct (get task i w) as [w1 r]; simpl in Hg.
  destruct r as [[res|]|e]; try discriminate.
  destruct (Hg (Some res) eq_refl) as (x & Hx & Hst).
  set (w2 := if report then emit EvPrint w1 else w1) in *.
  assert (H12 : sound_step w1 w2)
    by (unfold w2; destruct report;
        [apply emit_sound; reflexivity | apply sound_step_refl]).
  destruct H12 as (_ & _ & Hk2).
  destruct (gpu_aggregate_steps false report hs (db ++ res) w2)
    as ((_ & _ & Hk3) & _).
  destruct (Nat.eq_dec i h) as [<- | Hne].
  - exists x, (Some res). split; auto.
    apply Hk3; [apply Hk2|]; auto; unfold is_done; now rewrite Hst.
  - apply (IH (db ++ res) w2 db'); auto.
    destruct Hin; [contradiction | assumption].
Qed.

Local Transparent get.

(** A run of [multigpu_run], event by event: the pool, the progress bar
    if there is one, the submissions with what the workers do, and on
    the normal exit the release of the pool. *)
Lemma multigpu_run_steps data gpu_count pbar step_size verbose orc :
  let run := multigpu_run exec_function exec_params data gpu_count pbar
                          step_size verbose orc in
  let step := snd (gpu_steps (Py.len (fst data)) gpu_count) in
  run_once (fst run) /\
  length (semaphores (fst run)) = Z.to_nat step /\
  Forall (fun x => h_callback x = pbar) (semaphores (fst run)) /\
  (forall v, snd run = Ok v ->
     forall h, (h < length (semaphores (fst run)))%nat ->
       exists x v', nth_error (semaphores (fst run)) h = Some x /\
                    h_state x = Done (Ok v')) /\
  exists ext,
    trace (fst run)
    = (EvPoolCreate gpu_count
         (InitDevice (device_queue gpu_count step) gpu_count)
         :: if pbar then [EvPbarOpen step] else [])
      ++ ext
      ++ match snd run with
         | Ok _ => [EvTerminate; EvClose]
         | Raise _ => []
         end /\
    forallb (fun e => negb (is_pbar e)) ext = true /\
    count is_update ext = length (filter ticked (semaphores (fst run))).
Proof.
  intros run step. unfold run, multigpu_run.
  unfold step. clear run step.
  destruct (gpu_steps (Py.len (fst data)) gpu_count) as [ss step].
  cbn [snd].
  set (w0 := if pbar then _ else _).
  assert (T0 : trace w0
               = EvPoolCreate gpu_count
                   (InitDevice (device_queue gpu_count step) gpu_count)
                   :: if pbar then [EvPbarOpen step] else [])
    by (unfold w0; destruct pbar; reflexivity).
  assert (R0 : run_once w0).
  { unfold w0. destruct pbar;
      repeat (apply (fun e w H => proj1 (emit_sound e w H));
              [reflexivity|]);
      apply start_run_once. }
  assert (I0 : progress_inv pbar w0)
    by (unfold w0; destruct pbar; split; simpl; constructor).
  assert (L0 : length (semaphores w0) = 0%nat)
    by (unfold w0; destruct pbar; reflexivity).
  assert (U0 : count is_update (trace w0) = 0%nat)
    by (rewrite T0; destruct pbar; reflexivity).
  destruct (gpu_submit_loop_steps data gpu_count pbar ss (Py.range step)
                                  (1, w0)) as (S1 & I1 & e1 & T1 & F1).
  pose proof (f_equal (@length _)
                (gpu_submit_loop_args exec_function exec_params data
                   gpu_count pbar ss (Py.range step) (1, w0))) as L1.
  rewrite length_app, !submitted_length, length_map, range_length in L1.
  cbn [snd] in S1, I1, T1, L1. rewrite L0 in L1. simpl in L1.
  set (s := fold_left
              (gpu_submit_chunk TX TY B P exec_function exec_params
                                data gpu_count pbar ss)
              (Py.range step) (1, w0)) in *.
  set (report := negb pbar && (verbose >? 0)).
  destruct (gpu_aggregate_steps pbar report
              (seq 0 (length (semaphores (snd s)))) [] (snd s))
    as (S2 & I2 & e2 & T2 & F2).
  pose proof (gpu_aggregate_ok report
                (seq 0 (length (semaphores (snd s)))) [] (snd s)) as Hok.
  pose proof (f_equal (@length _)
                (gpu_aggregate_args exec_function exec_params report
                   (seq 0 (length (semaphores (snd s)))) [] (snd s))) as L2.
  rewrite !submitted_length in L2.
  destruct (gpu_aggregate TX TY B P exec_function exec_params report
              (seq 0 (length (semaphores (snd s)))) [] (snd s))
    as [w res].
  cbn [fst snd] in S2, I2, T2, Hok, L2 |- *.
  assert (Rw : run_once w) by (apply S2, S1, R0).
  destruct (I2 (I1 I0)) as (Cw & Bw).
  assert (Hfree : forallb (fun e => negb (is_pbar e)) (e1 ++ e2) = true)
    by (now rewrite forallb_app, F1, F2).
  assert (Hupd : count is_update (e1 ++ e2)
                 = length (filter ticked (semaphores w))).
  { rewrite <- Cw, T2, T1, !count_app, U0. reflexivity. }
  split; [|split; [|split; [|split]]].
  - destruct res as [db|e]; cbn [fst]; auto.
    repeat (apply (fun e w H => proj1 (emit_sound e w H)); [reflexivity|]).
    exact Rw.
  - destruct res as [db|e]; cbn [fst semaphores emit]; lia.
  - destruct res as [db|e]; cbn [fst semaphores emit]; exact Bw.
  - intros v Hv h Hh. destruct res as [db|e]; [|discriminate].
    cbn [fst semaphores emit] in Hh |- *.
    apply (Hok db eq_refl). apply in_seq. lia.
  - exists (e1 ++ e2).
    split; [|split; [exact Hfree|]].
    + destruct res as [db|e]; cbn [fst snd trace emit];
        rewrite T2, T1, T0, <- ?app_assoc; simpl;
        rewrite ?app_nil_r; reflexivity.
    + destruct res as [db|e]; cbn [fst semaphores emit]; exact Hupd.
Qed.

End GpuRunOnce.


(** X18. Whatever the workers do, [multigpu_run] processes no chunk
    twice: the task of each handle is run at most once in a run, and in
    a run that returns every submitted chunk has been processed exactly
    once, although the pool is terminated rather than joined. *)
Theorem multigpu_no_chunk_processed_twice {TX TY B P : Type}
        (exec_function : list TX * list TY -> P -> outcome (option (list B)))
        (exec_params : P)
        (data : list TX * list TY) (gpu_count : Z) (pbar : bool)
        (step_size : option Z) (verbose : Z) (orc : list (list nat)) :
  let run := multigpu_run exec_function exec_params data gpu_count pbar
                          step_size verbose orc in
  (forall h, (runs_of h (trace (fst run)) <= 1)%nat) /\
  (forall h, (length (submitted (fst run)) <= h)%nat ->
             runs_of h (trace (fst run)) = 0%nat) /\
  match snd run with
  | Ok _ => forall h, (h < length (submitted (fst run)))%nat ->
                      runs_of h (trace (fst run)) = 1%nat
  | Raise _ => True
  end.
Proof.
  intros run.
  destruct (multigpu_run_steps exec_function exec_params data gpu_count
              pbar step_size verbose orc) as (Hr & _ & _ & Hd & _).
  fold run in Hr, Hd. rewrite submitted_length. split; [|split].
  - intros h. rewrite Hr.
    destruct (nth_error (semaphores (fst run)) h) as [x|];
      [destruct (is_done x)|]; lia.
  - intros h Hh. rewrite Hr.
    now rewrite (proj2 (nth_error_None _ _) Hh).
  - destruct (snd run) as [v|e]; [|exact I].
    intros h Hh. destruct (Hd v eq_refl h Hh) as (x & v' & Hx & Hst).
    rewrite Hr, Hx. unfold is_done. now rewrite Hst.
Qed.

(** X19. With a progress bar, [multigpu_run] opens it once, with the
    number of chunks as its total, and never closes it.  In a run that
    returns the bar has been updated exactly once per chunk; in a run
    that raises, at most once per chunk.  Without a progress bar none is
    opened or updated. *)
Theorem multigpu_progress_bar_left_open {TX TY B P : Type}
        (exec_function : list TX * list TY -> P -> outcome (option (list B)))
        (exec_params : P)
        (data : list TX * list TY) (gpu_count : Z) (pbar : bool)
        (step_size : option Z) (verbose : Z) (orc : list (list nat)) :
  let run := multigpu_run exec_function exec_params data gpu_count pbar
                          step_size verbose orc in
  let step := snd (gpu_steps (Py.len (fst data)) gpu_count) in
  filter is_pbar (trace (fst run))
  = (if pbar then [EvPbarOpen step] else []) /\
  match snd run with
  | Ok _ => count is_update (trace (fst run))
            = if pbar then Z.to_nat step else 0%nat
  | Raise _ => (count is_update (trace (fst run))
                <= if pbar then Z.to_nat step else 0)%nat
  end.
Proof.
  intros run step.
  destruct (multigpu_run_steps exec_function exec_params data gpu_count
              pbar step_size verbose orc)
    as (_ & L & Cb & Hd & ext & T & F & U).
  fold run step in L, Cb, Hd, T, U.
  assert (Hext : filter is_pbar ext = []).
  { apply filter_none. intros e He.
    rewrite forallb_forall in F. apply negb_true_iff. now apply F. }
  assert (Hcount : count is_update (trace (fst run))
                   = length (filter ticked (semaphores (fst run)))).
  { rewrite T, !count_app, U.
    destruct pbar, (snd run); unfold count; simpl; lia. }
  split.
  - rewrite T, !filter_app, Hext.
    destruct pbar, (snd run); reflexivity.
  - rewrite Hcount. rewrite Forall_forall in Cb.
    destruct pbar.
    + destruct (snd run) as [v|e].
      * rewrite <- L. f_equal. apply filter_all. intros x Hx.
        apply In_nth_error in Hx as (h & Hh).
        assert (Hlt : (h < length (semaphores (fst run)))%nat)
          by (apply nth_error_Some; congruence).
        destruct (Hd v eq_refl h Hlt) as (x' & v' & Hx' & Hst).
        rewrite Hh in Hx'. injection Hx' as <-.
        unfold ticked. now rewrite Hst, (Cb x (nth_error_In _ _ Hh)).
      * rewrite <- L. apply filter_length_le.
    + rewrite filter_none.
      * destruct (snd run); simpl; lia.
      * intros x Hx. unfold ticked. now rewrite (Cb x Hx).
Qed.


(** ** [multigpu_run]: the device queue of a run *)

Lemma range_succ (n : Z) : 0 <= n -> Py.range (n + 1) = Py.range n ++ [n].
Proof.
  intros Hn. unfold Py.range.
  replace (Z.to_nat (n + 1)) with (S (Z.to_nat n)) by lia.
  rewrite seq_S, map_app. simpl. now rewrite Z2Nat.id by lia.
Qed.

Lemma range_mod (D : Z) :
  map (fun dev => dev mod D) (Py.range D) = Py.range D.
Proof.
  rewrite <- (map_id (Py.range D)) at 2.
  apply map_ext_in. intros i Hi. unfold Py.range in Hi.
  apply in_map_iff in Hi as (k & <- & Hk). apply in_seq in Hk.
  apply Z.mod_small. lia.
Qed.

(** The queue of lines 139-143 over the steps of lines 130-136: the
    device ids [0 .. D - 1], and one more [0] when there is a step for the
    remainder. *)
Lemma device_queue_of_steps (N D : Z) :
  0 <= N -> 0 < D ->
  device_queue D (snd (gpu_steps N D))
  = Some (Py.range D
            ++ if (D >? 1) && negb (N mod D =? 0) then [0] else []).
Proof.
  intros HN HD. unfold device_queue.
  replace (D >? 0) with true by (symmetry; apply Z.gtb_lt; lia).
  f_equal.
  destruct (D >? 1) eqn:E.
  - apply Z.gtb_lt in E. rewrite gpu_steps_many by lia. cbn [snd andb].
    destruct (N mod D =? 0); cbn [negb].
    + now rewrite Z.add_0_r, range_mod, app_nil_r.
    + rewrite range_succ, map_app, range_mod by lia. simpl.
      now rewrite Z.mod_same by lia.
  - rewrite Z.gtb_ltb in E. apply Z.ltb_ge in E.
    destruct (gpu_steps_single N D HN E) as (-> & _). cbn [snd andb].
    replace D with 1 by lia. reflexivity.
Qed.

(** C6 (as amended). The device queue [multigpu_run] builds has one
    entry per step of the run, not one per slot of a number [W] of
    slots that could be chosen: with [D > 0] devices it is the FIFO
    sequence whose entry [i] is [i % D], of length 1 for [D = 1] and [D],
    or [D + 1] when the rows do not divide evenly, for [D > 1]; that is
    [0 .. D - 1], followed by one more [0] in the last case.  The [D]
    worker processes of the pool take one entry each, in queue order,
    when they start.  With [D = 0] no queue is built: the pool is
    created with [None] in its place. *)
Theorem C6_device_queue_of_run {TX TY B P : Type}
        (exec_function : list TX * list TY -> P -> outcome (option (list B)))
        (exec_params : P) (data : list TX * list TY)
        (pbar : bool) (step_size : option Z) (verbose : Z)
        (orc : list (list nat)) (D : Z) :
  let N := Py.len (fst data) in
  let step := if D >? 1 then D + (if N mod D =? 0 then 0 else 1) else 1 in
  exists q : option (list Z),
    filter is_create
           (trace (fst (multigpu_run exec_function exec_params data D pbar
                                     step_size verbose orc)))
    = [EvPoolCreate D (InitDevice q D)] /\
    (0 < D ->
     exists l,
       q = Some l /\
       length l = Z.to_nat step /\
       (forall i, 0 <= i < step -> nth_error l (Z.to_nat i) = Some (i mod D)) /\
       l = Py.range D
             ++ (if (D >? 1) && negb (N mod D =? 0) then [0] else []) /\
       start_workers (Z.to_nat D) q D = map Some (Py.range D)) /\
    (D = 0 -> q = None).
Proof.
  intros N step.
  assert (HN : 0 <= N) by (unfold N, Py.len; lia).
  exists (device_queue D (snd (gpu_steps N D))).
  split; [apply multigpu_run_pool|]. split.
  - intros HD.
    assert (Hstep : snd (gpu_steps N D) = step).
    { unfold step. destruct (D >? 1) eqn:E.
      - apply Z.gtb_lt in E. now rewrite gpu_steps_many by lia.
      - rewrite Z.gtb_ltb in E. apply Z.ltb_ge in E.
        now destruct (gpu_steps_single N D HN E) as (-> & _). }
    assert (Hq : device_queue D (snd (gpu_steps N D))
                 = Some (map (fun dev => dev mod D) (Py.range step))).
    { rewrite Hstep. unfold device_queue.
      now replace (D >? 0) with true by (symmetry; apply Z.gtb_lt; lia). }
    pose proof (device_queue_of_steps N D HN HD) as Hl.
    rewrite Hq in Hl. injection Hl as Hl.
    exists (map (fun dev => dev mod D) (Py.range step)).
    split; [exact Hq|]. split; [|split; [|split]].
    + now rewrite length_map, range_length.
    + intros i Hi. unfold Py.range.
      rewrite !nth_error_map, nth_error_seq.
      replace (Z.to_nat i <? Z.to_nat step)%nat with true
        by (symmetry; apply Nat.ltb_lt; lia).
      simpl. now rewrite Z2Nat.id by lia.
    + exact Hl.
    + rewrite Hq, Hl, start_workers_prefix
        by (rewrite length_app, range_length; lia).
      f_equal.
      rewrite firstn_app, range_length, Nat.sub_diag, firstn_O, app_nil_r.
      apply firstn_all2. rewrite range_length. lia.
  - intros ->. reflexivity.
Qed.

(** C6 (as amended) at two devices and five rows: three steps, the
    queue [0, 1, 0], and the two workers on the devices 0 and 1. *)
Lemma C6_two_devices_five_rows :
  0 < 2 /\
  exists l,
    filter is_create (trace (fst gpu_run_5_2))
    = [EvPoolCreate 2 (InitDevice (Some l) 2)] /\
    l = [0; 1; 0] /\
    (forall i, 0 <= i < 3 -> nth_error l (Z.to_nat i) = Some (i mod 2)) /\
    start_workers 2 (Some l) 2 = [Some 0; Some 1].
Proof.
  split; [lia|].
  destruct (C6_device_queue_of_run features tt
              ([0; 1; 2; 3; 4], [10; 11; 12; 13; 14]) false None 0 [] 2)
    as (q & Hq & Hpos & _).
  destruct (Hpos ltac:(lia)) as (l & -> & _ & Hnth & Hl & Hw).
  exists l. split; [exact Hq|]. split; [exact Hl|].
  split; [exact Hnth | exact Hw].
Defined.

(** C6 (as the claim states it) fails: with [D = 2] the queue of a run
    over five rows is [0, 1, 0], and over any workload it has two or
    three entries, so the queue [0, 1, 0, 1, 0] of [W = 5] slots is never
    built. *)
Lemma C6_no_five_slot_queue :
  filter is_create (trace (fst gpu_run_5_2))
  = [EvPoolCreate 2 (InitDevice (Some [0; 1; 0]) 2)] /\
  forall (data : list Z * list Z) (pbar : bool) (step_size : option Z)
         (verbose : Z) (orc : list (list nat)),
    filter is_create
           (trace (fst (multigpu_run features tt data 2 pbar step_size
                                     verbose orc)))
    <> [EvPoolCreate 2 (InitDevice (Some [0; 1; 0; 1; 0]) 2)].
Proof.
  split; [reflexivity|].
  intros data pbar step_size verbose orc H.
  rewrite multigpu_run_pool in H.
  rewrite device_queue_of_steps in H by (unfold Py.len; lia).
  destruct ((2 >? 1) && negb (Py.len (fst data) mod 2 =? 0));
    discriminate H.
Qed.
